(** * Network security group sample: provisioning and clean-up orchestrator

    A shallow embedding of the flag-aware variant of [sample.go] (the second
    program of the source file: [main], [init], [createResourceGroup],
    [deleteResourceGroup], [createVirtualNetwork],
    [createNetworkSecurityGroup], [validateParameters],
    [getUniqueResourceGroupName], [executeWithStatus], [getFailureStatus]).
    The first program of the file, an earlier revision, is embedded in the
    module [V1].

    Go values are modelled as follows.
    - [string] is [String.string]; Go compares strings byte by byte, which
      is [String.compare] on 8-bit [ascii].
    - [int]/[uint] values that are printed with [%d] are [Z]/[N]; slice
      indices are [nat].
    - [error] is the message of the error ([err.Error()]); a possibly nil
      error is [option Error].
    - a pointer that the program dereferences is an [option]; dereferencing
      [None] is a run-time panic.
    - the Azure SDK, [adal] and [guid] are outside the repository: the remote
      service is an arbitrary function from the history of earlier exchanges
      and the request to a reply, the two libraries are section variables. *)

From Stdlib Require Import String Ascii List ZArith NArith Lia Bool.
From Stdlib Require Import DecimalString DecimalPos DecimalZ Permutation Sorted.
Import ListNotations.

Local Open Scope string_scope.
Local Open Scope Z_scope.

(** ** Text helpers *)

Definition chr (n : nat) : string := String (ascii_of_nat n) EmptyString.
Definition nl : string := chr 10.
Definition tab : string := chr 9.
Definition dquote : string := chr 34.

(** [fmt.Sprintf("%d", z)]: decimal rendering of an integer. *)
Definition itoa (z : Z) : string := NilZero.string_of_int (Z.to_int z).

(** [strings.HasPrefix(s, prefix)]. *)
Definition HasPrefix (s prefix : string) : bool := String.prefix prefix s.

(** [sort.Strings]: ascending byte-wise order.  The order is total and
    antisymmetric, so every correct sort returns this very list (see
    [sort_Strings_unique] below). *)
Fixpoint insert_string (s : string) (l : list string) : list string :=
  match l with
  | [] => [s]
  | x :: l' => if String.leb s x then s :: l else x :: insert_string s l'
  end.

Definition sort_Strings (l : list string) : list string :=
  fold_right insert_string [] l.

(** ** Name allocator (pure part of [getUniqueResourceGroupName]) *)

Definition resourceGroupNamePrefix : string := "networkSecurityGroupSample".

(** [fmt.Sprintf("%s%d", resourceGroupNamePrefix, i)]. *)
Definition candidate (i : nat) : string :=
  resourceGroupNamePrefix ++ itoa (Z.of_nat i).

(** The [for _, rg := range *groupList.Value] loop over names that are all
    present: the flag [any] and the slice [seen]. *)
Definition collectSeen (names : list string) : bool * list string :=
  fold_left
    (fun (acc : bool * list string) name =>
       if HasPrefix name resourceGroupNamePrefix
       then (true, (snd acc ++ [name])%list)
       else acc)
    names (false, []).

(** From [sort.Strings(seen)] to the three [return]s of the success branch:
    [seen] is sorted; when its first element is the bare prefix, the loop
    [for i := 0; i < count; i++] returns the first [candidate i] that
    differs from [seen[i+1]], and [candidate (len(seen)-1)] when there is
    none. *)
Definition firstFit (any : bool) (unsorted : list string) : string :=
  let seen := sort_Strings unsorted in
  if any && String.eqb (nth 0 seen EmptyString) resourceGroupNamePrefix then
    let count := (length seen - 1)%nat in
    match find (fun i => negb (String.eqb (nth (i + 1) seen EmptyString) (candidate i)))
               (seq 0 count) with
    | Some i => candidate i
    | None => candidate (length seen - 1)
    end
  else resourceGroupNamePrefix.

Definition uniqueNameAmong (names : list string) : string :=
  let '(any, seen) := collectSeen names in firstFit any seen.

(** ** Values exchanged with the remote service *)

Definition Error : Type := string.

(** [http.Response], as far as the program reads it. *)
Record http_Response : Type := mk_http_Response {
  StatusCode : Z;
  Status : string
}.

(** [autorest.Response] embeds a [*http.Response]; [None] is the nil pointer. *)
Definition autorest_Response : Type := option http_Response.

Definition http_StatusOK : Z := 200.

(** [resources.Group] and [network.SecurityGroup]: the [Name *string] field. *)
Record Group : Type := mk_Group { Group_Name : option string }.
Record SecurityGroup : Type := mk_SecurityGroup { SecurityGroup_Name : option string }.

(** The requests the program sends, with the identifiers they carry. *)
Inductive Call : Type :=
| GroupsList
| GroupsCreateOrUpdate (name location : string)
| GroupsDelete (name : string)
| VirtualNetworksCreateOrUpdate (resourceGroupName name : string)
| SecurityGroupsCreateOrUpdate (resourceGroupName name : string)
| SecurityGroupsGet (resourceGroupName name : string)
| SubnetsCreateOrUpdate (resourceGroupName vNetName name : string)
| SecurityRulesCreateOrUpdate (resourceGroupName nsgName ruleName : string).

(** What a call hands back: the embedded response and the error of every
    SDK result, the [Value *[]Group] of a list result and the [Name] of a
    security group.  The channel pair of the asynchronous calls is read as
    the pair it delivers. *)
Record Reply : Type := mk_Reply {
  Response : autorest_Response;
  Err : option Error;
  Value : option (list Group);
  Name : option string
}.

Record Exchange : Type := mk_Exchange { request : Call; reply : Reply }.

(** ** Process state *)

(** [time.Duration] is an [int64] count of nanoseconds: the conversion
    [time.Duration(n)] and the product of two durations wrap around. *)
Definition int64 (z : Z) : Z := (z + 2 ^ 63) mod 2 ^ 64 - 2 ^ 63.

Definition time_Second : Z := 1000000000.

Definition time_Duration (n : N) : Z := int64 (Z.of_N n).

(** What the process writes and waits for, in order. *)
Inductive Console : Type :=
| Stdout (s : string)
| Stderr (s : string)
| Usage                    (* flag.PrintDefaults() *)
| Scanln                   (* fmt.Scanln() *)
| Sleep (d : Z).           (* time.Sleep(d), [d] in nanoseconds; no wait when d <= 0 *)

(** The calls that [main] defers. *)
Inductive Deferred : Type :=
| DeferOsExit                                  (* func() { os.Exit(exitStatus) } *)
| DeferDeleteResourceGroup (name : string).    (* deleteResourceGroup(client, name, cancel) *)

(** [exitStatus] and the stack of deferred calls are locals of [main]; they
    live here because the deferred closure reads [exitStatus] when it runs. *)
Record World : Type := mk_World {
  exchanges : list Exchange;
  console : list Console;
  exitStatus : Z;
  deferred : list Deferred
}.

(** How a piece of code stops: it goes on with a value, [main] executes
    [return] (only the body of [main] uses it), or the goroutine panics. *)
Inductive Flow (A : Type) : Type :=
| Next (a : A)
| Returned
| Panic.
Arguments Next {A} a.
Arguments Returned {A}.
Arguments Panic {A}.

Definition M (A : Type) : Type := World -> Flow A * World.

Definition ret {A} (a : A) : M A := fun w => (Next a, w).

Definition bind {A B} (m : M A) (k : A -> M B) : M B :=
  fun w =>
    match m w with
    | (Next a, w') => k a w'
    | (Returned, w') => (Returned, w')
    | (Panic, w') => (Panic, w')
    end.

Declare Scope go_scope.
Delimit Scope go_scope with go.
Notation "x <- m ;; k" := (bind m (fun x => k))
  (at level 61, m at next level, right associativity) : go_scope.
Notation "' pat <- m ;; k" := (bind m (fun pat => k))
  (at level 61, pat pattern, m at next level, right associativity) : go_scope.
Notation "m ;; k" := (bind m (fun _ => k))
  (at level 61, right associativity) : go_scope.
Local Open Scope go_scope.

Definition panic {A} : M A := fun w => (Panic, w).
Definition return_ {A} : M A := fun w => (Returned, w).

(** [*p]. *)
Definition deref {A} (p : option A) : M A :=
  match p with
  | Some a => ret a
  | None => panic
  end.

Definition emit (e : Console) : M unit :=
  fun w => (Next tt, mk_World (exchanges w) (console w ++ [e])%list (exitStatus w) (deferred w)).

Definition setExitStatus (code : Z) : M unit :=
  fun w => (Next tt, mk_World (exchanges w) (console w) code (deferred w)).

Definition defer (d : Deferred) : M unit :=
  fun w => (Next tt, mk_World (exchanges w) (console w) (exitStatus w) (d :: deferred w)).

(** The [io.Writer] held by the package variable [output]. *)
Inductive Writer : Type :=
| NilWriter        (* the zero value, before [init] assigns it *)
| Discard          (* ioutil.Discard *)
| StdoutWriter.    (* os.Stdout *)

(** [fmt.Fprint(w, s)] and its siblings, once the text is formatted. *)
Definition Fprint (w : Writer) (s : string) : M unit :=
  match w with
  | NilWriter => panic
  | Discard => ret tt
  | StdoutWriter => emit (Stdout s)
  end.

(** Exit status codes ([iota] constants). *)
Definition ExitSuccess : Z := 0.
Definition ExitAuthenticationFailure : Z := 1.
Definition ExitResourceGroupCreationFailure : Z := 2.
Definition ExitVirtualNetworkCreationFailure : Z := 3.
Definition ExitNetworkSecuritryGroupCreationFailure : Z := 4.
Definition ExitSecurityRuleCreationFailure : Z := 5.
Definition ExitSubnetCreationFailure : Z := 6.

Definition sampleLocation : string := "westus2".

Definition azureEnvVarNameSubscriptionID : string := "AZURE_SUBSCRIPTION_ID".
Definition azureEnvVarNameClientID : string := "AZURE_CLIENT_ID".
Definition azureEnvVarNameClientSecret : string := "AZURE_CLIENT_SECRET".
Definition azureEnvVarNameTenantID : string := "AZURE_TENANT_ID".

(** [getFailureStatus]. *)
Definition getFailureStatus (err : option Error) (response : autorest_Response) : string :=
  let retval := EmptyString in
  let retval :=
    match response with
    | Some r => retval ++ tab ++ "Status Code: " ++ itoa (StatusCode r) ++ nl
                       ++ tab ++ "Status: " ++ Status r ++ nl
    | None => retval
    end in
  let retval :=
    match err with
    | Some e => retval ++ tab ++ "Error: " ++ e ++ nl
    | None => retval
    end in
  if String.eqb EmptyString retval then "An unknown error occurred." ++ nl else retval.

(** [newMissingAzureAuthError]. *)
Definition newMissingAzureAuthError (pretty envVarName : string) : Error :=
  "No value was provieded to act as the " ++ pretty
    ++ ". Set enviroment variable " ++ dquote ++ envVarName ++ dquote.

(** Command-line flags after [flag.Parse] accepted the command line, and the
    four values [os.Getenv] returns (empty when the variable is unset).
    [flag_delay] is a [uint]: [flag.Parse] accepts no value beyond its
    range, which is at most 64 bits wide. *)
Record Flags : Type := mk_Flags {
  flag_quiet : bool;
  flag_pause : bool;
  flag_delay : N;
  flag_help : bool
}.

Record Env : Type := mk_Env {
  AZURE_SUBSCRIPTION_ID : string;
  AZURE_CLIENT_ID : string;
  AZURE_CLIENT_SECRET : string;
  AZURE_TENANT_ID : string
}.

(** ** The program *)

Section Program.

(** [github.com/marstr/guid]: [guid.Parse] and [Stringf(guid.FormatD)]. *)
Variable GUID : Type.
Variable guid_Parse : string -> option GUID.
Variable guid_StringfD : GUID -> string.

(** [adal.NewOAuthConfig(azure.PublicCloud.ActiveDirectoryEndpoint, tenantID)]
    and [adal.NewServicePrincipalToken(config, clientID, clientSecret,
    azure.PublicCloud.ResourceManagerEndpoint)]: either the value or the
    error.  Neither contacts the remote service. *)
Variable OAuthConfig : Type.
Variable Token : Type.
Variable adal_NewOAuthConfig : string -> OAuthConfig + Error.
Variable adal_NewServicePrincipalToken : OAuthConfig -> string -> string -> Token + Error.

(** The remote service: the reply to a request, given every exchange so far. *)
Variable azure : list Exchange -> Call -> Reply.

(** Package-level variables.  [init] is their only writer. *)
Record Globals : Type := mk_Globals {
  subscriptionID : string;
  clientID : string;
  clientSecret : string;
  tenantID : string;
  token : option Token;
  output : Writer;
  pause : bool;
  delay : N;
  help : bool
}.

(** A blocking SDK call. *)
Definition remote (c : Call) : M Reply :=
  fun w =>
    let r := azure (exchanges w) c in
    (Next r,
     mk_World (exchanges w ++ [mk_Exchange c r])%list (console w) (exitStatus w) (deferred w)).

(** [response.StatusCode], a field promoted through the embedded pointer. *)
Definition statusCode (response : autorest_Response) : M Z :=
  r <- deref response ;; ret (StatusCode r).

(** [executeWithStatus]. *)
Definition executeWithStatus (g : Globals)
    (operation : M (autorest_Response * option Error)) (message : string)
  : M (autorest_Response * option Error) :=
  Fprint (output g) (message ++ "...") ;;
  '(response, err) <- operation ;;
  ok <- match err with
        | None => code <- statusCode response ;; ret (http_StatusOK =? code)
        | Some _ => ret false
        end ;;
  (if ok : bool then Fprint (output g) ("SUCCESS" ++ nl)
   else Fprint (output g) ("FAILED" ++ nl) ;;
        emit (Stderr (getFailureStatus err response))) ;;
  ret (response, err).

(** The [range] loop of [getUniqueResourceGroupName] with its two
    dereferences, [*groupList.Value] (done by the caller) and [*rg.Name]. *)
Fixpoint collectGroups (groups : list Group) (any : bool) (seen : list string)
  : M (bool * list string) :=
  match groups with
  | [] => ret (any, seen)
  | rg :: rest =>
      name <- deref (Group_Name rg) ;;
      if HasPrefix name resourceGroupNamePrefix
      then collectGroups rest true (seen ++ [name])%list
      else collectGroups rest any seen
  end.

(** [getUniqueResourceGroupName]. *)
Definition getUniqueResourceGroupName : M (string * option Error) :=
  groupList <- remote GroupsList ;;
  match Err groupList with
  | Some err => ret (EmptyString, Some err)
  | None =>
      code <- statusCode (Response groupList) ;;
      if http_StatusOK =? code then
        groups <- deref (Value groupList) ;;
        '(any, seen) <- collectGroups groups false [] ;;
        ret (firstFit any seen, None)
      else ret (EmptyString, Some ("Bad response: " ++ itoa code))
  end.

(** [createResourceGroup]; the client handle it also returns is left out. *)
Definition createResourceGroup (g : Globals) : M (string * option Error) :=
  '(resourceGroupName, err) <- getUniqueResourceGroupName ;;
  match err with
  | Some e => emit (Stderr e) ;; ret (resourceGroupName, err)
  | None =>
      Fprint (output g) ("Creating Resource Group '" ++ resourceGroupName ++ "'...") ;;
      created <- remote (GroupsCreateOrUpdate resourceGroupName sampleLocation) ;;
      match Err created with
      | Some e =>
          Fprint (output g) ("FAILED" ++ nl) ;;
          emit (Stderr (tab ++ "Error: " ++ e ++ nl)) ;;
          ret (EmptyString, Err created)
      | None =>
          Fprint (output g) ("SUCCESS" ++ nl) ;;
          ret (resourceGroupName, Err created)
      end
  end.

(** The closure every caller hands to [executeWithStatus]: send the request
    and read the response and the error off the two channels. *)
Definition await (c : Call) : M (autorest_Response * option Error) :=
  r <- remote c ;; ret (Response r, Err r).

(** [deleteResourceGroup]. *)
Definition deleteResourceGroup (g : Globals) (name : string) : M (option Error) :=
  '(_, err) <- executeWithStatus g (await (GroupsDelete name))
                 ("Deleting Resource Group '" ++ name ++ "'") ;;
  ret err.

(** [createVirtualNetwork]. *)
Definition createVirtualNetwork (g : Globals) (resourceGroupName : string)
  : M (string * option Error) :=
  let networkName := "sampleVirtualNetwork" in
  '(_, err) <- executeWithStatus g
                 (await (VirtualNetworksCreateOrUpdate resourceGroupName networkName))
                 ("Creating Virtual Network '" ++ networkName ++ "'") ;;
  ret (networkName, err).

(** [createNetworkSecurityGroup]: the error of the creation is overwritten
    by the one of [client.Get], which is what the function returns. *)
Definition createNetworkSecurityGroup (g : Globals) (resourceGroupName name : string)
  : M (SecurityGroup * option Error) :=
  '(_, _) <- executeWithStatus g
               (await (SecurityGroupsCreateOrUpdate resourceGroupName name))
               ("Creating Network Security Group '" ++ name ++ "'") ;;
  result <- remote (SecurityGroupsGet resourceGroupName name) ;;
  ret (mk_SecurityGroup (Name result), Err result).

(** [validateParameters]: the errors, and the package variables with the
    identifiers that parse replaced by their canonical text. *)
Definition validateParameters (g : Globals) : list Error * Globals :=
  let uuidErr (envVarName : string) : Error :=
    "argument '" ++ envVarName ++ "' was not of type Uuid as expected" in
  let errs : list Error := [] in
  let '(errs, tenant) :=
    if String.eqb EmptyString (tenantID g)
    then ((errs ++ [newMissingAzureAuthError "Azure Tenant ID" azureEnvVarNameTenantID])%list,
          tenantID g)
    else match guid_Parse (tenantID g) with
         | None => ((errs ++ [uuidErr azureEnvVarNameTenantID])%list, tenantID g)
         | Some parsed => (errs, guid_StringfD parsed)
         end in
  let '(errs, subscription) :=
    if String.eqb EmptyString (subscriptionID g)
    then ((errs ++ [newMissingAzureAuthError "Azure Subscription ID"
                      azureEnvVarNameSubscriptionID])%list,
          subscriptionID g)
    else match guid_Parse (subscriptionID g) with
         | None => ((errs ++ [uuidErr azureEnvVarNameSubscriptionID])%list, subscriptionID g)
         | Some parsed => (errs, guid_StringfD parsed)
         end in
  let '(errs, client) :=
    if String.eqb EmptyString (clientID g)
    then ((errs ++ [newMissingAzureAuthError "Azure Client ID" azureEnvVarNameClientID])%list,
          clientID g)
    else match guid_Parse (clientID g) with
         | None => ((errs ++ [uuidErr azureEnvVarNameClientID])%list, clientID g)
         | Some parsed => (errs, guid_StringfD parsed)
         end in
  let errs :=
    if String.eqb EmptyString (clientSecret g)
    then (errs ++ [newMissingAzureAuthError "Azure Client Secret"
                     azureEnvVarNameClientSecret])%list
    else errs in
  (errs,
   mk_Globals subscription client (clientSecret g) tenant
              (token g) (output g) (pause g) (delay g) (help g)).

(** [init]: the package variables it leaves and what it wrote. *)
Definition init (flags : Flags) (env : Env) : Globals * list Console :=
  let g := mk_Globals (AZURE_SUBSCRIPTION_ID env) (AZURE_CLIENT_ID env)
                      (AZURE_CLIENT_SECRET env) (AZURE_TENANT_ID env)
                      None NilWriter (flag_pause flags) (flag_delay flags)
                      (flag_help flags) in
  if help g then (g, [Usage])
  else
    let g := mk_Globals (subscriptionID g) (clientID g) (clientSecret g) (tenantID g)
                        (token g)
                        (if flag_quiet flags then Discard else StdoutWriter)
                        (pause g) (delay g) (help g) in
    let '(errs, g) := validateParameters g in
    if (0 <? length errs)%nat
    then (g, map (fun err => Stderr ("Invalid argument. Details: " ++ err ++ nl)) errs)
    else
      match adal_NewOAuthConfig (tenantID g) with
      | inr err => (g, [Stderr err])
      | inl authConfig =>
          match adal_NewServicePrincipalToken authConfig (clientID g) (clientSecret g) with
          | inr err => (g, [Stderr err])
          | inl t =>
              (mk_Globals (subscriptionID g) (clientID g) (clientSecret g) (tenantID g)
                          (Some t) (output g) (pause g) (delay g) (help g), [])
          end
      end.

(** The statement [if nil != err { exitStatus = code; return }] of [main]. *)
Definition failWhen (err : option Error) (code : Z) : M unit :=
  match err with
  | Some _ => setExitStatus code ;; return_
  | None => ret tt
  end.

(** [ruleClient.CreateOrUpdate(resourceGroupName, *nsg.Name, ruleName, rule,
    cancel)] inside its closure: the name of the group is dereferenced when
    the closure runs. *)
Definition createRule (resourceGroupName : string) (nsg : SecurityGroup) (ruleName : string)
  : M (autorest_Response * option Error) :=
  nsgName <- deref (SecurityGroup_Name nsg) ;;
  await (SecurityRulesCreateOrUpdate resourceGroupName nsgName ruleName).

(** The statements of [main], from [exitStatus := ExitSuccess] to the end of
    the function body. *)
Definition main_body (g : Globals) : M unit :=
  setExitStatus ExitSuccess ;;
  defer DeferOsExit ;;
  (if help g then return_ else ret tt) ;;
  match token g with
  | None =>
      emit (Stderr ("Fatal Error: Authentication Failed." ++ nl)) ;;
      setExitStatus ExitAuthenticationFailure ;;
      return_
  | Some _ => ret tt
  end ;;
  '(resourceGroupName, err) <- createResourceGroup g ;;
  failWhen err ExitResourceGroupCreationFailure ;;
  defer (DeferDeleteResourceGroup resourceGroupName) ;;
  '(vNetName, err) <- createVirtualNetwork g resourceGroupName ;;
  failWhen err ExitVirtualNetworkCreationFailure ;;
  '(frontEndNSG, err) <- createNetworkSecurityGroup g resourceGroupName "frontend" ;;
  failWhen err ExitNetworkSecuritryGroupCreationFailure ;;
  '(backEndNSG, err) <- createNetworkSecurityGroup g resourceGroupName "backend" ;;
  failWhen err ExitNetworkSecuritryGroupCreationFailure ;;
  '(_, err) <- executeWithStatus g
                 (await (SubnetsCreateOrUpdate resourceGroupName vNetName "frontendSubnet"))
                 "Creating Subnet 'frontendSubnet'" ;;
  failWhen err ExitSubnetCreationFailure ;;
  '(_, err) <- executeWithStatus g
                 (await (SubnetsCreateOrUpdate resourceGroupName vNetName "backendSubnet"))
                 "Creating Subnet 'backendSubnet'" ;;
  failWhen err ExitSubnetCreationFailure ;;
  '(_, err) <- executeWithStatus g
                 (createRule resourceGroupName frontEndNSG "ALLOW-SSH")
                 "Creating Security Rule 'Allow SSH'" ;;
  failWhen err ExitSecurityRuleCreationFailure ;;
  executeWithStatus g
    (createRule resourceGroupName frontEndNSG "ALLOW-HTTP")
    "Creating Security Rule 'Allow HTTP'" ;;
  (* [err] is still the error of the first rule here *)
  failWhen err ExitSecurityRuleCreationFailure ;;
  executeWithStatus g
    (createRule resourceGroupName backEndNSG "ALLOW-SQL")
    ("Creating Security Rule " ++ dquote ++ "ALLOW-SQL" ++ dquote) ;;
  executeWithStatus g
    (createRule resourceGroupName backEndNSG "DENY-OUT")
    ("Creating Security Rule " ++ dquote ++ "DENY-OUT" ++ dquote) ;;
  if pause g then
    emit (Stdout "Press Enter to continue...") ;;
    emit Scanln
  else if (0 <? delay g)%N then
    Fprint (output g) ("Delaying " ++ itoa (Z.of_N (delay g)) ++ " seconds...") ;;
    emit (Sleep (int64 (time_Second * time_Duration (delay g)))) ;;
    Fprint (output g) ("DONE" ++ nl)
  else ret tt.

Definition panicked {A} (f : Flow A) : bool :=
  match f with
  | Panic => true
  | _ => false
  end.

(** What the Go runtime does when the body of [main] has stopped, by
    [return], by reaching its end or by a panic: the deferred calls run,
    last registered first, also when one of them panics.  [os.Exit] ends the
    process with the status it is given, whatever else is pending; without
    it the process would end with 0, or with 2 after a panic. *)
Fixpoint runDeferred (g : Globals) (panicking : bool) (stack : list Deferred) (w : World)
  : Z * World :=
  match stack with
  | [] => (if panicking then 2 else 0, w)
  | DeferOsExit :: _ => (exitStatus w, w)
  | DeferDeleteResourceGroup name :: rest =>
      let '(f, w') := deleteResourceGroup g name w in
      runDeferred g (panicking || panicked f) rest w'
  end.

(** [main]: the exit code of the process and the final state. *)
Definition main (g : Globals) (w : World) : Z * World :=
  let '(f, w') := main_body g w in
  runDeferred g (panicked f) (deferred w') w'.

(** A run of the process: [init], then [main]. *)
Definition run (flags : Flags) (env : Env) : Z * World :=
  let '(g, written) := init flags env in
  main g (mk_World [] written ExitSuccess []).

End Program.

Arguments mk_Globals {Token}.
Arguments subscriptionID {Token}.
Arguments clientID {Token}.
Arguments clientSecret {Token}.
Arguments tenantID {Token}.
Arguments token {Token}.
Arguments output {Token}.
Arguments pause {Token}.
Arguments delay {Token}.
Arguments help {Token}.
Arguments executeWithStatus {Token}.
Arguments createResourceGroup {Token}.
Arguments deleteResourceGroup {Token}.
Arguments createVirtualNetwork {Token}.
Arguments createNetworkSecurityGroup {Token}.
Arguments validateParameters {GUID} guid_Parse guid_StringfD {Token}.
Arguments init {GUID} guid_Parse guid_StringfD {OAuthConfig Token}.
Arguments main_body {Token}.
Arguments runDeferred {Token}.
Arguments main {Token}.
Arguments run {GUID} guid_Parse guid_StringfD {OAuthConfig Token}.

(** ** Vocabulary of the properties *)

Definition absent {A} (o : option A) : bool :=
  match o with
  | None => true
  | Some _ => false
  end.

(** What [fmt.Fprint] leaves on the console. *)
Definition written (out : Writer) (s : string) : list Console :=
  match out with
  | StdoutWriter => [Stdout s]
  | _ => []
  end.

Definition said (out : Writer) (s : string) (w : World) : World :=
  mk_World (exchanges w) (console w ++ written out s)%list (exitStatus w) (deferred w).

(** The status of a response is the success status. *)
Definition statusOK (response : autorest_Response) : bool :=
  match response with
  | Some r => http_StatusOK =? StatusCode r
  | None => false
  end.

(** The two narrations of [executeWithStatus]. *)
Definition successReport (out : Writer) : list Console :=
  written out ("SUCCESS" ++ nl).

Definition failureReport (out : Writer) (err : option Error) (response : autorest_Response)
  : list Console :=
  (written out ("FAILED" ++ nl) ++ [Stderr (getFailureStatus err response)])%list.

Definition narration (out : Writer) (response : autorest_Response) (err : option Error)
  : list Console :=
  if absent err && statusOK response then successReport out
  else failureReport out err response.

Definition narrated (out : Writer) (response : autorest_Response) (err : option Error)
    (w : World) : World :=
  mk_World (exchanges w) (console w ++ narration out response err)%list
           (exitStatus w) (deferred w).

(** The kind of a request. *)
Inductive Resource : Type :=
| ResourceGroup | VirtualNetwork | NetworkSecurityGroup | Subnet | SecurityRule.

Inductive Operation : Type :=
| OpList
| OpGet (r : Resource)
| OpCreate (r : Resource)
| OpDelete (r : Resource).

Definition operationOf (c : Call) : Operation :=
  match c with
  | GroupsList => OpList
  | GroupsCreateOrUpdate _ _ => OpCreate ResourceGroup
  | GroupsDelete _ => OpDelete ResourceGroup
  | VirtualNetworksCreateOrUpdate _ _ => OpCreate VirtualNetwork
  | SecurityGroupsCreateOrUpdate _ _ => OpCreate NetworkSecurityGroup
  | SecurityGroupsGet _ _ => OpGet NetworkSecurityGroup
  | SubnetsCreateOrUpdate _ _ _ => OpCreate Subnet
  | SecurityRulesCreateOrUpdate _ _ _ => OpCreate SecurityRule
  end.

(** ** Sample inputs *)

Definition ok200 : autorest_Response := Some (mk_http_Response 200 "200 OK").

(** A service on which every call succeeds; [names] are the resource groups
    it lists. *)
Definition azure_ok (names : list string) (h : list Exchange) (c : Call) : Reply :=
  match c with
  | GroupsList => mk_Reply ok200 None (Some (map (fun n => mk_Group (Some n)) names)) None
  | SecurityGroupsGet _ n => mk_Reply ok200 None None (Some n)
  | _ => mk_Reply ok200 None None None
  end.

Definition sample_guid_Parse (s : string) : option string :=
  if (String.length s =? 36)%nat then Some s else None.

Definition sample_NewOAuthConfig (tenant : string) : string + Error := inl tenant.

Definition sample_NewServicePrincipalToken (config client secret : string) : string + Error :=
  inl (client ++ ":" ++ secret).

Definition sample_env : Env :=
  mk_Env "11111111-2222-3333-4444-555555555555" "aaaaaaaa-bbbb-cccc-dddd-eeeeeeeeeeee"
         "secret" "99999999-8888-7777-6666-555555555555".

Definition sample_flags : Flags := mk_Flags false false 0 false.

Definition sample_globals : Globals string :=
  mk_Globals "s" "c" "secret" "t" (Some "token") StdoutWriter false 0%N false.

Definition sample_run (azure : list Exchange -> Call -> Reply) (f : Flags) (e : Env)
  : Z * World :=
  run sample_guid_Parse (fun s => s) sample_NewOAuthConfig sample_NewServicePrincipalToken
      azure f e.

Definition empty_world : World := mk_World [] [] 0 [].

(** A service that answers with neither a response nor an error. *)
Definition azure_silent (h : list Exchange) (c : Call) : Reply :=
  mk_Reply None None None None.

(** A service on which the creation of the virtual network fails. *)
Definition azure_vnet_fails (h : list Exchange) (c : Call) : Reply :=
  match c with
  | VirtualNetworksCreateOrUpdate _ _ => mk_Reply None (Some "quota exceeded") None None
  | _ => azure_ok [] h c
  end.

(** A service on which every security rule but ALLOW-SSH is refused. *)
Definition azure_later_rules_fail (h : list Exchange) (c : Call) : Reply :=
  match c with
  | SecurityRulesCreateOrUpdate _ _ rule =>
      if String.eqb rule "ALLOW-SSH" then azure_ok [] h c
      else mk_Reply None (Some "conflict") None None
  | _ => azure_ok [] h c
  end.

(** A service that refuses the rule ALLOW-SSH. *)
Definition azure_first_rule_fails (h : list Exchange) (c : Call) : Reply :=
  match c with
  | SecurityRulesCreateOrUpdate _ _ rule =>
      if String.eqb rule "ALLOW-SSH" then mk_Reply None (Some "conflict") None None
      else azure_ok [] h c
  | _ => azure_ok [] h c
  end.

(** A service on which the creation of a security group returns an error
    and its retrieval succeeds. *)
Definition azure_nsg_creation_fails (h : list Exchange) (c : Call) : Reply :=
  match c with
  | SecurityGroupsCreateOrUpdate _ _ => mk_Reply None (Some "throttled") None None
  | _ => azure_ok [] h c
  end.

(** A service that answers the creation of the virtual network with status
    500 and no error. *)
Definition azure_vnet_status_500 (h : list Exchange) (c : Call) : Reply :=
  match c with
  | VirtualNetworksCreateOrUpdate _ _ =>
      mk_Reply (Some (mk_http_Response 500 "500 Internal Server Error")) None None None
  | _ => azure_ok [] h c
  end.

(** A service that answers the creation of the rule ALLOW-SSH with the given
    status and no error. *)
Definition azure_first_rule_status (code : Z) (status : string)
    (h : list Exchange) (c : Call) : Reply :=
  match c with
  | SecurityRulesCreateOrUpdate _ _ rule =>
      if String.eqb rule "ALLOW-SSH"
      then mk_Reply (Some (mk_http_Response code status)) None None None
      else azure_ok [] h c
  | _ => azure_ok [] h c
  end.

(** The names with the suffixes 0 to [k]. *)
Definition run0to (k : nat) : list string := map candidate (seq 0 (S k)).

(** Resource groups left by twelve earlier runs of the sample: the bare
    prefix and the suffixes 0 to 10. *)
Definition twelve_groups : list string := resourceGroupNamePrefix :: run0to 10.

(** The same with suffix 12 in addition: suffix 11 is the first one missing. *)
Definition groups_with_gap_at_11 : list string := (twelve_groups ++ [candidate 12])%list.

(** ** Vocabulary of the properties of the allocator *)

(** The order of [sort.Strings]. *)
Definition le_string (a b : string) : Prop := String.leb a b = true.

(** The test of the [range] loop. *)
Definition hasSamplePrefix (name : string) : bool := HasPrefix name resourceGroupNamePrefix.

(** The scan of the sorted slice after its first element. *)
Fixpoint scanFrom (i : nat) (rest : list string) : string :=
  match rest with
  | [] => candidate i
  | s :: rest' => if String.eqb s (candidate i) then scanFrom (S i) rest' else candidate i
  end.

(** The least suffix from [i] on that is not in an increasing list. *)
Fixpoint firstMissing (i : nat) (js : list nat) : nat :=
  match js with
  | [] => i
  | j :: js' => if Nat.eqb j i then firstMissing (S i) js' else i
  end.

(** ** Vocabulary of the properties of a run *)

Definition operations (xs : list Exchange) : list Operation :=
  map (fun x => operationOf (request x)) xs.

Definition countOp (o : Operation) (xs : list Exchange) : nat :=
  length (filter (fun x =>
                    match o, operationOf (request x) with
                    | OpList, OpList => true
                    | OpGet _, OpGet _ => true
                    | OpCreate ResourceGroup, OpCreate ResourceGroup => true
                    | OpCreate VirtualNetwork, OpCreate VirtualNetwork => true
                    | OpCreate NetworkSecurityGroup, OpCreate NetworkSecurityGroup => true
                    | OpCreate Subnet, OpCreate Subnet => true
                    | OpCreate SecurityRule, OpCreate SecurityRule => true
                    | OpDelete _, OpDelete _ => true
                    | _, _ => false
                    end) xs).

(** The resource groups whose creation returned no error, and the resource
    groups whose deletion was requested. *)
Definition createdGroups (xs : list Exchange) : list string :=
  flat_map (fun x =>
              match request x with
              | GroupsCreateOrUpdate name _ => if absent (Err (reply x)) then [name] else []
              | _ => []
              end) xs.

Definition deletedGroups (xs : list Exchange) : list string :=
  flat_map (fun x =>
              match request x with
              | GroupsDelete name => [name]
              | _ => []
              end) xs.

Definition cleanupOnce (r : Z * World) : Prop :=
  let xs := exchanges (snd r) in
  (createdGroups xs = [] -> deletedGroups xs = [])
  /\ (forall name, In name (createdGroups xs) ->
        exists before x,
          xs = (before ++ [x])%list /\ request x = GroupsDelete name
          /\ deletedGroups before = []).

(** The failure that [main] checks after an exchange, with the exit code of
    its stage: the error of the listing or a listing status other than 200
    (both make [createResourceGroup] fail), and the error of the creation of
    the resource group, of the virtual network, of a subnet and of the rule
    ALLOW-SSH, and of the retrieval of a security group. *)
Definition observedFailure (x : Exchange) : option Z :=
  let failed := negb (absent (Err (reply x))) in
  match request x with
  | GroupsList =>
      if failed then Some ExitResourceGroupCreationFailure
      else match Response (reply x) with
           | Some r => if http_StatusOK =? StatusCode r then None
                       else Some ExitResourceGroupCreationFailure
           | None => None
           end
  | GroupsCreateOrUpdate _ _ =>
      if failed then Some ExitResourceGroupCreationFailure else None
  | VirtualNetworksCreateOrUpdate _ _ =>
      if failed then Some ExitVirtualNetworkCreationFailure else None
  | SecurityGroupsGet _ _ =>
      if failed then Some ExitNetworkSecuritryGroupCreationFailure else None
  | SubnetsCreateOrUpdate _ _ _ =>
      if failed then Some ExitSubnetCreationFailure else None
  | SecurityRulesCreateOrUpdate _ _ rule =>
      if String.eqb rule "ALLOW-SSH" && failed then Some ExitSecurityRuleCreationFailure
      else None
  | SecurityGroupsCreateOrUpdate _ _ => None
  | GroupsDelete _ => None
  end.

Fixpoint firstObservedFailure (xs : list Exchange) : option Z :=
  match xs with
  | [] => None
  | x :: rest =>
      match observedFailure x with
      | Some code => Some code
      | None => firstObservedFailure rest
      end
  end.

Definition exitCodes : list Z :=
  [ExitSuccess; ExitAuthenticationFailure; ExitResourceGroupCreationFailure;
   ExitVirtualNetworkCreationFailure; ExitNetworkSecuritryGroupCreationFailure;
   ExitSecurityRuleCreationFailure; ExitSubnetCreationFailure].

(** The code of the first failure [main] observed: the missing token before
    any exchange, else the first observed failure of an exchange. *)
Definition expectedExit {Token} (g : Globals Token) (xs : list Exchange) : Z :=
  match firstObservedFailure xs with
  | Some code => code
  | None =>
      if negb (help g) && absent (token g) then ExitAuthenticationFailure else ExitSuccess
  end.

Definition virtualNetworkFailed (xs : list Exchange) : bool :=
  existsb (fun x =>
             match request x with
             | VirtualNetworksCreateOrUpdate _ _ => negb (absent (Err (reply x)))
             | _ => false
             end) xs.

Definition exitCodeOfFirstFailure {Token} (g : Globals Token) (r : Z * World) : Prop :=
  let xs := exchanges (snd r) in
  In (fst r) exitCodes
  /\ fst r = expectedExit g xs
  /\ (virtualNetworkFailed xs = true ->
      fst r = ExitVirtualNetworkCreationFailure
      /\ operations xs = [OpList; OpCreate ResourceGroup; OpCreate VirtualNetwork;
                          OpDelete ResourceGroup]).

(** The exchange that created the rule ALLOW-SSH, with the exchanges after it. *)
Fixpoint fromFirstRule (xs : list Exchange) : option (Exchange * list Exchange) :=
  match xs with
  | [] => None
  | x :: rest =>
      match request x with
      | SecurityRulesCreateOrUpdate _ _ rule =>
          if String.eqb rule "ALLOW-SSH" then Some (x, rest) else fromFirstRule rest
      | _ => fromFirstRule rest
      end
  end.

Definition firstRuleFailureStops (r : Z * World) : Prop :=
  forall x after,
    fromFirstRule (exchanges (snd r)) = Some (x, after) ->
    Err (reply x) <> None ->
    fst r = ExitSecurityRuleCreationFailure
    /\ operations after = [OpDelete ResourceGroup].

Definition laterRulesNeverStop (r : Z * World) : Prop :=
  forall x after,
    fromFirstRule (exchanges (snd r)) = Some (x, after) ->
    Err (reply x) = None ->
    fst r = ExitSuccess
    /\ exists rg frontend backend,
         request x = SecurityRulesCreateOrUpdate rg frontend "ALLOW-SSH"
         /\ map request after
            = [SecurityRulesCreateOrUpdate rg frontend "ALLOW-HTTP";
               SecurityRulesCreateOrUpdate rg backend "ALLOW-SQL";
               SecurityRulesCreateOrUpdate rg backend "DENY-OUT";
               GroupsDelete rg].

(** The service hands back an error or a response for every rule it is asked
    to create, and a name with every security group it returns. *)
Definition answersRules (azure : list Exchange -> Call -> Reply) : Prop :=
  forall h rg nsg rule,
    absent (Err (azure h (SecurityRulesCreateOrUpdate rg nsg rule)))
    && absent (Response (azure h (SecurityRulesCreateOrUpdate rg nsg rule))) = false.

Definition namesGroups (azure : list Exchange -> Call -> Reply) : Prop :=
  forall h rg n, Name (azure h (SecurityGroupsGet rg n)) <> None.

(** A call succeeds: no error, status 200, and the payload the program reads
    is there (the listed groups with their names, the name of a retrieved
    security group). *)
Definition succeeds (c : Call) (r : Reply) : Prop :=
  Err r = None
  /\ statusOK (Response r) = true
  /\ match c with
     | GroupsList =>
         exists groups, Value r = Some groups
                        /\ Forall (fun rg => Group_Name rg <> None) groups
     | SecurityGroupsGet _ _ => Name r <> None
     | _ => True
     end.

Definition allSucceed (azure : list Exchange -> Call -> Reply) : Prop :=
  forall h c, succeeds c (azure h c).

(** The four values are present, the three identifiers parse, and [adal]
    makes a token of them. *)
Definition wellFormedCredentials {GUID OAuthConfig Token : Type}
    (guid_Parse : string -> option GUID) (guid_StringfD : GUID -> string)
    (adal_NewOAuthConfig : string -> OAuthConfig + Error)
    (adal_NewServicePrincipalToken : OAuthConfig -> string -> string -> Token + Error)
    (env : Env) : Prop :=
  exists tenant subscription client config t,
    AZURE_TENANT_ID env <> EmptyString
    /\ guid_Parse (AZURE_TENANT_ID env) = Some tenant
    /\ AZURE_SUBSCRIPTION_ID env <> EmptyString
    /\ guid_Parse (AZURE_SUBSCRIPTION_ID env) = Some subscription
    /\ AZURE_CLIENT_ID env <> EmptyString
    /\ guid_Parse (AZURE_CLIENT_ID env) = Some client
    /\ AZURE_CLIENT_SECRET env <> EmptyString
    /\ adal_NewOAuthConfig (guid_StringfD tenant) = inl config
    /\ adal_NewServicePrincipalToken config (guid_StringfD client) (AZURE_CLIENT_SECRET env)
       = inl t.

(** The requests of a run on which nothing fails, by kind. *)
Definition fullSequence : list Operation :=
  [OpList;
   OpCreate ResourceGroup;
   OpCreate VirtualNetwork;
   OpCreate NetworkSecurityGroup; OpGet NetworkSecurityGroup;
   OpCreate NetworkSecurityGroup; OpGet NetworkSecurityGroup;
   OpCreate Subnet; OpCreate Subnet;
   OpCreate SecurityRule; OpCreate SecurityRule; OpCreate SecurityRule; OpCreate SecurityRule;
   OpDelete ResourceGroup].

(** The creations and deletions among them. *)
Definition changes (ops : list Operation) : list Operation :=
  filter (fun o => match o with
                   | OpCreate _ | OpDelete _ => true
                   | _ => false
                   end) ops.

Definition provisionsEverything (r : Z * World) : Prop :=
  fst r = ExitSuccess /\ operations (exchanges (snd r)) = fullSequence.

(** [executeWithStatus] reported the step [message] as failed: its marker
    is on standard output, directly followed by FAILED. *)
Fixpoint reportedFailed (message : string) (written : list Console) : bool :=
  match written with
  | [] => false
  | e :: rest =>
      match e, rest with
      | Stdout s, Stdout t :: _ =>
          (String.eqb s (message ++ "...") && String.eqb t ("FAILED" ++ nl))
          || reportedFailed message rest
      | _, _ => reportedFailed message rest
      end
  end.

(** On the sample run in which the service answers the creation of the rule
    ALLOW-SSH with [code] and [status] and no error: the status is not 200,
    the step is reported as FAILED, the exit code is the success code, and
    the requests after it are the three later rules and the deletion. *)
Definition firstRuleStatusIgnored (code : Z) (status : string) : Prop :=
  exists x after,
    fromFirstRule (exchanges (snd (sample_run (azure_first_rule_status code status)
                                              sample_flags sample_env)))
      = Some (x, after)
    /\ Err (reply x) = None
    /\ Response (reply x) = Some (mk_http_Response code status)
    /\ statusOK (Response (reply x)) = false
    /\ reportedFailed "Creating Security Rule 'Allow SSH'"
          (console (snd (sample_run (azure_first_rule_status code status)
                                    sample_flags sample_env))) = true
    /\ fst (sample_run (azure_first_rule_status code status) sample_flags sample_env)
       = ExitSuccess
    /\ fst (sample_run (azure_first_rule_status code status) sample_flags sample_env)
       <> ExitSecurityRuleCreationFailure
    /\ map request after
       = [SecurityRulesCreateOrUpdate resourceGroupNamePrefix "frontend" "ALLOW-HTTP";
          SecurityRulesCreateOrUpdate resourceGroupNamePrefix "backend" "ALLOW-SQL";
          SecurityRulesCreateOrUpdate resourceGroupNamePrefix "backend" "DENY-OUT";
          GroupsDelete resourceGroupNamePrefix].

(** The security rules whose creation was requested, in order. *)
Definition ruleOf (c : Call) : list string :=
  match c with
  | SecurityRulesCreateOrUpdate _ _ ruleName => [ruleName]
  | _ => []
  end.

Definition createdRules (xs : list Exchange) : list string :=
  flat_map ruleOf (map request xs).

Definition help_flags : Flags := mk_Flags false false 0 true.

Definition env_without_tenant : Env :=
  mk_Env "11111111-2222-3333-4444-555555555555" "aaaaaaaa-bbbb-cccc-dddd-eeeeeeeeeeee"
         "secret" EmptyString.

(** The [range] loop of [getUniqueResourceGroupName] as a function: [None]
    when a group without a name makes it panic. *)
Fixpoint collectNames (groups : list Group) (any : bool) (seen : list string)
  : option (bool * list string) :=
  match groups with
  | [] => Some (any, seen)
  | rg :: rest =>
      match Group_Name rg with
      | None => None
      | Some name =>
          if HasPrefix name resourceGroupNamePrefix
          then collectNames rest true (seen ++ [name])%list
          else collectNames rest any seen
      end
  end.

(** ** Vocabulary of the further properties *)

(** The listing succeeds with status 200 and names every group: [names] are
    the groups listed, in the order of the reply. *)
Definition listsGroups (azure : list Exchange -> Call -> Reply) (w : World)
    (names : list string) : Prop :=
  exists response nm,
    azure (exchanges w) GroupsList
      = mk_Reply (Some response) None (Some (map (fun n => mk_Group (Some n)) names)) nm
    /\ StatusCode response = http_StatusOK.

(** The state after one request. *)
Definition afterRequest (azure : list Exchange -> Call -> Reply) (c : Call) (w : World)
  : World :=
  mk_World (exchanges w ++ [mk_Exchange c (azure (exchanges w) c)])%list
           (console w) (exitStatus w) (deferred w).

(** The last resort of [getFailureStatus]. *)
Definition unknownError : string := "An unknown error occurred." ++ nl.

(** The requests of [main] in the order of its statements, for the resource
    group [rg] and the names [frontend] and [backend] of the two security
    groups as their retrieval returned them. *)
Definition plan (rg frontend backend : string) : list Call :=
  [GroupsList;
   GroupsCreateOrUpdate rg sampleLocation;
   VirtualNetworksCreateOrUpdate rg "sampleVirtualNetwork";
   SecurityGroupsCreateOrUpdate rg "frontend";
   SecurityGroupsGet rg "frontend";
   SecurityGroupsCreateOrUpdate rg "backend";
   SecurityGroupsGet rg "backend";
   SubnetsCreateOrUpdate rg "sampleVirtualNetwork" "frontendSubnet";
   SubnetsCreateOrUpdate rg "sampleVirtualNetwork" "backendSubnet";
   SecurityRulesCreateOrUpdate rg frontend "ALLOW-SSH";
   SecurityRulesCreateOrUpdate rg frontend "ALLOW-HTTP";
   SecurityRulesCreateOrUpdate rg backend "ALLOW-SQL";
   SecurityRulesCreateOrUpdate rg backend "DENY-OUT"].

Definition followsPlan (r : Z * World) : Prop :=
  exists rg frontend backend n,
    map request (exchanges (snd r)) = firstn n (plan rg frontend backend)
    \/ map request (exchanges (snd r))
       = (firstn n (plan rg frontend backend) ++ [GroupsDelete rg])%list.

(** The texts written to standard output, and the waits of the process:
    the calls of [fmt.Scanln] and of [time.Sleep]. *)
Definition stdoutText (e : Console) : list string :=
  match e with
  | Stdout s => [s]
  | _ => []
  end.

Definition isWait (e : Console) : bool :=
  match e with
  | Scanln | Sleep _ => true
  | _ => false
  end.

Definition pausePrompt : string := "Press Enter to continue...".

Definition quietRun {Token} (g : Globals Token) (r : Z * World) : Prop :=
  flat_map stdoutText (console (snd r)) = []
  \/ (pause g = true /\ flat_map stdoutText (console (snd r)) = [pausePrompt]).

Definition waitsAsFlagsSay {Token} (g : Globals Token) (r : Z * World) : Prop :=
  filter isWait (console (snd r)) = []
  \/ (fst r = ExitSuccess
      /\ operations (exchanges (snd r)) = fullSequence
      /\ ((pause g = true /\ filter isWait (console (snd r)) = [Scanln])
          \/ (pause g = false /\ (0 < delay g)%N
              /\ filter isWait (console (snd r))
                 = [Sleep (int64 (time_Second * time_Duration (delay g)))]))).

(** An identifier that [validateParameters] rejects: empty, or not a GUID. *)
Definition invalidIdentifier {GUID} (guid_Parse : string -> option GUID) (s : string) : bool :=
  String.eqb EmptyString s || absent (guid_Parse s).

(** The number of credential values that [validateParameters] rejects. *)
Definition invalidCredentials {GUID Token} (guid_Parse : string -> option GUID)
    (g : Globals Token) : nat :=
  (Nat.b2n (invalidIdentifier guid_Parse (tenantID g))
   + Nat.b2n (invalidIdentifier guid_Parse (subscriptionID g))
   + Nat.b2n (invalidIdentifier guid_Parse (clientID g))
   + Nat.b2n (String.eqb EmptyString (clientSecret g)))%nat.

(** The line [main] writes when [init] left no token. *)
Definition fatalAuthentication : Console :=
  Stderr ("Fatal Error: Authentication Failed." ++ nl).

(** The package variables as [init] reads them from the environment, before
    the flags are looked at. *)
Definition fromEnv {Token} (env : Env) : Globals Token :=
  mk_Globals (AZURE_SUBSCRIPTION_ID env) (AZURE_CLIENT_ID env)
             (AZURE_CLIENT_SECRET env) (AZURE_TENANT_ID env)
             None NilWriter false 0%N false.

(** The line [init] writes for a validation error. *)
Definition invalidArgument (e : Console) : Prop :=
  exists err, e = Stderr ("Invalid argument. Details: " ++ err ++ nl).

(** A service that answers every request with status 500 and no error. *)
Definition azure_status_500 (h : list Exchange) (c : Call) : Reply :=
  mk_Reply (Some (mk_http_Response 500 "500 Internal Server Error")) None None None.

(** Two listings with the same prefixed names. *)
Definition mixed_listing : list string :=
  ["unrelated"; candidate 1; resourceGroupNamePrefix; candidate 0].

Definition other_listing : list string :=
  [candidate 0; resourceGroupNamePrefix; "another"; candidate 1].

(** A service whose listing fails, and one whose listing returns status 503
    without an error. *)
Definition azure_list_error (h : list Exchange) (c : Call) : Reply :=
  match c with
  | GroupsList => mk_Reply None (Some "timeout") None None
  | _ => azure_ok [] h c
  end.

Definition azure_list_503 (h : list Exchange) (c : Call) : Reply :=
  match c with
  | GroupsList =>
      mk_Reply (Some (mk_http_Response 503 "503 Service Unavailable")) None None None
  | _ => azure_ok [] h c
  end.

Definition quiet_pause_flags : Flags := mk_Flags true true 0 false.

Definition delay_flags : Flags := mk_Flags false false 3 false.

(** Globals with two values that [validateParameters] rejects: a tenant
    that is not a GUID and an empty secret. *)
Definition two_invalid_globals : Globals string :=
  mk_Globals "11111111-2222-3333-4444-555555555555" "aaaaaaaa-bbbb-cccc-dddd-eeeeeeeeeeee"
             EmptyString "tenant" None StdoutWriter false 0%N false.

(** * The earlier revision of the sample

    [src/sample.go] holds two revisions of the program.  The earlier one
    creates a resource group and a virtual network and deletes them; it has
    no flags, no exit status of its own and no [executeWithStatus].  Its
    pure parts are those of the later revision; its requests, state and
    control flow are its own.  [main] runs whatever [init] found: the
    requests are those of clients that hold the token, and a client built
    on the nil token panics at its first request (see [createResourceGroup]). *)
Module V1.

(** The requests this revision sends. *)
Inductive Call : Type :=
| GroupsList
| GroupsCreateOrUpdate (name location : string)
| GroupsDelete (name : string)
| VirtualNetworksCreateOrUpdate (resourceGroupName name : string)
| VirtualNetworksDelete (resourceGroupName name : string).

Record Exchange : Type := mk_Exchange { request : Call; reply : Reply }.

(** The one call that [main] defers. *)
Inductive Deferred : Type :=
| DeferDeleteResourceGroup (name : string).    (* deleteResourceGroup(client, name, cancel) *)

Record World : Type := mk_World {
  exchanges : list Exchange;
  console : list Console;
  deferred : list Deferred
}.

Definition M (A : Type) : Type := World -> Flow A * World.

Definition ret {A} (a : A) : M A := fun w => (Next a, w).

Definition bind {A B} (m : M A) (k : A -> M B) : M B :=
  fun w =>
    match m w with
    | (Next a, w') => k a w'
    | (Returned, w') => (Returned, w')
    | (Panic, w') => (Panic, w')
    end.

Declare Scope v1_scope.
Delimit Scope v1_scope with v1.
Notation "x <- m ;; k" := (bind m (fun x => k))
  (at level 61, m at next level, right associativity) : v1_scope.
Notation "' pat <- m ;; k" := (bind m (fun pat => k))
  (at level 61, pat pattern, m at next level, right associativity) : v1_scope.
Notation "m ;; k" := (bind m (fun _ => k))
  (at level 61, right associativity) : v1_scope.
Local Open Scope v1_scope.

Definition panic {A} : M A := fun w => (Panic, w).
Definition return_ {A} : M A := fun w => (Returned, w).

(** [*p]. *)
Definition deref {A} (p : option A) : M A :=
  match p with
  | Some a => ret a
  | None => panic
  end.

Definition emit (e : Console) : M unit :=
  fun w => (Next tt, mk_World (exchanges w) (console w ++ [e])%list (deferred w)).

Definition defer (d : Deferred) : M unit :=
  fun w => (Next tt, mk_World (exchanges w) (console w) (d :: deferred w)).

(** [%v] of an [error]. *)
Definition errorText (err : option Error) : string :=
  match err with
  | Some e => e
  | None => "<nil>"
  end.

Section Program.

(** [github.com/marstr/guid]: [guid.Parse] with its error, and the text
    [Stringf(guid.FormatD)] returns. *)
Variable GUID : Type.
Variable guid_Parse : string -> GUID + Error.
Variable guid_StringfD : GUID -> string.

(** [azure.PublicCloud.OAuthConfigForTenant(tenantID)] and
    [azure.NewServicePrincipalToken(config, clientID, clientSecret,
    azure.PublicCloud.ResourceManagerEndpoint)]. *)
Variable OAuthConfig : Type.
Variable Token : Type.
Variable azure_OAuthConfigForTenant : string -> OAuthConfig + Error.
Variable azure_NewServicePrincipalToken : OAuthConfig -> string -> string -> Token + Error.

(** The remote service: the reply to a request, given every exchange so far. *)
Variable azure : list Exchange -> Call -> Reply.

(** Package-level variables. *)
Record Globals : Type := mk_Globals {
  subscriptionID : string;
  clientID : string;
  clientSecret : string;
  tenantID : string;
  token : option Token;
  successfulInit : bool
}.

(** A blocking SDK call. *)
Definition remote (c : Call) : M Reply :=
  fun w =>
    let r := azure (exchanges w) c in
    (Next r, mk_World (exchanges w ++ [mk_Exchange c r])%list (console w) (deferred w)).

(** [response.StatusCode], a field promoted through the embedded pointer. *)
Definition statusCode (response : autorest_Response) : M Z :=
  r <- deref response ;; ret (StatusCode r).

(** The condition [nil == err && http.StatusOK == response.StatusCode]. *)
Definition succeeded (r : Reply) : M bool :=
  match Err r with
  | None => code <- statusCode (Response r) ;; ret (http_StatusOK =? code)
  | Some _ => ret false
  end.

(** The [range] loop of [getResourceGroupName] with its two dereferences,
    [*groupList.Value] (done by the caller) and [*rg.Name]. *)
Fixpoint collectGroups (groups : list Group) (any : bool) (seen : list string)
  : M (bool * list string) :=
  match groups with
  | [] => ret (any, seen)
  | rg :: rest =>
      name <- deref (Group_Name rg) ;;
      if HasPrefix name resourceGroupNamePrefix
      then collectGroups rest true (seen ++ [name])%list
      else collectGroups rest any seen
  end.

(** [getResourceGroupName]. *)
Definition getResourceGroupName : M (string * option Error) :=
  groupList <- remote GroupsList ;;
  match Err groupList with
  | Some err => ret (EmptyString, Some err)
  | None =>
      code <- statusCode (Response groupList) ;;
      if http_StatusOK =? code then
        groups <- deref (Value groupList) ;;
        '(any, seen) <- collectGroups groups false [] ;;
        ret (firstFit any seen, None)
      else ret (EmptyString, Some ("Bad response: " ++ itoa code))
  end.

(** [createResourceGroup]; the client handle it also returns is left out.
    It makes the package variable [token] the [Authorizer] of the client.
    When [init] left [token] nil, the first request of that client, the
    listing of [getResourceGroupName], panics inside the SDK while it is
    prepared (the authorizer is called through the nil pointer): nothing is
    sent and nothing is written.  Every other request of the program comes
    after a listing that was sent. *)
Definition createResourceGroup (g : Globals) : M (string * option Error) :=
  _ <- deref (token g) ;;
  '(resourceGroupName, err) <- getResourceGroupName ;;
  match err with
  | Some e => emit (Stderr e) ;; ret (resourceGroupName, err)
  | None =>
      emit (Stdout ("Creating Resource Group '" ++ resourceGroupName ++ "'...")) ;;
      created <- remote (GroupsCreateOrUpdate resourceGroupName sampleLocation) ;;
      match Err created with
      | None => emit (Stdout ("SUCCESS" ++ nl))
      | Some e => emit (Stdout ("FAILED" ++ nl)) ;; emit (Stderr ("Error: " ++ e))
      end ;;
      ret (resourceGroupName, Err created)
  end.

(** [deleteResourceGroup]. *)
Definition deleteResourceGroup (name : string) : M (option Error) :=
  emit (Stdout ("Deleting Resource Group '" ++ name ++ "'...")) ;;
  deleted <- remote (GroupsDelete name) ;;
  ok <- succeeded deleted ;;
  (if ok : bool then emit (Stdout ("SUCCESS" ++ nl))
   else emit (Stdout ("FAILED" ++ nl))) ;;
  ret (Err deleted).

(** [validateParameters]: the errors, and the package variables with the
    identifiers that parse replaced by the text [Stringf] returns. *)
Definition validateParameters (g : Globals) : list Error * Globals :=
  let errs : list Error := [] in
  let '(errs, tenant) :=
    if String.eqb EmptyString (tenantID g)
    then ((errs ++ [newMissingAzureAuthError "Azure Tenant ID" azureEnvVarNameTenantID])%list,
          tenantID g)
    else match guid_Parse (tenantID g) with
         | inr err => ((errs ++ [err])%list, tenantID g)
         | inl parsed => (errs, guid_StringfD parsed)
         end in
  let '(errs, subscription) :=
    if String.eqb EmptyString (subscriptionID g)
    then ((errs ++ [newMissingAzureAuthError "Azure Subscription ID"
                      azureEnvVarNameSubscriptionID])%list,
          subscriptionID g)
    else match guid_Parse (subscriptionID g) with
         | inr err => ((errs ++ [err])%list, subscriptionID g)
         | inl parsed => (errs, guid_StringfD parsed)
         end in
  let '(errs, client) :=
    if String.eqb EmptyString (clientID g)
    then ((errs ++ [newMissingAzureAuthError "Azure Client ID" azureEnvVarNameClientID])%list,
          clientID g)
    else match guid_Parse (clientID g) with
         | inr err => ((errs ++ [err])%list, clientID g)
         | inl parsed => (errs, guid_StringfD parsed)
         end in
  let errs :=
    if String.eqb EmptyString (clientSecret g)
    then (errs ++ [newMissingAzureAuthError "Azure Client Secret"
                     azureEnvVarNameClientSecret])%list
    else errs in
  (errs,
   mk_Globals subscription client (clientSecret g) tenant (token g) (successfulInit g)).

(** [init]: the package variables it leaves and what it wrote.  The loop
    [for err := range errs] binds [err] to the index of each error. *)
Definition init (env : Env) : Globals * list Console :=
  let g := mk_Globals (AZURE_SUBSCRIPTION_ID env) (AZURE_CLIENT_ID env)
                      (AZURE_CLIENT_SECRET env) (AZURE_TENANT_ID env) None false in
  let '(errs, g) := validateParameters g in
  if (0 <? length errs)%nat
  then (g, map (fun err => Stderr ("Invalid parameter. Details:" ++ nl
                                     ++ itoa (Z.of_nat err) ++ nl))
               (seq 0 (length errs)))
  else
    match azure_OAuthConfigForTenant (tenantID g) with
    | inr err => (g, [Stderr err])
    | inl authConfig =>
        match azure_NewServicePrincipalToken authConfig (clientID g) (clientSecret g) with
        | inr err => (g, [Stderr err])
        | inl t =>
            (mk_Globals (subscriptionID g) (clientID g) (clientSecret g) (tenantID g)
                        (Some t) true, [])
        end
    end.

(** The statement of [main]
    [if response, err := call; nil == err && http.StatusOK == response.StatusCode
     { fmt.Printf(finished) }
     else { fmt.Fprintf(os.Stderr, "Response Code: %d\n<because> %v\n",
                        response.StatusCode, err) }]
    once the call has returned. *)
Definition reportOutcome (r : Reply) (finished because : string) : M unit :=
  ok <- succeeded r ;;
  if ok : bool then emit (Stdout finished)
  else
    code <- statusCode (Response r) ;;
    emit (Stderr ("Response Code: " ++ itoa code ++ nl
                    ++ because ++ errorText (Err r) ++ nl)).

(** The body of [main]. *)
Definition main_body (g : Globals) : M unit :=
  '(resourceGroupName, err) <- createResourceGroup g ;;
  match err with
  | None => defer (DeferDeleteResourceGroup resourceGroupName)
  | Some _ => return_
  end ;;
  created <- remote (VirtualNetworksCreateOrUpdate resourceGroupName "sampleVirtualNetwork") ;;
  reportOutcome created ("Finished creating new Azure Virtual Network." ++ nl)
                "Could not create network because: " ;;
  deleted <- remote (VirtualNetworksDelete "VMsampleResourceGroup" "sampleVirtualNetwork") ;;
  reportOutcome deleted ("Finished deleting Azure Virtual Network." ++ nl)
                "Could not delete network because: ".

(** What the Go runtime does when the body of [main] has stopped: the
    deferred calls run, last registered first, also after a panic; the
    process ends with 0, or with 2 when a panic is pending. *)
Fixpoint runDeferred (panicking : bool) (stack : list Deferred) (w : World) : Z * World :=
  match stack with
  | [] => (if panicking then 2 else 0, w)
  | DeferDeleteResourceGroup name :: rest =>
      let '(f, w') := deleteResourceGroup name w in
      runDeferred (panicking || panicked f) rest w'
  end.

(** [main]: the exit code of the process and the final state. *)
Definition main (g : Globals) (w : World) : Z * World :=
  let '(f, w') := main_body g w in
  runDeferred (panicked f) (deferred w') w'.

(** A run of the process: [init], then [main] with the package variables
    [init] left.  [main] does not test [successfulInit]. *)
Definition run (env : Env) : Z * World :=
  let '(g, written) := init env in
  main g (mk_World [] written []).

End Program.

Arguments token {Token}.
Arguments successfulInit {Token}.
Arguments subscriptionID {Token}.
Arguments clientID {Token}.
Arguments clientSecret {Token}.
Arguments tenantID {Token}.
Arguments validateParameters {GUID} guid_Parse guid_StringfD {Token}.
Arguments init {GUID} guid_Parse guid_StringfD {OAuthConfig Token}.
Arguments run {GUID} guid_Parse guid_StringfD {OAuthConfig Token}.
Arguments createResourceGroup {Token}.
Arguments main_body {Token}.
Arguments main {Token}.

(** *** Vocabulary of the properties *)

(** The requests of [main] in the order of its statements, for the resource
    group [rg] that it created. *)
Definition plan (rg : string) : list Call :=
  [GroupsList;
   GroupsCreateOrUpdate rg sampleLocation;
   VirtualNetworksCreateOrUpdate rg "sampleVirtualNetwork";
   VirtualNetworksDelete "VMsampleResourceGroup" "sampleVirtualNetwork"].

Definition createdGroups (xs : list Exchange) : list string :=
  flat_map (fun x =>
              match request x with
              | GroupsCreateOrUpdate name _ => if absent (Err (reply x)) then [name] else []
              | _ => []
              end) xs.

Definition deletedGroups (xs : list Exchange) : list string :=
  flat_map (fun x =>
              match request x with
              | GroupsDelete name => [name]
              | _ => []
              end) xs.

Definition isVirtualNetworkCall (c : Call) : bool :=
  match c with
  | VirtualNetworksCreateOrUpdate _ _ | VirtualNetworksDelete _ _ => true
  | _ => false
  end.

(** The texts written to standard error. *)
Definition stderrText (e : Console) : list string :=
  match e with
  | Stderr s => [s]
  | _ => []
  end.

(** A service that never hands back a nil pointer: every reply carries a
    response, and a listing carries its groups with their names. *)
Definition answers (azure : list Exchange -> Call -> Reply) : Prop :=
  forall h c,
    Response (azure h c) <> None
    /\ (c = GroupsList ->
        exists names, Value (azure h c) = Some (map (fun n => mk_Group (Some n)) names)).

(** *** Sample inputs *)

(** A service on which every call succeeds; it lists no group. *)
Definition azure_ok (h : list Exchange) (c : Call) : Reply :=
  match c with
  | GroupsList => mk_Reply ok200 None (Some []) None
  | _ => mk_Reply ok200 None None None
  end.

(** A service that lists no group and then answers every request with
    status 500 and an error. *)
Definition azure_refuses (h : list Exchange) (c : Call) : Reply :=
  match c with
  | GroupsList => mk_Reply ok200 None (Some []) None
  | GroupsCreateOrUpdate _ _ => mk_Reply ok200 None None None
  | _ => mk_Reply (Some (mk_http_Response 500 "500 Internal Server Error"))
                  (Some "refused") None None
  end.

(** A service on which the requests for a virtual network cannot be sent:
    they return an error and no response. *)
Definition azure_unreachable_network (h : list Exchange) (c : Call) : Reply :=
  match c with
  | VirtualNetworksCreateOrUpdate _ _ | VirtualNetworksDelete _ _ =>
      mk_Reply None (Some "connection refused") None None
  | _ => azure_ok h c
  end.

Definition sample_guid_Parse (s : string) : string + Error :=
  if (String.length s =? 36)%nat then inl s else inr ("guid: " ++ s ++ " is malformed").

Definition sample_run (azure : list Exchange -> Call -> Reply) (e : Env) : Z * World :=
  run sample_guid_Parse (fun s => s) sample_NewOAuthConfig sample_NewServicePrincipalToken
      azure e.

End V1.

(** What the listing makes of the allocator, in either revision: the name
    and the error it returns, or the panic. *)
Definition allocated (r : Reply) : Flow (string * option Error) :=
  match Err r with
  | Some err => Next (EmptyString, Some err)
  | None =>
      match Response r with
      | None => Panic
      | Some response =>
          if http_StatusOK =? StatusCode response then
            match Value r with
            | None => Panic
            | Some groups =>
                match collectNames groups false [] with
                | Some (any, seen) => Next (firstFit any seen, None)
                | None => Panic
                end
            end
          else Next (EmptyString, Some ("Bad response: " ++ itoa (StatusCode response)))
      end
  end.

Definition V1_followsPlan (r : Z * V1.World) : Prop :=
  exists rg n,
    hasSamplePrefix rg = true /\ (1 <= n)%nat
    /\ (map V1.request (V1.exchanges (snd r)) = firstn n (V1.plan rg)
        \/ map V1.request (V1.exchanges (snd r))
           = (firstn n (V1.plan rg) ++ [V1.GroupsDelete rg])%list).

Definition V1_cleanupOnce (r : Z * V1.World) : Prop :=
  let xs := V1.exchanges (snd r) in
  (V1.createdGroups xs = [] -> V1.deletedGroups xs = [])
  /\ (forall name, In name (V1.createdGroups xs) ->
        exists before x,
          xs = (before ++ [x])%list /\ V1.request x = V1.GroupsDelete name
          /\ V1.deletedGroups before = []).

(** A request for a virtual network that came back without a response is
    the last request of the run but for the deferred deletion, and the
    process ends with the status of a panic. *)
Definition V1_unansweredStops (r : Z * V1.World) : Prop :=
  forall x,
    In x (V1.exchanges (snd r)) ->
    V1.isVirtualNetworkCall (V1.request x) = true ->
    Response (V1.reply x) = None ->
    fst r = 2
    /\ exists before rg y,
         V1.exchanges (snd r) = (before ++ [x; y])%list
         /\ V1.request y = V1.GroupsDelete rg.

(** The errors [validateParameters] of the earlier revision finds in an
    environment. *)
Definition V1_invalid {GUID} (guid_Parse : string -> GUID + Error)
    (guid_StringfD : GUID -> string) (env : Env) : list Error :=
  fst (V1.validateParameters guid_Parse guid_StringfD
         (V1.mk_Globals unit
            (AZURE_SUBSCRIPTION_ID env) (AZURE_CLIENT_ID env)
            (AZURE_CLIENT_SECRET env) (AZURE_TENANT_ID env) None false)).

Definition env_without_secret : Env :=
  mk_Env "11111111-2222-3333-4444-555555555555" "aaaaaaaa-bbbb-cccc-dddd-eeeeeeeeeeee"
         EmptyString "99999999-8888-7777-6666-555555555555".

(** ** The byte-wise order of strings *)

Lemma Ascii_compare_refl a : Ascii.compare a a = Eq.
Proof. unfold Ascii.compare. apply N.compare_refl. Qed.

Lemma String_compare_refl s : String.compare s s = Eq.
Proof.
  induction s as [|a s IH]; cbn; [reflexivity |].
  now rewrite Ascii_compare_refl.
Qed.

Lemma String_compare_Lt_trans a : forall b c,
  String.compare a b = Lt -> String.compare b c = Lt -> String.compare a c = Lt.
Proof.
  induction a as [|x a IH]; intros [|y b] [|z c]; cbn; try discriminate; auto.
  intros Hab Hbc.
  destruct (Ascii.compare x y) eqn:Exy; try discriminate;
    destruct (Ascii.compare y z) eqn:Eyz; try discriminate.
  - apply Ascii.compare_eq_iff in Exy, Eyz. subst.
    rewrite Ascii_compare_refl. eauto.
  - apply Ascii.compare_eq_iff in Exy. subst. now rewrite Eyz.
  - apply Ascii.compare_eq_iff in Eyz. subst. now rewrite Exy.
  - unfold Ascii.compare in *. rewrite N.compare_lt_iff in *.
    assert (H : (N_of_ascii x < N_of_ascii z)%N) by lia.
    apply N.compare_lt_iff in H. now rewrite H.
Qed.

Lemma String_leb_refl s : String.leb s s = true.
Proof. unfold String.leb. now rewrite String_compare_refl. Qed.

Lemma String_leb_cases a b :
  String.leb a b = true <-> String.compare a b = Lt \/ a = b.
Proof.
  unfold String.leb. split.
  - destruct (String.compare a b) eqn:E; try discriminate; auto.
    right. now apply String.compare_eq_iff.
  - intros [-> | ->]; [reflexivity | now rewrite String_compare_refl].
Qed.

Lemma String_leb_trans a b c :
  String.leb a b = true -> String.leb b c = true -> String.leb a c = true.
Proof.
  rewrite !String_leb_cases. intros [Hab | ->] [Hbc | ->]; auto.
  left. eapply String_compare_Lt_trans; eassumption.
Qed.

(** ** [sort_Strings] sorts, and every sorted arrangement is its result *)

Lemma insert_string_perm s l : Permutation (s :: l) (insert_string s l).
Proof.
  induction l as [|x l IH]; cbn; [reflexivity |].
  destruct (String.leb s x); [reflexivity |].
  rewrite perm_swap. now constructor.
Qed.

Lemma sort_Strings_perm l : Permutation l (sort_Strings l).
Proof.
  induction l as [|x l IH]; cbn; [constructor |].
  rewrite <- insert_string_perm. now constructor.
Qed.

Lemma insert_string_sorted s l :
  StronglySorted le_string l -> StronglySorted le_string (insert_string s l).
Proof.
  induction 1 as [|x l Hl IH Hx]; cbn.
  - repeat constructor.
  - destruct (String.leb s x) eqn:E.
    + constructor; [now constructor |].
      constructor; [exact E |].
      eapply Forall_impl; [| exact Hx].
      intros y Hy. eapply String_leb_trans; eassumption.
    + constructor; [exact IH |].
      eapply Permutation_Forall; [apply insert_string_perm |].
      constructor; [| exact Hx].
      destruct (String.leb_total s x) as [H | H]; [congruence | exact H].
Qed.

Lemma sort_Strings_sorted l : StronglySorted le_string (sort_Strings l).
Proof.
  induction l as [|x l IH]; cbn; [constructor |].
  now apply insert_string_sorted.
Qed.

Lemma sorted_perm_unique l : forall l',
  StronglySorted le_string l -> StronglySorted le_string l' ->
  Permutation l l' -> l = l'.
Proof.
  induction l as [|x l IH]; intros l' Hl Hl' Hp.
  - apply Permutation_nil in Hp. now subst.
  - destruct l' as [|y l'].
    { symmetry in Hp. now apply Permutation_nil in Hp. }
    apply StronglySorted_inv in Hl as [Hl Hx], Hl' as [Hl' Hy].
    assert (x = y) as <-.
    { assert (Hxin : In x (y :: l')) by (eapply Permutation_in; [exact Hp | now left]).
      assert (Hyin : In y (x :: l))
        by (eapply Permutation_in; [symmetry; exact Hp | now left]).
      destruct Hxin as [-> | Hxin]; [reflexivity |].
      destruct Hyin as [-> | Hyin]; [reflexivity |].
      rewrite Forall_forall in Hx, Hy.
      apply String.leb_antisym; [apply Hx | apply Hy]; assumption. }
    f_equal. apply IH; try assumption.
    eapply Permutation_cons_inv; exact Hp.
Qed.

Lemma sort_Strings_unique l l' :
  Permutation l l' -> StronglySorted le_string l' -> sort_Strings l = l'.
Proof.
  intros Hp Hs. apply sorted_perm_unique.
  - apply sort_Strings_sorted.
  - exact Hs.
  - rewrite <- Hp. symmetry. apply sort_Strings_perm.
Qed.

(** ** What the loop and the scan of [getUniqueResourceGroupName] compute *)

Lemma collectSeen_fold names : forall any seen,
  fold_left
    (fun (acc : bool * list string) name =>
       if HasPrefix name resourceGroupNamePrefix
       then (true, (snd acc ++ [name])%list)
       else acc)
    names (any, seen)
  = (any || existsb hasSamplePrefix names, (seen ++ filter hasSamplePrefix names)%list).
Proof.
  induction names as [|n names IH]; intros any seen; cbn.
  - now rewrite orb_false_r, app_nil_r.
  - unfold hasSamplePrefix at 1 3. destruct (HasPrefix n resourceGroupNamePrefix); cbn.
    + rewrite IH. cbn. rewrite orb_true_r. now rewrite <- app_assoc.
    + apply IH.
Qed.

Lemma collectSeen_filter names :
  collectSeen names = (existsb hasSamplePrefix names, filter hasSamplePrefix names).
Proof. unfold collectSeen. now rewrite collectSeen_fold. Qed.

Lemma find_scanFrom p rest : forall pre,
  match find (fun i => negb (String.eqb (nth (i + 1) (p :: pre ++ rest) EmptyString)
                                        (candidate i)))
             (seq (length pre) (length rest)) with
  | Some i => candidate i
  | None => candidate (length (pre ++ rest))
  end = scanFrom (length pre) rest.
Proof.
  induction rest as [|s rest IH]; intros pre; cbn [length seq find scanFrom].
  - now rewrite app_nil_r.
  - replace (length pre + 1)%nat with (S (length pre)) by lia.
    cbn [nth]. rewrite nth_middle.
    destruct (String.eqb s (candidate (length pre))); cbn [negb]; [| reflexivity].
    specialize (IH (pre ++ [s])%list).
    rewrite <- app_assoc, length_app in IH. cbn [app length] in IH.
    replace (length pre + 1)%nat with (S (length pre)) in IH by lia.
    exact IH.
Qed.

Lemma firstFit_scan unsorted p rest :
  sort_Strings unsorted = p :: rest ->
  firstFit true unsorted
  = if String.eqb p resourceGroupNamePrefix then scanFrom 0 rest else resourceGroupNamePrefix.
Proof.
  intros Hs. unfold firstFit. rewrite Hs. cbn [andb nth length].
  destruct (String.eqb p resourceGroupNamePrefix); [| reflexivity].
  replace (S (length rest) - 1)%nat with (length rest) by lia.
  exact (find_scanFrom p rest []).
Qed.

(** ** Candidate names *)

Lemma itoa_inj z z' : itoa z = itoa z' -> z = z'.
Proof.
  unfold itoa. intros H.
  assert (Hn : forall n, Z.to_int n <> Decimal.Pos Decimal.Nil
                         /\ Z.to_int n <> Decimal.Neg Decimal.Nil).
  { intros [|p|p]; cbn; split; try discriminate; intros [= E];
      now apply DecimalPos.Unsigned.to_uint_nonnil in E. }
  apply DecimalZ.to_int_inj.
  assert (Hs : Some (Z.to_int z) = Some (Z.to_int z')).
  { rewrite <- (NilZero.isi (Z.to_int z)), <- (NilZero.isi (Z.to_int z'));
      try apply Hn. now rewrite H. }
  now injection Hs.
Qed.

Lemma append_cancel p : forall a b, p ++ a = p ++ b -> a = b.
Proof.
  induction p as [|c p IH]; cbn; intros a b H; [exact H |].
  injection H as H. now apply IH.
Qed.

Lemma candidate_inj i j : candidate i = candidate j -> i = j.
Proof.
  unfold candidate. intros H. apply append_cancel, itoa_inj in H. lia.
Qed.

Lemma candidate_eqb i j : String.eqb (candidate i) (candidate j) = Nat.eqb i j.
Proof.
  destruct (Nat.eqb_spec i j) as [-> | Hne].
  - apply String.eqb_refl.
  - apply String.eqb_neq. intros H. now apply candidate_inj in H.
Qed.

Lemma prefix_append p : forall s, String.prefix p (p ++ s) = true.
Proof.
  induction p as [|c p IH]; intros s; cbn; [now destruct s |].
  destruct (ascii_dec c c); [apply IH | congruence].
Qed.

Lemma candidate_hasSamplePrefix i : hasSamplePrefix (candidate i) = true.
Proof. apply prefix_append. Qed.

Lemma candidate_not_prefix i : candidate i <> resourceGroupNamePrefix.
Proof.
  unfold candidate. intros H.
  assert (E : itoa (Z.of_nat i) = EmptyString).
  { apply (append_cancel resourceGroupNamePrefix). rewrite H.
    generalize resourceGroupNamePrefix. intros p. induction p; cbn; congruence. }
  unfold itoa in E.
  destruct (Z.to_int (Z.of_nat i)) as [d|d] eqn:Ed; cbn in E; [| discriminate].
  destruct d; cbn in E; discriminate.
Qed.

Lemma compare_append p : forall a b, String.compare (p ++ a) (p ++ b) = String.compare a b.
Proof.
  induction p as [|c p IH]; intros a b; cbn; [reflexivity |].
  now rewrite Ascii_compare_refl.
Qed.

Lemma leb_append p s : String.leb p (p ++ s) = true.
Proof.
  unfold String.leb.
  replace (String.compare p (p ++ s)) with (String.compare (p ++ EmptyString) (p ++ s)).
  - rewrite compare_append. now destruct s.
  - f_equal. induction p; cbn; congruence.
Qed.

(** Up to 9 the decimal renderings are in numeric order. *)
Lemma candidate_single_digit_order i j :
  (i < j)%nat -> (j <= 9)%nat -> le_string (candidate i) (candidate j).
Proof.
  intros Hij Hj. unfold le_string, String.leb, candidate.
  rewrite compare_append.
  do 10 (destruct j as [|j]; [do 10 (destruct i as [|i]; [first [lia | reflexivity] |]); lia |]).
  lia.
Qed.

Lemma candidates_sorted js :
  StronglySorted lt js -> Forall (fun j => (j <= 9)%nat) js ->
  StronglySorted le_string (resourceGroupNamePrefix :: map candidate js).
Proof.
  intros Hs Hb. constructor.
  - induction Hs as [|j js Hs IH Hj]; cbn; constructor.
    + apply IH. now inversion Hb.
    + inversion Hb as [|? ? Hj9 Hb']; subst.
      rewrite Forall_map. rewrite Forall_forall in *.
      intros k Hk. apply candidate_single_digit_order; auto.
  - rewrite Forall_map. apply Forall_forall. intros j _. apply leb_append.
Qed.

Lemma scanFrom_candidates js : forall i,
  scanFrom i (map candidate js) = candidate (firstMissing i js).
Proof.
  induction js as [|j js IH]; intros i; cbn [map scanFrom firstMissing]; [reflexivity |].
  rewrite candidate_eqb. destruct (Nat.eqb j i); [apply IH | reflexivity].
Qed.

Lemma firstMissing_least js : forall i,
  StronglySorted lt js -> Forall (fun j => (i <= j)%nat) js ->
  (i <= firstMissing i js)%nat
  /\ ~ In (firstMissing i js) js
  /\ forall k, (i <= k < firstMissing i js)%nat -> In k js.
Proof.
  induction js as [|j js IH]; intros i Hs Hb; cbn.
  - repeat split; [lia | tauto | lia].
  - apply StronglySorted_inv in Hs as [Hs Hj].
    inversion Hb as [|? ? Hij Hb']; subst.
    destruct (Nat.eqb_spec j i) as [-> | Hne].
    + destruct (IH (S i) Hs) as (Hle & Hnin & Hall).
      { eapply Forall_impl; [| exact Hj]. cbn. intros; lia. }
      repeat split; [lia | |].
      * intros [E | Hin]; [lia | contradiction].
      * intros k Hk. destruct (Nat.eq_dec k i) as [-> | Hki]; [now left |].
        right. apply Hall. lia.
    + repeat split; [lia | | lia].
      intros [E | Hin]; [congruence |].
      rewrite Forall_forall in Hj. specialize (Hj _ Hin). lia.
Qed.

Lemma seq_increasing n : forall a, StronglySorted lt (seq a n).
Proof.
  induction n as [|n IH]; intros a; cbn; constructor.
  - apply IH.
  - apply Forall_forall. intros k Hk. apply in_seq in Hk. lia.
Qed.

Lemma firstMissing_seq n : forall i, firstMissing i (seq i n) = (i + n)%nat.
Proof.
  induction n as [|n IH]; intros i; cbn; [lia |].
  rewrite Nat.eqb_refl, IH. lia.
Qed.

(** On a listing whose prefixed names are the bare prefix and names with
    distinct one-digit suffixes, in any order and among any other names, the
    allocator returns the first missing suffix, and it is a new name. *)
Theorem uniqueNameAmong_one_digit_suffixes names js :
  Permutation (filter hasSamplePrefix names)
              (resourceGroupNamePrefix :: map candidate js) ->
  StronglySorted lt js ->
  Forall (fun j => (j <= 9)%nat) js ->
  uniqueNameAmong names = candidate (firstMissing 0 js)
  /\ ~ In (candidate (firstMissing 0 js)) names.
Proof.
  intros Hp Hs Hb. split.
  - unfold uniqueNameAmong. rewrite collectSeen_filter.
    assert (Hany : existsb hasSamplePrefix names = true).
    { apply existsb_exists. exists resourceGroupNamePrefix.
      apply filter_In. eapply Permutation_in; [symmetry; exact Hp | now left]. }
    rewrite Hany.
    rewrite (firstFit_scan _ resourceGroupNamePrefix (map candidate js)).
    + rewrite String.eqb_refl. apply scanFrom_candidates.
    + apply sort_Strings_unique; [exact Hp | now apply candidates_sorted].
  - intros Hin.
    assert (Hf : In (candidate (firstMissing 0 js)) (filter hasSamplePrefix names)).
    { apply filter_In. split; [exact Hin | apply candidate_hasSamplePrefix]. }
    eapply Permutation_in in Hf; [| exact Hp].
    destruct Hf as [E | Hf].
    + symmetry in E. now apply candidate_not_prefix in E.
    + apply in_map_iff in Hf as (j & E & Hj). apply candidate_inj in E. subst j.
      destruct (firstMissing_least js 0 Hs) as (_ & Hnin & _).
      * apply Forall_forall. intros; lia.
      * contradiction.
Qed.

(** The dense case of the above: the bare prefix and the suffixes 0 to K,
    for K up to 9, give suffix K + 1. *)
Corollary uniqueNameAmong_dense_run_below_ten names K :
  (K <= 9)%nat ->
  Permutation (filter hasSamplePrefix names) (resourceGroupNamePrefix :: run0to K) ->
  uniqueNameAmong names = candidate (K + 1).
Proof.
  intros HK Hp.
  destruct (uniqueNameAmong_one_digit_suffixes names (seq 0 (S K)) Hp) as [H _].
  - apply seq_increasing.
  - apply Forall_forall. intros j Hj. apply in_seq in Hj. lia.
  - rewrite H, firstMissing_seq. f_equal. lia.
Qed.

(** When no listed name is the bare prefix, the allocator returns it. *)
Theorem uniqueNameAmong_without_bare_prefix names :
  ~ In resourceGroupNamePrefix names ->
  uniqueNameAmong names = resourceGroupNamePrefix.
Proof.
  intros Hnin. unfold uniqueNameAmong. rewrite collectSeen_filter.
  unfold firstFit.
  destruct (existsb hasSamplePrefix names); cbn [andb]; [| reflexivity].
  destruct (sort_Strings (filter hasSamplePrefix names)) as [|p rest] eqn:Hs;
    cbn [nth]; [reflexivity |].
  destruct (String.eqb_spec p resourceGroupNamePrefix) as [-> | Hne]; [| reflexivity].
  exfalso. apply Hnin.
  assert (Hin : In resourceGroupNamePrefix (filter hasSamplePrefix names)).
  { eapply Permutation_in; [symmetry; apply sort_Strings_perm |].
    rewrite Hs. now left. }
  now apply filter_In in Hin.
Qed.

(** ** Properties of the monad and of [executeWithStatus] *)

Lemma Fprint_run (out : Writer) (s : string) (w : World) :
  out <> NilWriter -> Fprint out s w = (Next tt, said out s w).
Proof.
  intros H. destruct out; try congruence; unfold said; cbn.
  - unfold ret. destruct w; cbn. now rewrite app_nil_r.
  - reflexivity.
Qed.

Lemma executeWithStatus_run {Token} (g : Globals Token) operation message (w : World) :
  output g <> NilWriter ->
  executeWithStatus g operation message w =
    match operation (said (output g) (message ++ "...") w) with
    | (Next (response, err), w1) =>
        if absent err && absent response then (Panic, w1)
        else (Next (response, err), narrated (output g) response err w1)
    | (Returned, w1) => (Returned, w1)
    | (Panic, w1) => (Panic, w1)
    end.
Proof.
  intros Hout. unfold executeWithStatus, bind at 1.
  rewrite (Fprint_run _ _ _ Hout). unfold bind at 1.
  destruct (operation _) as [[[response err]| |] w1]; try reflexivity.
  unfold narrated, narration, successReport, failureReport.
  destruct err as [e|]; cbn [absent andb].
  - unfold bind, ret. rewrite (Fprint_run _ _ _ Hout). cbn.
    destruct w1; cbn. now rewrite <- app_assoc.
  - destruct response as [r|]; cbn [absent].
    + unfold bind, statusCode, bind, deref, ret; cbn [statusOK].
      destruct (http_StatusOK =? StatusCode r).
      * now rewrite (Fprint_run _ _ _ Hout).
      * rewrite (Fprint_run _ _ _ Hout). cbn. destruct w1; cbn. now rewrite <- app_assoc.
    + reflexivity.
Qed.

(** ** The name allocator *)

Lemma collectNames_named names : forall any seen,
  collectNames (map (fun n => mk_Group (Some n)) names) any seen
  = Some (fold_left
            (fun (acc : bool * list string) name =>
               if HasPrefix name resourceGroupNamePrefix
               then (true, (snd acc ++ [name])%list)
               else acc)
            names (any, seen)).
Proof.
  induction names as [|n names IH]; intros any seen; cbn; [reflexivity |].
  destruct (HasPrefix n resourceGroupNamePrefix); apply IH.
Qed.

Lemma collectGroups_run groups : forall any seen w,
  collectGroups groups any seen w
  = (match collectNames groups any seen with
     | Some r => Next r
     | None => Panic
     end, w).
Proof.
  induction groups as [|rg rest IH]; intros any seen w; cbn.
  - reflexivity.
  - unfold bind, deref. destruct (Group_Name rg) as [name|]; cbn; [|reflexivity].
    destruct (HasPrefix name resourceGroupNamePrefix); apply IH.
Qed.

(** On a listing that succeeds with status 200 and names every group,
    [getUniqueResourceGroupName] sends the one listing request and returns
    [uniqueNameAmong] of the listed names, without an error. *)
Lemma getUniqueResourceGroupName_lists azure (w : World) names response nm :
  azure (exchanges w) GroupsList
    = mk_Reply (Some response) None (Some (map (fun n => mk_Group (Some n)) names)) nm ->
  StatusCode response = http_StatusOK ->
  getUniqueResourceGroupName azure w
  = (Next (uniqueNameAmong names, None),
     mk_World (exchanges w ++ [mk_Exchange GroupsList (azure (exchanges w) GroupsList)])%list
              (console w) (exitStatus w) (deferred w)).
Proof.
  intros Hlist Hstatus.
  unfold getUniqueResourceGroupName, bind, remote, statusCode, bind, deref, ret.
  rewrite Hlist. cbn [Err Response Value]. rewrite Hstatus, Z.eqb_refl.
  rewrite collectGroups_run, collectNames_named.
  unfold uniqueNameAmong, collectSeen.
  now destruct (fold_left _ names (false, [])).
Qed.

(** The allocator is right while the suffixes have one digit: if the names
    with the prefix are the bare prefix and names with distinct suffixes
    between 0 and 9, listed in any order among any other names, the name
    returned carries the first missing suffix and is not a listed name. *)
Theorem getUniqueResourceGroupName_one_digit_suffixes azure (w : World) names js response nm :
  azure (exchanges w) GroupsList
    = mk_Reply (Some response) None (Some (map (fun n => mk_Group (Some n)) names)) nm ->
  StatusCode response = http_StatusOK ->
  Permutation (filter hasSamplePrefix names)
              (resourceGroupNamePrefix :: map candidate js) ->
  StronglySorted lt js ->
  Forall (fun j => (j <= 9)%nat) js ->
  fst (getUniqueResourceGroupName azure w) = Next (candidate (firstMissing 0 js), None)
  /\ ~ In (candidate (firstMissing 0 js)) names.
Proof.
  intros Hlist Hstatus Hp Hs Hb.
  rewrite (getUniqueResourceGroupName_lists azure w names response nm Hlist Hstatus).
  destruct (uniqueNameAmong_one_digit_suffixes names js Hp Hs Hb) as [-> Hnin].
  now split.
Qed.

(** When the bare prefix is not listed, it is the name returned. *)
Theorem getUniqueResourceGroupName_without_bare_prefix azure (w : World) names response nm :
  azure (exchanges w) GroupsList
    = mk_Reply (Some response) None (Some (map (fun n => mk_Group (Some n)) names)) nm ->
  StatusCode response = http_StatusOK ->
  ~ In resourceGroupNamePrefix names ->
  fst (getUniqueResourceGroupName azure w) = Next (resourceGroupNamePrefix, None).
Proof.
  intros Hlist Hstatus Hnin.
  rewrite (getUniqueResourceGroupName_lists azure w names response nm Hlist Hstatus).
  cbn [fst]. now rewrite (uniqueNameAmong_without_bare_prefix names Hnin).
Qed.

(** C1, evaluated where it fails: with the groups of twelve earlier runs
    listed with status 200, [getUniqueResourceGroupName] returns
    "networkSecurityGroupSample2" without an error, and that name is one of
    the listed groups. *)
Theorem getUniqueResourceGroupName_returns_existing_name :
  fst (getUniqueResourceGroupName (azure_ok twelve_groups) empty_world)
    = Next ("networkSecurityGroupSample2", None)
  /\ In "networkSecurityGroupSample2" twelve_groups.
Proof.
  split.
  - vm_compute. reflexivity.
  - vm_compute. do 3 right. left. reflexivity.
Qed.

(** C5, evaluated where it fails: with the bare prefix and the contiguous
    run of suffixes 0 to 10 (K = 10) the allocator returns suffix 2, not
    suffix 11. *)
Theorem getUniqueResourceGroupName_dense_run_of_eleven :
  fst (getUniqueResourceGroupName (azure_ok (resourceGroupNamePrefix :: run0to 10))
         empty_world)
    = Next (candidate 2, None)
  /\ candidate 2 <> candidate (10 + 1).
Proof.
  split.
  - vm_compute. reflexivity.
  - vm_compute. discriminate.
Qed.

(** C9, evaluated where it fails: the bare prefix and the suffixes 0 to 10
    and 12 are listed, so 11 is the first missing suffix; the allocator
    returns suffix 2, which is listed. *)
Theorem getUniqueResourceGroupName_gap_at_eleven :
  (forall i, (i < 11)%nat -> In (candidate i) groups_with_gap_at_11)
  /\ ~ In (candidate 11) groups_with_gap_at_11
  /\ fst (getUniqueResourceGroupName (azure_ok groups_with_gap_at_11) empty_world)
       = Next (candidate 2, None)
  /\ candidate 2 <> candidate 11.
Proof.
  split; [| split; [| split]].
  - intros i Hi.
    do 11 (destruct i as [|i]; [vm_compute; tauto |]). lia.
  - vm_compute. intros H.
    repeat (destruct H as [H|H]; [discriminate H |]). exact H.
  - vm_compute. reflexivity.
  - vm_compute. discriminate.
Qed.

(** ** The status-tracked executor *)

Lemma written_SUCCESS_not_FAILED out err response :
  successReport out <> failureReport out err response.
Proof.
  unfold successReport, failureReport. destruct out; cbn; discriminate.
Qed.

(** C4: whenever the operation hands back an error or a response, what
    [executeWithStatus] writes after the operation is the failure report
    (FAILED on [output] and the detail on standard error) if and only if
    the error is present or the status is not 200, and it is the success
    report (SUCCESS on [output]) if and only if the error is absent and the
    status is 200. *)
Theorem executeWithStatus_reports_failure_iff {Token} (g : Globals Token)
    operation message (w w1 : World) response err :
  output g <> NilWriter ->
  operation (said (output g) (message ++ "...") w) = (Next (response, err), w1) ->
  (err = None -> response <> None) ->
  exists report,
    snd (executeWithStatus g operation message w)
      = mk_World (exchanges w1) (console w1 ++ report)%list (exitStatus w1) (deferred w1)
    /\ (report = failureReport (output g) err response
        <-> (err <> None \/ option_map StatusCode response <> Some http_StatusOK))
    /\ (report = successReport (output g)
        <-> (err = None /\ option_map StatusCode response = Some http_StatusOK)).
Proof.
  intros Hout Hop Hresp.
  rewrite (executeWithStatus_run g operation message w Hout), Hop.
  assert (Hnn : absent err && absent response = false).
  { destruct err; [reflexivity|]. destruct response; [reflexivity|].
    now destruct (Hresp eq_refl). }
  rewrite Hnn. exists (narration (output g) response err).
  split; [reflexivity|]. unfold narration.
  destruct err as [e|]; cbn [absent andb].
  - split; split; intros H.
    + left; discriminate.
    + reflexivity.
    + symmetry in H. now apply written_SUCCESS_not_FAILED in H.
    + destruct H; discriminate.
  - destruct response as [r|]; [| now destruct (Hresp eq_refl)].
    cbn [statusOK option_map]. unfold http_StatusOK.
    destruct (200 =? StatusCode r) eqn:E.
    + apply Z.eqb_eq in E. split; split; intros H.
      * now apply written_SUCCESS_not_FAILED in H.
      * destruct H as [H|H]; [now destruct H | destruct H; congruence].
      * split; congruence.
      * reflexivity.
    + apply Z.eqb_neq in E. split; split; intros H.
      * right. intros K. injection K as K. congruence.
      * reflexivity.
      * symmetry in H. now apply written_SUCCESS_not_FAILED in H.
      * destruct H as [_ H]. injection H as H. congruence.
Qed.

Lemma executeWithStatus_reports_failure_iff_witness :
  output sample_globals <> NilWriter
  /\ exists report,
       snd (executeWithStatus sample_globals
              (ret (Some (mk_http_Response 404 "404 Not Found"), None)) "Step" empty_world)
         = mk_World [] ([Stdout "Step..."] ++ report)%list 0 []
       /\ (report = failureReport StdoutWriter None (Some (mk_http_Response 404 "404 Not Found"))
           <-> (@None Error <> None
                \/ option_map StatusCode (Some (mk_http_Response 404 "404 Not Found"))
                   <> Some http_StatusOK))
       /\ (report = successReport StdoutWriter
           <-> (@None Error = None
                /\ option_map StatusCode (Some (mk_http_Response 404 "404 Not Found"))
                   = Some http_StatusOK)).
Proof.
  split; [discriminate |].
  apply (executeWithStatus_reports_failure_iff sample_globals
           (ret (Some (mk_http_Response 404 "404 Not Found"), None)) "Step" empty_world
           (said StdoutWriter "Step..." empty_world)
           (Some (mk_http_Response 404 "404 Not Found")) None);
    [discriminate | reflexivity | discriminate].
Defined.

(** The four combinations of status and error, on the console of a run that
    is not quiet. *)
Example executeWithStatus_truth_table :
  let run_with status err :=
    console (snd (executeWithStatus sample_globals
                    (ret (Some (mk_http_Response status "text"), err)) "Step" empty_world)) in
  run_with 200 None = [Stdout "Step..."; Stdout ("SUCCESS" ++ nl)]
  /\ run_with 404 None
     = [Stdout "Step..."; Stdout ("FAILED" ++ nl);
        Stderr (tab ++ "Status Code: 404" ++ nl ++ tab ++ "Status: text" ++ nl)]
  /\ run_with 200 (Some "reset")
     = [Stdout "Step..."; Stdout ("FAILED" ++ nl);
        Stderr (tab ++ "Status Code: 200" ++ nl ++ tab ++ "Status: text" ++ nl
                    ++ tab ++ "Error: reset" ++ nl)]
  /\ run_with 404 (Some "reset")
     = [Stdout "Step..."; Stdout ("FAILED" ++ nl);
        Stderr (tab ++ "Status Code: 404" ++ nl ++ tab ++ "Status: text" ++ nl
                    ++ tab ++ "Error: reset" ++ nl)].
Proof. repeat split. Qed.

(** For every operation that hands back an error or a response,
    [executeWithStatus] returns that very pair; the exchanges, the exit
    status and the deferred calls are those the single run of the operation
    left. *)
Lemma executeWithStatus_returns_outcome {Token} (g : Globals Token)
    operation message (w w1 : World) response err :
  output g <> NilWriter ->
  operation (said (output g) (message ++ "...") w) = (Next (response, err), w1) ->
  absent err && absent response = false ->
  executeWithStatus g operation message w
    = (Next (response, err), narrated (output g) response err w1).
Proof.
  intros Hout Hop Hnn.
  now rewrite (executeWithStatus_run g operation message w Hout), Hop, Hnn.
Qed.

(** An operation that hands back neither an error nor a response makes
    [executeWithStatus] panic, in the state the operation left. *)
Lemma executeWithStatus_panics_without_outcome {Token} (g : Globals Token)
    operation message (w w1 : World) :
  output g <> NilWriter ->
  operation (said (output g) (message ++ "...") w) = (Next (None, None), w1) ->
  executeWithStatus g operation message w = (Panic, w1).
Proof.
  intros Hout Hop.
  now rewrite (executeWithStatus_run g operation message w Hout), Hop.
Qed.

(** C10, evaluated where it fails: the deletion request is answered with
    neither a response nor an error; [executeWithStatus] sends the request
    once and then panics on [response.StatusCode], so no pair is returned
    and neither SUCCESS nor FAILED is written. *)
Theorem executeWithStatus_panics_on_nil_response_nil_error :
  executeWithStatus sample_globals (await azure_silent (GroupsDelete "rg"))
                    "Deleting Resource Group 'rg'" empty_world
  = (Panic,
     mk_World [mk_Exchange (GroupsDelete "rg") (mk_Reply None None None None)]
              [Stdout "Deleting Resource Group 'rg'..."] 0 []).
Proof. reflexivity. Qed.

(** ** Symbolic runs of [main] *)

Lemma collectNames_total groups :
  Forall (fun rg => Group_Name rg <> None) groups ->
  forall any seen, exists r, collectNames groups any seen = Some r.
Proof.
  induction 1 as [|rg rest Hrg _ IH]; intros any seen; cbn.
  - eexists; reflexivity.
  - destruct (Group_Name rg) as [name|]; [| now destruct Hrg].
    destruct (HasPrefix name resourceGroupNamePrefix); apply IH.
Qed.

(** The term a stuck run is waiting for. *)
Ltac head_stuck t :=
  lazymatch t with
  | match ?x with _ => _ end => head_stuck x
  | (match ?x with _ => _ end) _ => head_stuck x
  | _ => t
  end.

Ltac exec_reduce :=
  cbv beta iota zeta delta
      [bind ret panic return_ deref emit setExitStatus defer remote await statusCode
       failWhen createRule panicked deleteResourceGroup];
  cbn [runDeferred exchanges console exitStatus deferred Response Err Value Name
       SecurityGroup_Name help token output pause delay fst snd orb andb absent
       said narrated app].

(** A reply with neither an error nor a response, once the test of
    [executeWithStatus_run] went that way. *)
Ltac nil_reply :=
  try match goal with
      | H : absent ?e && absent ?r = true |- _ =>
          let He := fresh in let Hr := fresh in
          apply andb_prop in H; destruct H as [He Hr];
          destruct e; [discriminate He |];
          destruct r; [discriminate Hr |];
          clear He Hr
      end.

(** One step of a run of [main]: [note h c] records what is known of the
    reply to request [c] after history [h]; [tidy] uses it once the reply is
    split into its fields. *)
Ltac step note tidy Hout azure :=
  lazymatch goal with
  | |- ?P ?t =>
      let s := head_stuck t in
      lazymatch s with
      | executeWithStatus ?g ?op ?msg ?w => rewrite (executeWithStatus_run g op msg w Hout)
      | Fprint _ _ _ => rewrite (Fprint_run _ _ _ Hout)
      | collectGroups _ _ _ _ => rewrite collectGroups_run
      | context [azure ?h ?c] =>
          let resp := fresh "resp" in let err := fresh "err" in
          let val := fresh "val" in let nm := fresh "nm" in
          note h c;
          destruct (azure h c) as [resp err val nm];
          cbn [Response Err Value Name] in *
      | deleteResourceGroup _ _ _ _ => idtac
      | (_, _) => fail "the run has ended"
      | _ =>
          first [ match goal with H : s = _ |- _ => rewrite H end
                | is_var s; destruct s
                | destruct s eqn:? ]
      end
  end; nil_reply; tidy; exec_reduce.

Ltac no_note h c := idtac.

Ltac run_main g Hg :=
  destruct g as [sub cl sec ten tok out p d h]; cbn [help output token] in Hg;
  unfold main, main_body, createResourceGroup, getUniqueResourceGroupName,
    createVirtualNetwork, createNetworkSecurityGroup;
  exec_reduce.

Ltac use_equations :=
  repeat match goal with
         | H : ?l = _ |- context [?l] => rewrite H
         end.

Ltac split_last :=
  lazymatch goal with
  | |- exists before x, ?xs = _ /\ _ =>
      exists (removelast xs),
             (last xs (mk_Exchange GroupsList (mk_Reply None None None None)))
  end.

Ltac leaf_cleanupOnce :=
  unfold cleanupOnce, createdGroups, deletedGroups;
  cbn [flat_map request reply Err absent app exchanges said narrated snd In];
  split;
  [ intros H; first [reflexivity | discriminate H]
  | intros name Hin;
    first
      [ contradiction
      | destruct Hin as [<-|[]]; split_last;
        cbn [removelast last flat_map request reply app];
        repeat split ] ].

Lemma main_cleanupOnce {Token} azure (g : Globals Token) written0 e0 :
  help g = true \/ output g <> NilWriter ->
  cleanupOnce (main azure g (mk_World [] written0 e0 [])).
Proof.
  intros Hg. run_main g Hg.
  destruct h.
  { exec_reduce. leaf_cleanupOnce. }
  destruct Hg as [Hg|Hout]; [discriminate|].
  repeat step no_note idtac Hout azure.
  all: leaf_cleanupOnce.
Qed.

Ltac leaf_exitCode :=
  unfold exitCodeOfFirstFailure, expectedExit, virtualNetworkFailed, operations, exitCodes;
  cbn [fst snd exchanges said narrated help token absent negb andb];
  cbn [firstObservedFailure observedFailure existsb map operationOf request reply
       Err Response absent negb andb orb String.eqb Ascii.eqb Bool.eqb];
  use_equations;
  split; [ cbn [In]; repeat first [left; reflexivity | right] |];
  split; [ reflexivity |];
  intros H; first [discriminate H | split; reflexivity].

Lemma main_exitCodeOfFirstFailure {Token} azure (g : Globals Token) written0 e0 :
  help g = true \/ output g <> NilWriter ->
  exitCodeOfFirstFailure g (main azure g (mk_World [] written0 e0 [])).
Proof.
  intros Hg. run_main g Hg.
  destruct h.
  { exec_reduce. leaf_exitCode. }
  destruct Hg as [Hg|Hout]; [discriminate|].
  repeat step no_note idtac Hout azure.
  all: leaf_exitCode.
Qed.

Ltac leaf_rules :=
  cbn [fst snd exchanges said narrated];
  cbn [fromFirstRule request String.eqb Ascii.eqb Bool.eqb];
  let x := fresh "x" in let after := fresh "after" in
  let H := fresh "H" in let Herr := fresh "Herr" in
  intros x after H Herr;
  first
    [ discriminate H
    | injection H as <- <-; cbn [reply Err] in Herr;
      first
        [ discriminate Herr
        | now destruct Herr
        | split;
          [ reflexivity
          | first [ reflexivity
                  | do 3 eexists; split; reflexivity ] ] ] ].

Lemma main_firstRuleFailureStops {Token} azure (g : Globals Token) written0 e0 :
  help g = true \/ output g <> NilWriter ->
  firstRuleFailureStops (main azure g (mk_World [] written0 e0 [])).
Proof.
  intros Hg. run_main g Hg.
  destruct h.
  { exec_reduce. unfold firstRuleFailureStops. leaf_rules. }
  destruct Hg as [Hg|Hout]; [discriminate|].
  repeat step no_note idtac Hout azure.
  all: unfold firstRuleFailureStops; leaf_rules.
Qed.

Ltac absurd_name :=
  try match goal with
      | H : None <> None |- _ => now destruct H
      end.

Lemma main_laterRulesNeverStop {Token} azure (g : Globals Token) written0 e0 :
  answersRules azure -> namesGroups azure ->
  help g = true \/ output g <> NilWriter ->
  laterRulesNeverStop (main azure g (mk_World [] written0 e0 [])).
Proof.
  intros Hrules Hnames Hg. run_main g Hg.
  destruct h.
  { exec_reduce. unfold laterRulesNeverStop. leaf_rules. }
  destruct Hg as [Hg|Hout]; [discriminate|].
  repeat step
    ltac:(fun h c =>
            lazymatch c with
            | SecurityRulesCreateOrUpdate ?rg ?nsg ?rule =>
                pose proof (Hrules h rg nsg rule)
            | SecurityGroupsGet ?rg ?n => pose proof (Hnames h rg n)
            | _ => idtac
            end)
    absurd_name Hout azure.
  all: unfold laterRulesNeverStop; leaf_rules.
Qed.

Ltac digest_success :=
  repeat match goal with
         | H : succeeds _ _ |- _ => unfold succeeds in H; cbn [Response Err Value Name] in H
         | H : _ /\ _ |- _ => destruct H
         | H : exists _, _ |- _ => destruct H
         | H : True |- _ => clear H
         | H : ?e = None |- _ => is_var e; subst e
         | H : ?v = Some _ |- _ => is_var v; subst v
         | H : statusOK ?r = true |- _ =>
             is_var r; destruct r; [cbn [statusOK] in H | discriminate H]
         | H : ?n <> None |- _ => is_var n; destruct n; [clear H | now destruct H]
         | H : Forall _ ?groups |- _ =>
             let r := fresh "r" in let Hr := fresh "Hr" in
             destruct (collectNames_total groups H false []) as [r Hr]; clear H
         end.

Lemma main_provisionsEverything {Token} azure (g : Globals Token) written0 e0 :
  allSucceed azure ->
  help g = false -> token g <> None -> output g <> NilWriter ->
  provisionsEverything (main azure g (mk_World [] written0 e0 [])).
Proof.
  intros Hok Hhelp Htoken Hout.
  assert (Hg : help g = true \/ output g <> NilWriter) by now right.
  run_main g Hg. cbn [help token output] in Hhelp, Htoken, Hout. subst h. clear Hg.
  destruct tok as [t|]; [| now destruct Htoken]. exec_reduce.
  repeat step ltac:(fun h c => pose proof (Hok h c)) digest_success Hout azure.
  all: split; reflexivity.
Qed.

(** ** What [init] leaves *)

Ltac split_validation :=
  repeat match goal with
         | |- context [if String.eqb EmptyString ?s then _ else _] =>
             destruct (String.eqb EmptyString s) eqn:?
         | |- context [match ?parse ?s with Some _ => _ | None => _ end] =>
             destruct (parse s) eqn:?
         end.

Lemma validateParameters_frame {GUID Token}
    (guid_Parse : string -> option GUID) guid_StringfD (g : Globals Token) :
  let g' := snd (validateParameters guid_Parse guid_StringfD g) in
  token g' = token g /\ output g' = output g /\ help g' = help g.
Proof.
  unfold validateParameters. split_validation; cbn; auto.
Qed.

Lemma init_ready {GUID OAuthConfig Token}
    (guid_Parse : string -> option GUID) guid_StringfD
    (newConfig : string -> OAuthConfig + Error)
    (newToken : OAuthConfig -> string -> string -> Token + Error) flags env :
  let g := fst (init guid_Parse guid_StringfD newConfig newToken flags env) in
  help g = flag_help flags /\ (help g = true \/ output g <> NilWriter).
Proof.
  unfold init. cbn [help]. destruct (flag_help flags) eqn:Hh.
  - cbn. auto.
  - match goal with
    | |- context [validateParameters ?p ?s ?g0] =>
        pose proof (validateParameters_frame p s g0) as Hf;
        destruct (validateParameters p s g0) as [errs g1]
    end.
    cbn [snd token output help] in Hf. destruct Hf as (Ht & Ho & Hp).
    assert (Hout : output g1 <> NilWriter).
    { rewrite Ho. destruct (flag_quiet flags); discriminate. }
    destruct (0 <? length errs)%nat; [cbn; rewrite Hp; auto |].
    destruct (newConfig _) as [config|e]; [| cbn; rewrite Hp; auto].
    destruct (newToken _ _ _) as [t|e]; cbn; rewrite ?Hp; auto.
Qed.

Lemma init_without_tenant {GUID OAuthConfig Token}
    (guid_Parse : string -> option GUID) guid_StringfD
    (newConfig : string -> OAuthConfig + Error)
    (newToken : OAuthConfig -> string -> string -> Token + Error) flags env :
  AZURE_TENANT_ID env = EmptyString ->
  token (fst (init guid_Parse guid_StringfD newConfig newToken flags env)) = None.
Proof.
  intros Htenant. unfold init. cbn [help]. destruct (flag_help flags); [reflexivity |].
  unfold validateParameters. cbn [tenantID subscriptionID clientID clientSecret].
  rewrite Htenant, String.eqb_refl.
  split_validation; reflexivity.
Qed.

Lemma init_authenticated {GUID OAuthConfig Token}
    (guid_Parse : string -> option GUID) guid_StringfD
    (newConfig : string -> OAuthConfig + Error)
    (newToken : OAuthConfig -> string -> string -> Token + Error) flags env :
  wellFormedCredentials guid_Parse guid_StringfD newConfig newToken env ->
  flag_help flags = false ->
  let g := fst (init guid_Parse guid_StringfD newConfig newToken flags env) in
  help g = false /\ token g <> None /\ output g <> NilWriter.
Proof.
  intros (tenant & subscription & client & config & t &
          Ht & Hpt & Hs & Hps & Hc & Hpc & Hsec & Hconfig & Htoken) Hhelp.
  assert (Hne : forall s, s <> EmptyString -> String.eqb EmptyString s = false).
  { intros s Hs0. apply String.eqb_neq. congruence. }
  unfold init. cbn [help]. rewrite Hhelp.
  unfold validateParameters. cbn [tenantID subscriptionID clientID clientSecret].
  rewrite (Hne _ Ht), (Hne _ Hs), (Hne _ Hc), (Hne _ Hsec), Hpt, Hps, Hpc.
  cbn. rewrite Hconfig, Htoken. cbn.
  repeat split; try discriminate. destruct (flag_quiet flags); discriminate.
Qed.

Lemma main_without_token {Token} azure (g : Globals Token) written0 e0 :
  token g = None ->
  let r := main azure g (mk_World [] written0 e0 []) in
  exchanges (snd r) = []
  /\ fst r = if help g then ExitSuccess else ExitAuthenticationFailure.
Proof.
  intros Htoken. destruct g as [sub cl sec ten tok out p d h].
  cbn [token] in Htoken. subst tok. destruct h; cbn; auto.
Qed.

(** ** The run of the process *)

Section Run.

Context {GUID OAuthConfig Token : Type}.
Variable guid_Parse : string -> option GUID.
Variable guid_StringfD : GUID -> string.
Variable adal_NewOAuthConfig : string -> OAuthConfig + Error.
Variable adal_NewServicePrincipalToken : OAuthConfig -> string -> string -> Token + Error.
Variable azure : list Exchange -> Call -> Reply.

Local Abbreviation init_ := (init guid_Parse guid_StringfD adal_NewOAuthConfig
                        adal_NewServicePrincipalToken).
Local Abbreviation run_ := (run guid_Parse guid_StringfD adal_NewOAuthConfig
                      adal_NewServicePrincipalToken azure).

Lemma run_main_of_init flags env :
  run_ flags env
  = main azure (fst (init_ flags env)) (mk_World [] (snd (init_ flags env)) ExitSuccess []).
Proof.
  unfold run. now destruct (init _ _ _ _ _ _).
Qed.

(** C3: in every run, if no creation of a resource group returned without
    error then no deletion is requested; and if the creation of resource
    group [name] returned without error, the last request of the run is the
    deletion of [name] and no deletion is requested before it. *)
Theorem resource_group_is_deleted_exactly_once flags env code w :
  run_ flags env = (code, w) ->
  (createdGroups (exchanges w) = [] -> deletedGroups (exchanges w) = [])
  /\ (forall name,
        In name (createdGroups (exchanges w)) ->
        exists before x,
          exchanges w = (before ++ [x])%list
          /\ request x = GroupsDelete name
          /\ deletedGroups before = []).
Proof.
  intros Hrun. rewrite run_main_of_init in Hrun.
  destruct (init_ready guid_Parse guid_StringfD adal_NewOAuthConfig
                       adal_NewServicePrincipalToken flags env) as [_ Hg].
  pose proof (main_cleanupOnce azure _ (snd (init_ flags env)) ExitSuccess Hg) as H.
  rewrite Hrun in H. exact H.
Qed.

Lemma virtualNetworkFailed_intro xs x :
  In x xs ->
  operationOf (request x) = OpCreate VirtualNetwork ->
  Err (reply x) <> None ->
  virtualNetworkFailed xs = true.
Proof.
  intros Hin Hop Herr. unfold virtualNetworkFailed.
  apply existsb_exists. exists x. split; [exact Hin |].
  destruct (request x); try discriminate Hop.
  destruct (Err (reply x)); [reflexivity | now destruct Herr].
Qed.

(** What [main] does check.  The exit code of every run is one of the seven
    codes; it is the code of the first failure [main] checks (the missing
    token, else the first exchange with an [observedFailure]), and the
    success code when there is none; and if the creation of the virtual
    network returned an error, the exit code is the one of that stage and
    the requests of the run are the listing, the creation of the resource
    group, the creation of the virtual network and the deletion of the
    resource group. *)
Theorem exit_code_is_first_observed_failure flags env code w :
  run_ flags env = (code, w) ->
  In code exitCodes
  /\ code = expectedExit (fst (init_ flags env)) (exchanges w)
  /\ (forall x,
        In x (exchanges w) ->
        operationOf (request x) = OpCreate VirtualNetwork ->
        Err (reply x) <> None ->
        code = ExitVirtualNetworkCreationFailure
        /\ operations (exchanges w)
           = [OpList; OpCreate ResourceGroup; OpCreate VirtualNetwork;
              OpDelete ResourceGroup]).
Proof.
  intros Hrun. rewrite run_main_of_init in Hrun.
  destruct (init_ready guid_Parse guid_StringfD adal_NewOAuthConfig
                       adal_NewServicePrincipalToken flags env) as [_ Hg].
  pose proof (main_exitCodeOfFirstFailure azure _ (snd (init_ flags env)) ExitSuccess Hg)
    as (Hin & Hcode & Hvnet).
  rewrite Hrun in Hin, Hcode, Hvnet. cbn [fst snd] in Hin, Hcode, Hvnet.
  repeat split; [exact Hin | exact Hcode | |];
    apply Hvnet; eapply virtualNetworkFailed_intro; eassumption.
Qed.

(** The rules, as far as [main] checks them.  In every run that requested
    the creation of the rule ALLOW-SSH: if
    that request returned an error, the exit code is the one of the
    security-rule stage and only the deletion of the resource group follows;
    if it returned no error, and the service answers every rule creation
    with an error or a response and names the security groups it returns,
    then whatever the three later rule creations return, all three are
    requested, then the deletion, and the exit code is the success code. *)
Theorem only_first_rule_failure_stops_the_run flags env code w x after :
  run_ flags env = (code, w) ->
  fromFirstRule (exchanges w) = Some (x, after) ->
  (Err (reply x) <> None ->
   code = ExitSecurityRuleCreationFailure
   /\ operations after = [OpDelete ResourceGroup])
  /\ (answersRules azure -> namesGroups azure ->
      Err (reply x) = None ->
      code = ExitSuccess
      /\ exists rg frontend backend,
           request x = SecurityRulesCreateOrUpdate rg frontend "ALLOW-SSH"
           /\ map request after
              = [SecurityRulesCreateOrUpdate rg frontend "ALLOW-HTTP";
                 SecurityRulesCreateOrUpdate rg backend "ALLOW-SQL";
                 SecurityRulesCreateOrUpdate rg backend "DENY-OUT";
                 GroupsDelete rg]).
Proof.
  intros Hrun Hfirst. rewrite run_main_of_init in Hrun.
  destruct (init_ready guid_Parse guid_StringfD adal_NewOAuthConfig
                       adal_NewServicePrincipalToken flags env) as [_ Hg].
  split.
  - intros Herr.
    pose proof (main_firstRuleFailureStops azure _ (snd (init_ flags env)) ExitSuccess Hg) as H.
    rewrite Hrun in H. exact (H x after Hfirst Herr).
  - intros Hrules Hnames Herr.
    pose proof (main_laterRulesNeverStop azure _ (snd (init_ flags env)) ExitSuccess
                                         Hrules Hnames Hg) as H.
    rewrite Hrun in H. exact (H x after Hfirst Herr).
Qed.

(** C8, amended: if the tenant ID is absent from the environment, the run
    issues no remote call at all, and it exits with the
    authentication-failure code unless the help flag is given, in which case
    it exits with the success code. *)
Theorem missing_tenant_stops_before_any_call flags env code w :
  AZURE_TENANT_ID env = EmptyString ->
  run_ flags env = (code, w) ->
  exchanges w = []
  /\ code = if flag_help flags then ExitSuccess else ExitAuthenticationFailure.
Proof.
  intros Htenant Hrun. rewrite run_main_of_init in Hrun.
  pose proof (init_without_tenant guid_Parse guid_StringfD adal_NewOAuthConfig
                                  adal_NewServicePrincipalToken flags env Htenant) as Htoken.
  destruct (init_ready guid_Parse guid_StringfD adal_NewOAuthConfig
                       adal_NewServicePrincipalToken flags env) as [Hhelp _].
  pose proof (main_without_token azure _ (snd (init_ flags env)) ExitSuccess Htoken) as H.
  cbv zeta in H. rewrite Hrun, Hhelp in H. exact H.
Qed.

End Run.

(** ** The theorems at sample runs *)

Lemma sample_env_wellFormed :
  wellFormedCredentials sample_guid_Parse (fun s => s) sample_NewOAuthConfig
                        sample_NewServicePrincipalToken sample_env.
Proof.
  unfold wellFormedCredentials.
  do 5 eexists. repeat split; try discriminate; reflexivity.
Qed.

Lemma azure_ok_allSucceed names : allSucceed (azure_ok names).
Proof.
  intros h c. unfold succeeds.
  destruct c; cbn; repeat split; try discriminate.
  eexists; split; [reflexivity |].
  induction names; cbn; constructor; [discriminate | assumption].
Qed.

Lemma sample_run_pair azure flags env :
  run sample_guid_Parse (fun s => s) sample_NewOAuthConfig sample_NewServicePrincipalToken
      azure flags env
  = (fst (sample_run azure flags env), snd (sample_run azure flags env)).
Proof.
  unfold sample_run. now destruct (run _ _ _ _ _ _ _).
Qed.

(** C2 as stated fails: on a run without the help flag, with well-formed
    credentials and a service on which every call succeeds, the exit code is
    the success code and 4 security rules are created, not 5; and with the
    help flag in addition no resource group is created. *)
Lemma successful_run_creates_four_rules_not_five :
  wellFormedCredentials sample_guid_Parse (fun s => s) sample_NewOAuthConfig
                        sample_NewServicePrincipalToken sample_env
  /\ allSucceed (azure_ok [])
  /\ fst (sample_run (azure_ok []) sample_flags sample_env) = ExitSuccess
  /\ countOp (OpCreate SecurityRule)
             (exchanges (snd (sample_run (azure_ok []) sample_flags sample_env))) = 4%nat
  /\ countOp (OpCreate SecurityRule)
             (exchanges (snd (sample_run (azure_ok []) sample_flags sample_env))) <> 5%nat
  /\ countOp (OpCreate ResourceGroup)
             (exchanges (snd (sample_run (azure_ok []) help_flags sample_env))) <> 1%nat.
Proof.
  split; [exact sample_env_wellFormed |].
  split; [exact (azure_ok_allSucceed []) |].
  split; [vm_compute; reflexivity |].
  split; [vm_compute; reflexivity |].
  split; vm_compute; discriminate.
Qed.

Lemma resource_group_is_deleted_exactly_once_witness :
  In resourceGroupNamePrefix
     (createdGroups (exchanges (snd (sample_run (azure_ok []) sample_flags sample_env))))
  /\ exists before x,
       exchanges (snd (sample_run (azure_ok []) sample_flags sample_env))
         = (before ++ [x])%list
       /\ request x = GroupsDelete resourceGroupNamePrefix
       /\ deletedGroups before = [].
Proof.
  assert (Hin : In resourceGroupNamePrefix
                   (createdGroups
                      (exchanges (snd (sample_run (azure_ok []) sample_flags sample_env)))))
    by (vm_compute; left; reflexivity).
  split; [exact Hin |].
  exact (proj2 (resource_group_is_deleted_exactly_once
                  sample_guid_Parse (fun s => s) sample_NewOAuthConfig
                  sample_NewServicePrincipalToken (azure_ok []) sample_flags sample_env
                  _ _ (sample_run_pair (azure_ok []) sample_flags sample_env))
               resourceGroupNamePrefix Hin).
Defined.

Lemma exit_code_is_first_observed_failure_witness :
  exists x,
    In x (exchanges (snd (sample_run azure_vnet_fails sample_flags sample_env)))
    /\ operationOf (request x) = OpCreate VirtualNetwork
    /\ Err (reply x) <> None
    /\ fst (sample_run azure_vnet_fails sample_flags sample_env)
       = ExitVirtualNetworkCreationFailure
    /\ operations (exchanges (snd (sample_run azure_vnet_fails sample_flags sample_env)))
       = [OpList; OpCreate ResourceGroup; OpCreate VirtualNetwork; OpDelete ResourceGroup].
Proof.
  assert (H : exists x,
             In x (exchanges (snd (sample_run azure_vnet_fails sample_flags sample_env)))
             /\ operationOf (request x) = OpCreate VirtualNetwork
             /\ Err (reply x) <> None).
  { vm_compute. eexists. split; [do 2 right; left; reflexivity |].
    split; [reflexivity | discriminate]. }
  destruct H as (x & Hin & Hop & Herr).
  exists x. split; [exact Hin |]. split; [exact Hop |]. split; [exact Herr |].
    exact (proj2 (proj2 (exit_code_is_first_observed_failure
                           sample_guid_Parse (fun s => s) sample_NewOAuthConfig
                           sample_NewServicePrincipalToken azure_vnet_fails
                           sample_flags sample_env _ _
                           (sample_run_pair azure_vnet_fails sample_flags sample_env)))
                 x Hin Hop Herr).
Defined.

Lemma azure_later_rules_fail_answersRules : answersRules azure_later_rules_fail.
Proof.
  intros h rg nsg rule. unfold azure_later_rules_fail.
  destruct (String.eqb rule "ALLOW-SSH"); reflexivity.
Qed.

Lemma azure_later_rules_fail_namesGroups : namesGroups azure_later_rules_fail.
Proof.
  intros h rg n. cbn. discriminate.
Qed.

Lemma only_first_rule_failure_stops_the_run_witness :
  (exists x after,
     fromFirstRule (exchanges (snd (sample_run azure_first_rule_fails sample_flags sample_env)))
       = Some (x, after)
     /\ Err (reply x) <> None
     /\ fst (sample_run azure_first_rule_fails sample_flags sample_env)
        = ExitSecurityRuleCreationFailure
     /\ operations after = [OpDelete ResourceGroup])
  /\ (exists x after,
        fromFirstRule (exchanges (snd (sample_run azure_later_rules_fail sample_flags sample_env)))
          = Some (x, after)
        /\ Err (reply x) = None
        /\ map (fun y => Err (reply y)) after
           = [Some "conflict"; Some "conflict"; Some "conflict"; None]
        /\ fst (sample_run azure_later_rules_fail sample_flags sample_env) = ExitSuccess
        /\ operations after
           = [OpCreate SecurityRule; OpCreate SecurityRule; OpCreate SecurityRule;
              OpDelete ResourceGroup]).
Proof.
  split.
  - assert (H : exists x after,
               fromFirstRule
                 (exchanges (snd (sample_run azure_first_rule_fails sample_flags sample_env)))
               = Some (x, after)
               /\ Err (reply x) <> None).
    { vm_compute. do 2 eexists. split; [reflexivity | discriminate]. }
    destruct H as (x & after & Hfirst & Herr).
    exists x, after. split; [exact Hfirst |]. split; [exact Herr |].
    exact (proj1 (only_first_rule_failure_stops_the_run
                    sample_guid_Parse (fun s => s) sample_NewOAuthConfig
                    sample_NewServicePrincipalToken azure_first_rule_fails
                    sample_flags sample_env _ _ x after
                    (sample_run_pair azure_first_rule_fails sample_flags sample_env)
                    Hfirst)
                 Herr).
  - assert (H : exists x after,
               fromFirstRule
                 (exchanges (snd (sample_run azure_later_rules_fail sample_flags sample_env)))
               = Some (x, after)
               /\ Err (reply x) = None
               /\ map (fun y => Err (reply y)) after
                  = [Some "conflict"; Some "conflict"; Some "conflict"; None]
               /\ operations after
                  = [OpCreate SecurityRule; OpCreate SecurityRule; OpCreate SecurityRule;
                     OpDelete ResourceGroup]).
    { vm_compute. do 2 eexists. repeat split. }
    destruct H as (x & after & Hfirst & Herr & Herrs & Hops).
    exists x, after.
    split; [exact Hfirst |]. split; [exact Herr |]. split; [exact Herrs |].
    split; [| exact Hops].
    exact (proj1 (proj2 (only_first_rule_failure_stops_the_run
                           sample_guid_Parse (fun s => s) sample_NewOAuthConfig
                           sample_NewServicePrincipalToken azure_later_rules_fail
                           sample_flags sample_env _ _ x after
                           (sample_run_pair azure_later_rules_fail sample_flags sample_env)
                           Hfirst)
                        azure_later_rules_fail_answersRules
                        azure_later_rules_fail_namesGroups Herr)).
Defined.

Lemma missing_tenant_stops_before_any_call_witness :
  AZURE_TENANT_ID env_without_tenant = EmptyString
  /\ exchanges (snd (sample_run (azure_ok []) sample_flags env_without_tenant)) = []
  /\ fst (sample_run (azure_ok []) sample_flags env_without_tenant)
     = ExitAuthenticationFailure.
Proof.
  split; [reflexivity |].
  exact (missing_tenant_stops_before_any_call
           sample_guid_Parse (fun s => s) sample_NewOAuthConfig
           sample_NewServicePrincipalToken (azure_ok []) sample_flags env_without_tenant
           _ _ eq_refl
           (sample_run_pair (azure_ok []) sample_flags env_without_tenant)).
Defined.

(** C8 as stated fails: the tenant ID is absent and the help flag is given;
    the exit code is the success code, not the authentication-failure code. *)
Lemma missing_tenant_with_help_exits_with_success :
  AZURE_TENANT_ID env_without_tenant = EmptyString
  /\ fst (sample_run (azure_ok []) help_flags env_without_tenant) = ExitSuccess
  /\ fst (sample_run (azure_ok []) help_flags env_without_tenant)
     <> ExitAuthenticationFailure.
Proof.
  split; [reflexivity |].
  split; vm_compute; [reflexivity | discriminate].
Qed.

(** ** Runs on which a failure goes unnoticed *)

(** C6, evaluated where it fails.  (1) The creation of each security group
    returns an error and its retrieval succeeds: [executeWithStatus] reports
    the creation as FAILED, the error is overwritten by the one of the
    retrieval before [main] tests it, and the run requests everything that
    follows and exits with the success code, not with the code of the
    security-group stage.  (2) The creation of the virtual network is
    answered with status 500 and no error: [executeWithStatus] reports it
    as FAILED, [main] tests the error only, and the run creates the
    security groups, the subnets and the rules and exits with the success
    code, not with the code of the virtual-network stage. *)
Theorem unchecked_failures_exit_with_success :
  ((exists x,
      In x (exchanges (snd (sample_run azure_nsg_creation_fails sample_flags sample_env)))
      /\ request x = SecurityGroupsCreateOrUpdate resourceGroupNamePrefix "frontend"
      /\ Err (reply x) = Some "throttled")
   /\ reportedFailed "Creating Network Security Group 'frontend'"
        (console (snd (sample_run azure_nsg_creation_fails sample_flags sample_env))) = true
   /\ fst (sample_run azure_nsg_creation_fails sample_flags sample_env) = ExitSuccess
   /\ fst (sample_run azure_nsg_creation_fails sample_flags sample_env)
      <> ExitNetworkSecuritryGroupCreationFailure
   /\ operations (exchanges (snd (sample_run azure_nsg_creation_fails sample_flags
                                             sample_env)))
      = fullSequence)
  /\ ((exists x,
         In x (exchanges (snd (sample_run azure_vnet_status_500 sample_flags sample_env)))
         /\ operationOf (request x) = OpCreate VirtualNetwork
         /\ Err (reply x) = None
         /\ statusOK (Response (reply x)) = false)
      /\ reportedFailed "Creating Virtual Network 'sampleVirtualNetwork'"
           (console (snd (sample_run azure_vnet_status_500 sample_flags sample_env))) = true
      /\ fst (sample_run azure_vnet_status_500 sample_flags sample_env) = ExitSuccess
      /\ fst (sample_run azure_vnet_status_500 sample_flags sample_env)
         <> ExitVirtualNetworkCreationFailure
      /\ operations (exchanges (snd (sample_run azure_vnet_status_500 sample_flags
                                                sample_env)))
         = fullSequence).
Proof.
  split.
  - split.
    { vm_compute. eexists. split; [do 3 right; left; reflexivity |].
      split; reflexivity. }
    split; [vm_compute; reflexivity |].
    split; [vm_compute; reflexivity |].
    split; [vm_compute; discriminate |].
    vm_compute; reflexivity.
  - split.
    { vm_compute. eexists. split; [do 2 right; left; reflexivity |].
      split; [reflexivity |]. split; reflexivity. }
    split; [vm_compute; reflexivity |].
    split; [vm_compute; reflexivity |].
    split; [vm_compute; discriminate |].
    vm_compute; reflexivity.
Qed.

(** C7, evaluated where it fails: the creation of the rule ALLOW-SSH is
    answered without an error and with a status other than 200 (500, or
    the 201 of a creation).  [executeWithStatus] reports the step as FAILED;
    [main] tests the error only, so the three later rules are requested,
    then the deletion, and the exit code is the success code, not the one
    of the security-rule stage. *)
Theorem first_rule_failure_by_status_does_not_stop_the_run :
  firstRuleStatusIgnored 500 "500 Internal Server Error"
  /\ firstRuleStatusIgnored 201 "201 Created".
Proof.
  split; vm_compute; do 2 eexists;
    (split; [reflexivity |]); (split; [reflexivity |]); (split; [reflexivity |]);
    (split; [reflexivity |]); (split; [reflexivity |]); (split; [reflexivity |]);
    (split; [discriminate | reflexivity]).
Qed.

(** A panic of the body of [main] is swallowed by the deferred [os.Exit]:
    when the listing hands back neither a response nor an error, the run
    stops after that one request and exits with the success code. *)
Example panic_exits_with_the_status_set_so_far :
  fst (sample_run azure_silent sample_flags sample_env) = ExitSuccess
  /\ operations (exchanges (snd (sample_run azure_silent sample_flags sample_env)))
     = [OpList].
Proof. split; vm_compute; reflexivity. Qed.

(** * Further properties of the code *)

(** ** More on the name allocator *)

Lemma prefix_leb p : forall s, String.prefix p s = true -> String.leb p s = true.
Proof.
  unfold String.leb.
  induction p as [|c p IH]; intros s H.
  - now destruct s.
  - destruct s as [|d s]; cbn in H; [discriminate |].
    destruct (ascii_dec c d) as [<- | ]; [| discriminate].
    cbn. rewrite Ascii_compare_refl. now apply IH.
Qed.

Lemma sorted_prefixed_head seen :
  Forall (fun s => hasSamplePrefix s = true) seen ->
  In resourceGroupNamePrefix seen ->
  exists rest, sort_Strings seen = resourceGroupNamePrefix :: rest
               /\ Permutation seen (resourceGroupNamePrefix :: rest).
Proof.
  intros Hall Hin.
  pose proof (sort_Strings_perm seen) as Hp.
  pose proof (sort_Strings_sorted seen) as Hs.
  destruct (sort_Strings seen) as [|h rest].
  { apply Permutation_sym, Permutation_nil in Hp. subst. contradiction. }
  assert (h = resourceGroupNamePrefix) as ->.
  { apply String.leb_antisym.
    - apply StronglySorted_inv in Hs as [_ Hh].
      assert (Hin' : In resourceGroupNamePrefix (h :: rest))
        by (eapply Permutation_in; eassumption).
      destruct Hin' as [-> | Hin']; [apply String_leb_refl |].
      rewrite Forall_forall in Hh. now apply Hh.
    - apply prefix_leb. rewrite Forall_forall in Hall. apply Hall.
      eapply Permutation_in; [symmetry; exact Hp | now left]. }
  exists rest. split; [reflexivity | exact Hp].
Qed.

Lemma scanFrom_bound rest : forall k,
  exists i, scanFrom k rest = candidate i
            /\ (k <= i <= k + length rest)%nat
            /\ forall j, (k <= j < i)%nat -> In (candidate j) rest.
Proof.
  induction rest as [|s rest IH]; intros k; cbn [scanFrom length].
  - exists k. repeat split; lia.
  - destruct (String.eqb_spec s (candidate k)) as [-> | Hne].
    + destruct (IH (S k)) as (i & Hi & Hb & Hall).
      exists i. repeat split; [exact Hi | lia | lia |].
      intros j Hj. destruct (Nat.eq_dec j k) as [-> | Hjk]; [now left |].
      right. apply Hall. lia.
    + exists k. repeat split; lia.
Qed.

Lemma existsb_filter {A} (f : A -> bool) l :
  existsb f l = negb (Nat.eqb (length (filter f l)) 0).
Proof.
  induction l as [|a l IH]; cbn; [reflexivity |].
  destruct (f a); cbn; [reflexivity | exact IH].
Qed.

Lemma uniqueNameAmong_filter names :
  uniqueNameAmong names
  = firstFit (negb (Nat.eqb (length (filter hasSamplePrefix names)) 0))
             (filter hasSamplePrefix names).
Proof.
  unfold uniqueNameAmong. rewrite collectSeen_filter. now rewrite existsb_filter.
Qed.

Lemma sort_Strings_permutation l l' :
  Permutation l l' -> sort_Strings l = sort_Strings l'.
Proof.
  intros Hp. apply sort_Strings_unique; [| apply sort_Strings_sorted].
  rewrite Hp. apply sort_Strings_perm.
Qed.

Lemma uniqueNameAmong_permutation names names' :
  Permutation (filter hasSamplePrefix names) (filter hasSamplePrefix names') ->
  uniqueNameAmong names = uniqueNameAmong names'.
Proof.
  intros Hp. rewrite !uniqueNameAmong_filter.
  rewrite (Permutation_length Hp). unfold firstFit.
  now rewrite (sort_Strings_permutation _ _ Hp).
Qed.

Lemma uniqueNameAmong_with_bare_prefix names :
  In resourceGroupNamePrefix names ->
  exists i,
    uniqueNameAmong names = candidate i
    /\ (i < length (filter hasSamplePrefix names))%nat
    /\ forall j, (j < i)%nat -> In (candidate j) names.
Proof.
  intros Hin.
  assert (Hinf : In resourceGroupNamePrefix (filter hasSamplePrefix names)).
  { apply filter_In. split; [exact Hin | reflexivity]. }
  destruct (sorted_prefixed_head (filter hasSamplePrefix names)) as (rest & Hs & Hp).
  { apply Forall_forall. intros s Hsin. now apply filter_In in Hsin. }
  { exact Hinf. }
  rewrite uniqueNameAmong_filter.
  replace (negb (Nat.eqb (length (filter hasSamplePrefix names)) 0)) with true.
  2:{ rewrite (Permutation_length Hp). reflexivity. }
  rewrite (firstFit_scan _ _ _ Hs), String.eqb_refl.
  destruct (scanFrom_bound rest 0) as (i & Hi & Hb & Hall).
  exists i. split; [exact Hi |]. split.
  - rewrite (Permutation_length Hp). cbn [length]. lia.
  - intros j Hj.
    assert (Hr : In (candidate j) (filter hasSamplePrefix names)).
    { eapply Permutation_in; [symmetry; exact Hp |]. right. apply Hall. lia. }
    now apply filter_In in Hr.
Qed.

(** [getUniqueResourceGroupName] sends one request, the listing, and leaves
    the console, the exit status and the deferred calls as they are,
    whatever it returns and also when it panics. *)
Theorem getUniqueResourceGroupName_sends_one_listing azure (w : World) :
  snd (getUniqueResourceGroupName azure w) = afterRequest azure GroupsList w.
Proof.
  unfold getUniqueResourceGroupName, afterRequest, bind, remote, statusCode, bind, deref, ret,
    panic.
  destruct (azure (exchanges w) GroupsList) as [[resp|] [e|] [groups|] nm];
    cbn [Err Response Value]; try reflexivity;
    destruct (http_StatusOK =? StatusCode resp); try reflexivity.
  rewrite collectGroups_run.
  now destruct (collectNames groups false []) as [[any seen]|].
Qed.

(** The errors of [getUniqueResourceGroupName]: it returns an error exactly
    when the listing returned one, which it hands on as it is, or when the
    listing returned none and a status other than 200, which gives
    "Bad response: " and the status; the name is empty in both cases. *)
Theorem getUniqueResourceGroupName_error_iff azure (w : World) name e :
  fst (getUniqueResourceGroupName azure w) = Next (name, Some e)
  <-> name = EmptyString
      /\ (Err (azure (exchanges w) GroupsList) = Some e
          \/ (Err (azure (exchanges w) GroupsList) = None
              /\ exists response,
                   Response (azure (exchanges w) GroupsList) = Some response
                   /\ StatusCode response <> http_StatusOK
                   /\ e = "Bad response: " ++ itoa (StatusCode response))).
Proof.
  unfold getUniqueResourceGroupName, bind, remote, statusCode, bind, deref, ret, panic.
  destruct (azure (exchanges w) GroupsList) as [[resp|] [e'|] [groups|] nm];
    cbn [Err Response Value fst].
  1,2,5,6: split;
    [ intros [= <- <-]; auto
    | intros (-> & [[= ->] | (Hn & _)]); [reflexivity | discriminate Hn] ].
  1,2: destruct (http_StatusOK =? StatusCode resp) eqn:E.
  5,6: split; [discriminate | intros (_ & [H | (_ & r & H & _)]); discriminate H].
  - rewrite collectGroups_run.
    apply Z.eqb_eq in E.
    destruct (collectNames groups false []) as [[any seen]|]; cbn [fst];
      (split; [discriminate |]);
      intros (_ & [H | (_ & r & [= <-] & Hne & _)]); [discriminate H | congruence
                                                       | discriminate H | congruence].
  - apply Z.eqb_neq in E. split.
    + intros [= <- <-]. split; [reflexivity |]. right. split; [reflexivity |].
      exists resp. repeat split. congruence.
    + intros (-> & [H | (_ & r & [= <-] & _ & ->)]); [discriminate H | reflexivity].
  - apply Z.eqb_eq in E. cbn [fst]. split; [discriminate |].
    intros (_ & [H | (_ & r & [= <-] & Hne & _)]); [discriminate H | congruence].
  - apply Z.eqb_neq in E. split.
    + intros [= <- <-]. split; [reflexivity |]. right. split; [reflexivity |].
      exists resp. repeat split. congruence.
    + intros (-> & [H | (_ & r & [= <-] & _ & ->)]); [discriminate H | reflexivity].
Qed.

Lemma collectNames_panics groups : forall any seen,
  collectNames groups any seen = None
  <-> Exists (fun rg => Group_Name rg = None) groups.
Proof.
  induction groups as [|rg rest IH]; intros any seen; cbn.
  - split; [discriminate | intros H; inversion H].
  - destruct (Group_Name rg) as [name|] eqn:E.
    + destruct (HasPrefix name resourceGroupNamePrefix); rewrite IH;
        (split; [now right | intros H; inversion H; [congruence | assumption]]).
    + split; [now left | reflexivity].
Qed.

(** [getUniqueResourceGroupName] panics exactly when the listing returned no
    error and either no response, or status 200 with no list of groups or
    with a group that has no name. *)
Theorem getUniqueResourceGroupName_panics_iff azure (w : World) :
  fst (getUniqueResourceGroupName azure w) = Panic
  <-> Err (azure (exchanges w) GroupsList) = None
      /\ (Response (azure (exchanges w) GroupsList) = None
          \/ (statusOK (Response (azure (exchanges w) GroupsList)) = true
              /\ (Value (azure (exchanges w) GroupsList) = None
                  \/ exists groups,
                       Value (azure (exchanges w) GroupsList) = Some groups
                       /\ Exists (fun rg => Group_Name rg = None) groups))).
Proof.
  unfold getUniqueResourceGroupName, bind, remote, statusCode, bind, deref, ret, panic.
  destruct (azure (exchanges w) GroupsList) as [[resp|] [e|] [groups|] nm];
    cbn [Err Response Value fst statusOK];
    try (split; [discriminate | intros [H _]; discriminate H]);
    try (split; [intros _; split; [reflexivity | now left] | reflexivity]).
  - destruct (http_StatusOK =? StatusCode resp).
    + rewrite collectGroups_run. cbn [fst].
      destruct (collectNames groups false []) as [[any seen]|] eqn:E.
      * split; [discriminate |].
        intros (_ & [H | (_ & [H | (gs & [= <-] & H)])]); try discriminate H.
        apply collectNames_panics with (any := false) (seen := []) in H. congruence.
      * split; [| reflexivity]. intros _. split; [reflexivity |]. right.
        split; [reflexivity |]. right. exists groups. split; [reflexivity |].
        now apply collectNames_panics in E.
    + split; [discriminate |].
      intros (_ & [H | (H & _)]); discriminate H.
  - destruct (http_StatusOK =? StatusCode resp).
    + split; [| reflexivity]. intros _. split; [reflexivity |]. right.
      split; [reflexivity | now left].
    + split; [discriminate |].
      intros (_ & [H | (H & _)]); discriminate H.
Qed.

Lemma getUniqueResourceGroupName_listed azure (w : World) names :
  listsGroups azure w names ->
  fst (getUniqueResourceGroupName azure w) = Next (uniqueNameAmong names, None).
Proof.
  intros (response & nm & Hlist & Hstatus).
  now rewrite (getUniqueResourceGroupName_lists azure w names response nm Hlist Hstatus).
Qed.

(** The name returned depends neither on the order in which the groups are
    listed nor on the groups without the prefix: two listings with the same
    prefixed names give the same name. *)
Theorem getUniqueResourceGroupName_order_independent azure azure' (w w' : World) names names' :
  listsGroups azure w names ->
  listsGroups azure' w' names' ->
  Permutation (filter hasSamplePrefix names) (filter hasSamplePrefix names') ->
  fst (getUniqueResourceGroupName azure w) = fst (getUniqueResourceGroupName azure' w').
Proof.
  intros Hl Hl' Hp.
  rewrite (getUniqueResourceGroupName_listed _ _ _ Hl),
    (getUniqueResourceGroupName_listed _ _ _ Hl').
  now rewrite (uniqueNameAmong_permutation _ _ Hp).
Qed.

(** The bare prefix is returned exactly when it is not a listed name. *)
Theorem getUniqueResourceGroupName_bare_prefix_iff azure (w : World) names :
  listsGroups azure w names ->
  (fst (getUniqueResourceGroupName azure w) = Next (resourceGroupNamePrefix, None)
   <-> ~ In resourceGroupNamePrefix names).
Proof.
  intros Hl. rewrite (getUniqueResourceGroupName_listed _ _ _ Hl). split.
  - intros [= H] Hin.
    destruct (uniqueNameAmong_with_bare_prefix names Hin) as (i & Hi & _).
    rewrite Hi in H. now apply candidate_not_prefix in H.
  - intros Hnin. now rewrite (uniqueNameAmong_without_bare_prefix names Hnin).
Qed.

(** When the bare prefix is listed, the name returned carries a suffix that
    is smaller than the number of listed names with the prefix, and every
    smaller suffix is a listed name: the suffix returned is never beyond the
    first missing one. *)
Theorem getUniqueResourceGroupName_suffix_bound azure (w : World) names :
  listsGroups azure w names ->
  In resourceGroupNamePrefix names ->
  exists i,
    fst (getUniqueResourceGroupName azure w) = Next (candidate i, None)
    /\ (i < length (filter hasSamplePrefix names))%nat
    /\ forall j, (j < i)%nat -> In (candidate j) names.
Proof.
  intros Hl Hin. rewrite (getUniqueResourceGroupName_listed _ _ _ Hl).
  destruct (uniqueNameAmong_with_bare_prefix names Hin) as (i & Hi & Hb & Hall).
  exists i. rewrite Hi. auto.
Qed.

(** ** The failure detail *)

Lemma getFailureStatus_unknown_inv err response :
  getFailureStatus err response = unknownError -> err = None /\ response = None.
Proof.
  unfold getFailureStatus, unknownError.
  destruct response as [r|], err as [e|]; cbn; [| | | auto];
    intros H; exfalso; revert H; unfold tab, chr; cbn; discriminate.
Qed.

(** [getFailureStatus] never returns the empty text, and it returns the
    unknown-error text exactly when there is neither an error nor a
    response. *)
Theorem getFailureStatus_unknown_iff err response :
  getFailureStatus err response <> EmptyString
  /\ (getFailureStatus err response = unknownError
      <-> err = None /\ response = None).
Proof.
  split.
  - unfold getFailureStatus. destruct response as [r|], err as [e|]; cbn; discriminate.
  - split; [apply getFailureStatus_unknown_inv |]. now intros [-> ->].
Qed.

(** With a response the detail starts with the lines of the status code and
    of the status; with an error it ends with the line of the error. *)
Theorem getFailureStatus_parts err response :
  (forall r, response = Some r ->
     exists rest,
       getFailureStatus err response
       = tab ++ "Status Code: " ++ itoa (StatusCode r) ++ nl
             ++ tab ++ "Status: " ++ Status r ++ nl ++ rest)
  /\ (forall e, err = Some e ->
        exists before,
          getFailureStatus err response = before ++ tab ++ "Error: " ++ e ++ nl).
Proof.
  assert (Hnil : forall s, s ++ EmptyString = s)
    by (induction s; cbn; congruence).
  assert (Hassoc : forall a b c, (a ++ b) ++ c = a ++ b ++ c)
    by (induction a; cbn; congruence).
  unfold getFailureStatus. split.
  - intros r ->. destruct err as [e|].
    + exists (tab ++ "Error: " ++ e ++ nl).
      unfold tab, nl, chr. cbn [append String.eqb].
      repeat (rewrite ?Hassoc; cbn [append]). reflexivity.
    + exists EmptyString.
      unfold tab, nl, chr. cbn [append String.eqb].
      repeat (rewrite ?Hassoc, ?Hnil; cbn [append]). reflexivity.
  - intros e ->. destruct response as [r|].
    + exists (tab ++ "Status Code: " ++ itoa (StatusCode r) ++ nl
                  ++ tab ++ "Status: " ++ Status r ++ nl).
      unfold tab, nl, chr. cbn [append String.eqb].
      repeat (rewrite ?Hassoc; cbn [append]). reflexivity.
    + exists EmptyString. reflexivity.
Qed.

(** ** More on the status-tracked executor *)

(** [executeWithStatus] only writes: the exchanges, the exit status and the
    deferred calls are those the one run of the operation left, however the
    operation stopped, and the console is the one the operation left with
    the report after it. *)
Theorem executeWithStatus_only_writes {Token} (g : Globals Token)
    operation message (w w1 : World) f :
  output g <> NilWriter ->
  operation (said (output g) (message ++ "...") w) = (f, w1) ->
  exchanges (snd (executeWithStatus g operation message w)) = exchanges w1
  /\ exitStatus (snd (executeWithStatus g operation message w)) = exitStatus w1
  /\ deferred (snd (executeWithStatus g operation message w)) = deferred w1
  /\ exists report,
       console (snd (executeWithStatus g operation message w))
       = (console w1 ++ report)%list.
Proof.
  intros Hout Hop.
  rewrite (executeWithStatus_run g operation message w Hout), Hop.
  destruct f as [[response err]| |]; cbn [snd].
  - destruct (absent err && absent response); cbn [snd narrated exchanges exitStatus
                                                    deferred console].
    + repeat split. exists []. now rewrite app_nil_r.
    + repeat split. eexists. reflexivity.
  - repeat split. exists []. now rewrite app_nil_r.
  - repeat split. exists []. now rewrite app_nil_r.
Qed.

(** The unknown-error text of [getFailureStatus] is never what
    [executeWithStatus] writes: the outcome that would give it makes
    [executeWithStatus] panic before it reports. *)
Theorem executeWithStatus_never_reports_unknown_error {Token} (g : Globals Token)
    operation message (w w1 : World) f :
  output g <> NilWriter ->
  operation (said (output g) (message ++ "...") w) = (f, w1) ->
  exists report,
    console (snd (executeWithStatus g operation message w)) = (console w1 ++ report)%list
    /\ ~ In (Stderr unknownError) report.
Proof.
  intros Hout Hop.
  rewrite (executeWithStatus_run g operation message w Hout), Hop.
  destruct f as [[response err]| |]; cbn [snd];
    try (exists []; split; [now rewrite app_nil_r | intros []]).
  destruct (absent err && absent response) eqn:E; cbn [snd narrated console].
  - exists []. split; [now rewrite app_nil_r | intros []].
  - eexists. split; [reflexivity |].
    unfold narration, successReport, failureReport.
    assert (Hd : getFailureStatus err response <> unknownError).
    { intros H. apply getFailureStatus_unknown_inv in H as [-> ->]. discriminate E. }
    destruct (absent err && statusOK response), (output g); cbn; intros H;
      repeat (destruct H as [H|H];
              [first [discriminate H | injection H as H; contradiction] |]);
      exact H.
Qed.

(** ** The helpers of [main] *)

(** [createNetworkSecurityGroup] returns the error of the retrieval: when the
    creation handed back an error or a response, the two requests are sent,
    and the group and the error returned are those of the retrieval,
    whatever the creation returned. *)
Theorem createNetworkSecurityGroup_returns_retrieval {Token} azure (g : Globals Token)
    resourceGroupName name (w : World) :
  let creation := azure (exchanges w) (SecurityGroupsCreateOrUpdate resourceGroupName name) in
  let created := mk_Exchange (SecurityGroupsCreateOrUpdate resourceGroupName name) creation in
  let retrieval := azure (exchanges w ++ [created])%list
                         (SecurityGroupsGet resourceGroupName name) in
  output g <> NilWriter ->
  absent (Err creation) && absent (Response creation) = false ->
  fst (createNetworkSecurityGroup azure g resourceGroupName name w)
    = Next (mk_SecurityGroup (Name retrieval), Err retrieval)
  /\ exchanges (snd (createNetworkSecurityGroup azure g resourceGroupName name w))
     = (exchanges w
        ++ [created; mk_Exchange (SecurityGroupsGet resourceGroupName name) retrieval])%list.
Proof.
  intros creation created retrieval Hout Hnn.
  assert (Heq : exists written,
             createNetworkSecurityGroup azure g resourceGroupName name w
             = (Next (mk_SecurityGroup (Name retrieval), Err retrieval),
                mk_World
                  (exchanges w
                   ++ [created;
                       mk_Exchange (SecurityGroupsGet resourceGroupName name) retrieval])
                  written (exitStatus w) (deferred w))).
  { unfold createNetworkSecurityGroup, bind.
    rewrite (executeWithStatus_run g _ _ w Hout).
    unfold await, bind, remote, ret. cbn [exchanges said].
    fold creation. rewrite Hnn.
    cbn [narrated said exchanges console exitStatus deferred].
    fold created. fold retrieval. rewrite <- app_assoc. eexists. reflexivity. }
  destruct Heq as [written Heq]. rewrite Heq. split; reflexivity.
Qed.

(** [createResourceGroup] lists, then creates at most one group.  It never
    returns a name together with an error; when it returns a name without
    an error, that name is the one [getUniqueResourceGroupName] chose and
    its creation returned no error; when it panics, only the listing was
    sent.  It leaves the exit status and the deferred calls as they are. *)
Theorem createResourceGroup_outcomes {Token} azure (g : Globals Token) (w : World) :
  output g <> NilWriter ->
  exitStatus (snd (createResourceGroup azure g w)) = exitStatus w
  /\ deferred (snd (createResourceGroup azure g w)) = deferred w
  /\ exists added,
       exchanges (snd (createResourceGroup azure g w)) = (exchanges w ++ added)%list
       /\ match fst (createResourceGroup azure g w) with
          | Next (name, None) =>
              fst (getUniqueResourceGroupName azure w) = Next (name, None)
              /\ map request added = [GroupsList; GroupsCreateOrUpdate name sampleLocation]
              /\ createdGroups added = [name]
          | Next (name, Some _) =>
              name = EmptyString
              /\ createdGroups added = []
              /\ (operations added = [OpList]
                  \/ operations added = [OpList; OpCreate ResourceGroup])
          | Panic => operations added = [OpList]
          | Returned => False
          end.
Proof.
  intros Hout.
  unfold createResourceGroup, getUniqueResourceGroupName, bind, remote, statusCode, bind,
    deref, ret, panic, emit.
  destruct (azure (exchanges w) GroupsList) as [resp err val nm] eqn:Elist.
  cbn [Err Response Value].
  assert (Hsplit : forall (A : Type) (x y z : A) (l : list A),
             ((l ++ [x]) ++ [y; z] = l ++ [x; y; z])%list)
    by (intros; now rewrite <- app_assoc).
  destruct err as [e|]; cbn [fst snd exchanges exitStatus deferred].
  { repeat split. eexists. split; [reflexivity |]. cbn. auto. }
  destruct resp as [r|]; cbn [fst snd exchanges exitStatus deferred].
  2:{ repeat split. eexists. split; [reflexivity |]. reflexivity. }
  destruct (http_StatusOK =? StatusCode r); cbn [fst snd exchanges exitStatus deferred].
  2:{ repeat split. eexists. split; [reflexivity |]. cbn. auto. }
  destruct val as [groups|]; cbn [fst snd exchanges exitStatus deferred].
  2:{ repeat split. eexists. split; [reflexivity |]. reflexivity. }
  rewrite collectGroups_run.
  destruct (collectNames groups false []) as [[any seen]|];
    cbn [fst snd exchanges exitStatus deferred].
  2:{ repeat split. eexists. split; [reflexivity |]. reflexivity. }
  rewrite (Fprint_run _ _ _ Hout). cbn [said exchanges console exitStatus deferred].
  match goal with
  | |- context [azure ?h (GroupsCreateOrUpdate ?n ?l)] =>
      destruct (azure h (GroupsCreateOrUpdate n l)) as [resp' [e'|] val' nm'] eqn:Ecreate
  end; cbn [Err]; rewrite (Fprint_run _ _ _ Hout);
    cbn [said fst snd exchanges console exitStatus deferred].
  - repeat split.
    exists [mk_Exchange GroupsList (mk_Reply (Some r) None (Some groups) nm);
            mk_Exchange (GroupsCreateOrUpdate (firstFit any seen) sampleLocation)
                        (mk_Reply resp' (Some e') val' nm')].
    split; [now rewrite <- app_assoc |]. cbn. auto.
  - repeat split.
    exists [mk_Exchange GroupsList (mk_Reply (Some r) None (Some groups) nm);
            mk_Exchange (GroupsCreateOrUpdate (firstFit any seen) sampleLocation)
                        (mk_Reply resp' None val' nm')].
    split; [now rewrite <- app_assoc |]. cbn. auto.
Qed.

(** ** The shape of every run *)

Ltac leaf_plan :=
  unfold followsPlan; cbn [fst snd exchanges said narrated map request];
  lazymatch goal with
  | |- exists rg frontend backend n, ?xs = _ \/ _ =>
      do 3 eexists;
      first [ exists (length xs); left; cbn [length firstn plan]; reflexivity
            | exists (length xs - 1)%nat; right;
              cbn [length firstn plan Nat.sub app]; reflexivity ]
  end.

Lemma main_followsPlan {Token} azure (g : Globals Token) written0 e0 :
  help g = true \/ output g <> NilWriter ->
  followsPlan (main azure g (mk_World [] written0 e0 [])).
Proof.
  intros Hg. run_main g Hg.
  destruct h.
  { exec_reduce. leaf_plan. }
  destruct Hg as [Hg|Hout]; [discriminate|].
  repeat step no_note idtac Hout azure.
  all: leaf_plan.
  Unshelve. all: exact EmptyString.
Qed.

Lemma stdout_narration_Discard response err :
  flat_map stdoutText (narration Discard response err) = [].
Proof.
  unfold narration, successReport, failureReport.
  now destruct (absent err && statusOK response).
Qed.

Ltac leaf_quiet H0 :=
  unfold quietRun; cbn [fst snd console said narrated pause];
  rewrite ?flat_map_app, ?stdout_narration_Discard, ?H0;
  cbn [written flat_map stdoutText app];
  first [left; reflexivity | right; split; reflexivity].

Lemma main_quietRun {Token} azure (g : Globals Token) written0 e0 :
  output g = Discard ->
  flat_map stdoutText written0 = [] ->
  quietRun g (main azure g (mk_World [] written0 e0 [])).
Proof.
  intros Hq H0.
  assert (Hg : help g = true \/ output g <> NilWriter) by (right; rewrite Hq; discriminate).
  run_main g Hg. cbn [output] in Hq. subst out.
  assert (Hout : Discard <> NilWriter) by discriminate. clear Hg.
  destruct h.
  { exec_reduce. leaf_quiet H0. }
  repeat step no_note idtac Hout azure.
  all: leaf_quiet H0.
Qed.

Lemma wait_written out s : filter isWait (written out s) = [].
Proof. now destruct out. Qed.

Lemma wait_narration out response err : filter isWait (narration out response err) = [].
Proof.
  unfold narration, successReport, failureReport.
  destruct (absent err && statusOK response), out; reflexivity.
Qed.

Ltac leaf_waits H0 :=
  unfold waitsAsFlagsSay; cbn [fst snd console exchanges said narrated pause delay];
  rewrite ?filter_app, ?wait_narration, ?wait_written, ?H0;
  cbn [filter isWait app];
  first [ left; reflexivity
        | right; split; [reflexivity |]; split; [reflexivity |];
          first [ left; split; reflexivity
                | right; split; [reflexivity |]; split; [| reflexivity];
                  match goal with H : (0 <? _)%N = true |- _ => now apply N.ltb_lt in H end ] ].

Lemma main_waitsAsFlagsSay {Token} azure (g : Globals Token) written0 e0 :
  help g = true \/ output g <> NilWriter ->
  filter isWait written0 = [] ->
  waitsAsFlagsSay g (main azure g (mk_World [] written0 e0 [])).
Proof.
  intros Hg H0. run_main g Hg.
  destruct h.
  { exec_reduce. leaf_waits H0. }
  destruct Hg as [Hg|Hout]; [discriminate|].
  repeat step no_note idtac Hout azure.
  all: leaf_waits H0.
Qed.

(** A delay of at most 9223372036 seconds is a duration of as many seconds;
    from 9223372037 on the product [time.Second * time.Duration(delay)]
    wraps around. *)
Lemma int64_small z : - 2 ^ 63 <= z < 2 ^ 63 -> int64 z = z.
Proof.
  intros H. unfold int64. rewrite Z.mod_small; lia.
Qed.

Lemma sleep_seconds (n : N) :
  (n <= 9223372036)%N ->
  int64 (time_Second * time_Duration n) = 1000000000 * Z.of_N n.
Proof.
  intros H. unfold time_Duration, time_Second.
  assert (H63 : 2 ^ 63 = 9223372036854775808) by reflexivity.
  rewrite (int64_small (Z.of_N n)) by lia.
  apply int64_small. lia.
Qed.

Example sleep_wraps_around :
  int64 (time_Second * time_Duration 9223372037) = -9223372036709551616.
Proof. reflexivity. Qed.

(** ** The requests of a run on which nothing fails *)

Lemma operations_requests (xs : list Exchange) :
  operations xs = map operationOf (map request xs).
Proof. unfold operations. now rewrite map_map. Qed.

(** A run that requested the full sequence requested the whole plan and
    then the deletion. *)
Lemma followsPlan_fullSequence (r : Z * World) :
  followsPlan r ->
  operations (exchanges (snd r)) = fullSequence ->
  exists rg frontend backend,
    map request (exchanges (snd r)) = (plan rg frontend backend ++ [GroupsDelete rg])%list.
Proof.
  intros (rg & frontend & backend & n & H) Hops.
  rewrite operations_requests in Hops.
  assert (Hlen : length (map request (exchanges (snd r))) = 14%nat).
  { rewrite <- (length_map operationOf), Hops. reflexivity. }
  exists rg, frontend, backend.
  assert (Hplan : length (plan rg frontend backend) = 13%nat) by reflexivity.
  destruct H as [H|H]; rewrite H in Hlen |- *.
  - rewrite length_firstn, Hplan in Hlen. lia.
  - rewrite length_app, length_firstn, Hplan in Hlen. cbn [length] in Hlen.
    rewrite firstn_all2 by lia. reflexivity.
Qed.

Section FullRun.

Context {GUID OAuthConfig Token : Type}.
Variable guid_Parse : string -> option GUID.
Variable guid_StringfD : GUID -> string.
Variable adal_NewOAuthConfig : string -> OAuthConfig + Error.
Variable adal_NewServicePrincipalToken : OAuthConfig -> string -> string -> Token + Error.
Variable azure : list Exchange -> Call -> Reply.

Local Abbreviation init_ := (init guid_Parse guid_StringfD adal_NewOAuthConfig
                                  adal_NewServicePrincipalToken).
Local Abbreviation run_ := (run guid_Parse guid_StringfD adal_NewOAuthConfig
                                adal_NewServicePrincipalToken azure).

(** C2, amended: when the help flag is not given, the credentials are
    well-formed and every remote call succeeds, the run exits with the
    success code and its creations and deletions are, in this order, 1
    resource group, 1 virtual network, 2 security groups, 2 subnets, 4
    security rules and the deletion of the resource group; the rules are
    ALLOW-SSH, ALLOW-HTTP, ALLOW-SQL and DENY-OUT, in this order; and the
    requests of the run are those of the plan of [main], all for one
    resource group, and then the deletion of that group (the plan also has
    the listing first and a retrieval after the creation of each security
    group). *)
Theorem successful_run_provisions_and_cleans_up flags env code w :
  flag_help flags = false ->
  wellFormedCredentials guid_Parse guid_StringfD adal_NewOAuthConfig
                        adal_NewServicePrincipalToken env ->
  allSucceed azure ->
  run_ flags env = (code, w) ->
  code = ExitSuccess
  /\ operations (exchanges w) = fullSequence
  /\ changes (operations (exchanges w))
     = [OpCreate ResourceGroup;
        OpCreate VirtualNetwork;
        OpCreate NetworkSecurityGroup; OpCreate NetworkSecurityGroup;
        OpCreate Subnet; OpCreate Subnet;
        OpCreate SecurityRule; OpCreate SecurityRule;
        OpCreate SecurityRule; OpCreate SecurityRule;
        OpDelete ResourceGroup]
  /\ createdRules (exchanges w) = ["ALLOW-SSH"; "ALLOW-HTTP"; "ALLOW-SQL"; "DENY-OUT"]
  /\ exists rg frontend backend,
       map request (exchanges w) = (plan rg frontend backend ++ [GroupsDelete rg])%list.
Proof.
  intros Hhelp Hcred Hok Hrun. rewrite run_main_of_init in Hrun.
  destruct (init_authenticated _ _ _ _ flags env Hcred Hhelp) as (Hh & Ht & Ho).
  pose proof (main_provisionsEverything azure _ (snd (init_ flags env)) ExitSuccess
                                        Hok Hh Ht Ho) as [Hcode Hops].
  assert (Hg : help (fst (init_ flags env)) = true
               \/ output (fst (init_ flags env)) <> NilWriter) by (right; exact Ho).
  pose proof (main_followsPlan azure _ (snd (init_ flags env)) ExitSuccess Hg) as Hplan.
  rewrite Hrun in Hcode, Hops, Hplan. cbn [fst snd] in Hcode, Hops.
  destruct (followsPlan_fullSequence _ Hplan Hops) as (rg & frontend & backend & Hreq).
  cbn [snd] in Hreq.
  split; [exact Hcode |]. split; [exact Hops |]. split; [now rewrite Hops |].
  split.
  - unfold createdRules. rewrite Hreq. reflexivity.
  - now exists rg, frontend, backend.
Qed.

End FullRun.

Lemma successful_run_provisions_and_cleans_up_witness :
  flag_help sample_flags = false
  /\ fst (sample_run (azure_ok []) sample_flags sample_env) = ExitSuccess
  /\ operations (exchanges (snd (sample_run (azure_ok []) sample_flags sample_env)))
     = fullSequence
  /\ createdRules (exchanges (snd (sample_run (azure_ok []) sample_flags sample_env)))
     = ["ALLOW-SSH"; "ALLOW-HTTP"; "ALLOW-SQL"; "DENY-OUT"].
Proof.
  split; [reflexivity |].
  pose proof (successful_run_provisions_and_cleans_up
                sample_guid_Parse (fun s => s) sample_NewOAuthConfig
                sample_NewServicePrincipalToken (azure_ok []) sample_flags sample_env
                _ _ eq_refl sample_env_wellFormed (azure_ok_allSucceed [])
                (sample_run_pair (azure_ok []) sample_flags sample_env))
    as (Hcode & Hops & _ & Hrules & _).
  split; [exact Hcode |]. split; [exact Hops | exact Hrules].
Defined.

(** ** Validation and initialisation *)

Lemma validateParameters_counts {GUID Token}
    (guid_Parse : string -> option GUID) guid_StringfD (g : Globals Token) :
  length (fst (validateParameters guid_Parse guid_StringfD g))
    = invalidCredentials guid_Parse g.
Proof.
  unfold validateParameters, invalidCredentials, invalidIdentifier.
  destruct (String.eqb EmptyString (tenantID g));
    [| destruct (guid_Parse (tenantID g))];
    (destruct (String.eqb EmptyString (subscriptionID g));
     [| destruct (guid_Parse (subscriptionID g))]);
    (destruct (String.eqb EmptyString (clientID g));
     [| destruct (guid_Parse (clientID g))]);
    destruct (String.eqb EmptyString (clientSecret g)); reflexivity.
Qed.

(** [validateParameters] does not stop at the first bad value: it returns
    one error for each of the four values it rejects (an identifier that is
    empty or does not parse, an empty secret), so it returns no error
    exactly when it rejects none. *)
Theorem validateParameters_one_error_per_invalid_value {GUID Token}
    (guid_Parse : string -> option GUID) guid_StringfD (g : Globals Token) :
  length (fst (validateParameters guid_Parse guid_StringfD g))
    = invalidCredentials guid_Parse g
  /\ (fst (validateParameters guid_Parse guid_StringfD g) = []
      <-> invalidCredentials guid_Parse g = 0%nat).
Proof.
  pose proof (validateParameters_counts guid_Parse guid_StringfD g) as H.
  split; [exact H |]. rewrite <- H.
  destruct (fst (validateParameters guid_Parse guid_StringfD g)); cbn; split;
    congruence.
Qed.

Section Init.

Context {GUID OAuthConfig Token : Type}.
Variable guid_Parse : string -> option GUID.
Variable guid_StringfD : GUID -> string.
Variable adal_NewOAuthConfig : string -> OAuthConfig + Error.
Variable adal_NewServicePrincipalToken : OAuthConfig -> string -> string -> Token + Error.

Local Abbreviation init_ := (init guid_Parse guid_StringfD adal_NewOAuthConfig
                                  adal_NewServicePrincipalToken).

Lemma init_token_wellFormed flags env :
  token (fst (init_ flags env)) <> None ->
  flag_help flags = false
  /\ wellFormedCredentials guid_Parse guid_StringfD adal_NewOAuthConfig
                           adal_NewServicePrincipalToken env.
Proof.
  unfold init. cbn [help]. destruct (flag_help flags); [now intros H |].
  unfold validateParameters. cbn [tenantID subscriptionID clientID clientSecret].
  destruct (String.eqb EmptyString (AZURE_TENANT_ID env)) eqn:Et;
    [| destruct (guid_Parse (AZURE_TENANT_ID env)) as [tenant|] eqn:Ept];
    (destruct (String.eqb EmptyString (AZURE_SUBSCRIPTION_ID env)) eqn:Es;
     [| destruct (guid_Parse (AZURE_SUBSCRIPTION_ID env)) as [subscription|] eqn:Eps]);
    (destruct (String.eqb EmptyString (AZURE_CLIENT_ID env)) eqn:Ec;
     [| destruct (guid_Parse (AZURE_CLIENT_ID env)) as [client|] eqn:Epc]);
    destruct (String.eqb EmptyString (AZURE_CLIENT_SECRET env)) eqn:Esec;
    cbn; try (intros H; now destruct H).
  destruct (adal_NewOAuthConfig (guid_StringfD tenant)) as [config|e] eqn:Econfig;
    cbn; [| intros H; now destruct H].
  destruct (adal_NewServicePrincipalToken config (guid_StringfD client)
                                          (AZURE_CLIENT_SECRET env)) as [t|e] eqn:Etoken;
    cbn; [| intros H; now destruct H].
  intros _. split; [reflexivity |].
  apply String.eqb_neq in Et, Es, Ec, Esec.
  exists tenant, subscription, client, config, t.
  repeat split; congruence.
Qed.

(** [init] obtains a token exactly when the help flag is not given and the
    credentials are well-formed. *)
Theorem init_token_iff flags env :
  token (fst (init_ flags env)) <> None
  <-> flag_help flags = false
      /\ wellFormedCredentials guid_Parse guid_StringfD adal_NewOAuthConfig
                               adal_NewServicePrincipalToken env.
Proof.
  split; [apply init_token_wellFormed |].
  intros [Hhelp Hcred].
  now destruct (init_authenticated guid_Parse guid_StringfD adal_NewOAuthConfig
                                   adal_NewServicePrincipalToken flags env Hcred Hhelp)
    as (_ & Ht & _).
Qed.

(** [init] writes nothing to standard output and waits for nothing. *)
Lemma init_console flags env :
  Forall (fun e => match e with Stderr _ | Usage => True | _ => False end)
         (snd (init_ flags env)).
Proof.
  unfold init. cbn [help]. destruct (flag_help flags); [repeat constructor |].
  destruct (validateParameters _ _ _) as [errs g1].
  destruct (0 <? length errs)%nat.
  - cbn [snd]. apply Forall_map. now apply Forall_forall.
  - destruct (adal_NewOAuthConfig _); [| repeat constructor].
    destruct (adal_NewServicePrincipalToken _ _ _); repeat constructor.
Qed.

End Init.

Lemma main_with_help {Token} azure (g : Globals Token) written0 e0 :
  help g = true ->
  main azure g (mk_World [] written0 e0 [])
  = (ExitSuccess, mk_World [] written0 ExitSuccess [DeferOsExit]).
Proof.
  intros Hh. destruct g as [sub cl sec ten tok out p d h]. cbn [help] in Hh. subst h.
  reflexivity.
Qed.

Lemma main_unauthenticated {Token} azure (g : Globals Token) written0 e0 :
  help g = false -> token g = None ->
  main azure g (mk_World [] written0 e0 [])
  = (ExitAuthenticationFailure,
     mk_World [] (written0 ++ [fatalAuthentication]) ExitAuthenticationFailure [DeferOsExit]).
Proof.
  intros Hh Ht. destruct g as [sub cl sec ten tok out p d h].
  cbn [help token] in Hh, Ht. subst h tok. reflexivity.
Qed.

Section MoreRuns.

Context {GUID OAuthConfig Token : Type}.
Variable guid_Parse : string -> option GUID.
Variable guid_StringfD : GUID -> string.
Variable adal_NewOAuthConfig : string -> OAuthConfig + Error.
Variable adal_NewServicePrincipalToken : OAuthConfig -> string -> string -> Token + Error.
Variable azure : list Exchange -> Call -> Reply.

Local Abbreviation init_ := (init guid_Parse guid_StringfD adal_NewOAuthConfig
                                  adal_NewServicePrincipalToken).
Local Abbreviation run_ := (run guid_Parse guid_StringfD adal_NewOAuthConfig
                                adal_NewServicePrincipalToken azure).

Lemma validateParameters_flags (g : Globals Token) :
  pause (snd (validateParameters guid_Parse guid_StringfD g)) = pause g
  /\ delay (snd (validateParameters guid_Parse guid_StringfD g)) = delay g.
Proof.
  unfold validateParameters. split_validation; cbn; auto.
Qed.

Lemma init_flags flags env :
  pause (fst (init_ flags env)) = flag_pause flags
  /\ delay (fst (init_ flags env)) = flag_delay flags
  /\ (flag_help flags = false ->
      output (fst (init_ flags env))
      = if flag_quiet flags then Discard else StdoutWriter).
Proof.
  unfold init. cbn [help]. destruct (flag_help flags).
  - cbn. repeat split. discriminate.
  - match goal with
    | |- context [validateParameters ?p ?s ?g0] =>
        pose proof (validateParameters_frame p s g0) as (_ & Ho & _);
        pose proof (validateParameters_flags g0) as (Hp & Hd);
        destruct (validateParameters p s g0) as [errs g1]
    end.
    cbn [snd pause delay output] in Ho, Hp, Hd.
    destruct (0 <? length errs)%nat; [cbn; auto |].
    destruct (adal_NewOAuthConfig _); [| cbn; auto].
    destruct (adal_NewServicePrincipalToken _ _ _); cbn; auto.
Qed.

Lemma init_no_stdout flags env :
  flat_map stdoutText (snd (init_ flags env)) = []
  /\ filter isWait (snd (init_ flags env)) = [].
Proof.
  pose proof (init_console guid_Parse guid_StringfD adal_NewOAuthConfig
                           adal_NewServicePrincipalToken flags env) as H.
  induction H as [|e l He _ IH]; [split; reflexivity |].
  destruct IH as [IH1 IH2]. destruct e; try contradiction; cbn; now rewrite ?IH1, ?IH2.
Qed.

(** The requests of every run are the first requests of the plan of [main],
    in its order and for one resource group, followed or not by the deletion
    of that group: no stage is requested before the stages it depends on,
    and no other resource group is ever touched. *)
Theorem every_run_follows_the_plan flags env code w :
  run_ flags env = (code, w) ->
  exists rg frontend backend n,
    map request (exchanges w) = firstn n (plan rg frontend backend)
    \/ map request (exchanges w)
       = (firstn n (plan rg frontend backend) ++ [GroupsDelete rg])%list.
Proof.
  intros Hrun. rewrite run_main_of_init in Hrun.
  destruct (init_ready guid_Parse guid_StringfD adal_NewOAuthConfig
                       adal_NewServicePrincipalToken flags env) as [_ Hg].
  pose proof (main_followsPlan azure _ (snd (init_ flags env)) ExitSuccess Hg) as H.
  rewrite Hrun in H. exact H.
Qed.

(** With the quiet flag nothing is written to standard output, but for the
    prompt of the pause flag. *)
Theorem quiet_run_writes_no_status flags env code w :
  flag_quiet flags = true ->
  run_ flags env = (code, w) ->
  flat_map stdoutText (console w) = []
  \/ (flag_pause flags = true /\ flat_map stdoutText (console w) = [pausePrompt]).
Proof.
  intros Hq Hrun. rewrite run_main_of_init in Hrun.
  destruct (init_ready guid_Parse guid_StringfD adal_NewOAuthConfig
                       adal_NewServicePrincipalToken flags env) as [Hh _].
  destruct (init_flags flags env) as (Hp & _ & Ho).
  destruct (init_no_stdout flags env) as [H0 _].
  destruct (flag_help flags) eqn:Hhelp.
  - rewrite (main_with_help azure _ _ _ Hh) in Hrun. injection Hrun as <- <-.
    left. exact H0.
  - specialize (Ho eq_refl). rewrite Hq in Ho.
    pose proof (main_quietRun azure _ (snd (init_ flags env)) ExitSuccess Ho H0) as H.
    unfold quietRun in H. rewrite Hrun, Hp in H. exact H.
Qed.

(** The process reads a line or calls [time.Sleep] at most once, and only
    in a run that requested everything and exits with the success code: it
    reads a line with the pause flag; else, when the delay is positive, it
    calls [time.Sleep] with the [int64] product
    [time.Second * time.Duration(delay)], which is the delay in seconds as
    long as the delay is at most 9223372036 (beyond, the product wraps
    around, see [sleep_wraps_around]). *)
Theorem run_waits_as_flags_say flags env code w :
  run_ flags env = (code, w) ->
  filter isWait (console w) = []
  \/ (code = ExitSuccess
      /\ operations (exchanges w) = fullSequence
      /\ ((flag_pause flags = true /\ filter isWait (console w) = [Scanln])
          \/ (flag_pause flags = false /\ (0 < flag_delay flags)%N
              /\ filter isWait (console w)
                 = [Sleep (int64 (time_Second * time_Duration (flag_delay flags)))]
              /\ ((flag_delay flags <= 9223372036)%N ->
                  int64 (time_Second * time_Duration (flag_delay flags))
                  = 1000000000 * Z.of_N (flag_delay flags))))).
Proof.
  intros Hrun. rewrite run_main_of_init in Hrun.
  destruct (init_ready guid_Parse guid_StringfD adal_NewOAuthConfig
                       adal_NewServicePrincipalToken flags env) as [_ Hg].
  destruct (init_flags flags env) as (Hp & Hd & _).
  destruct (init_no_stdout flags env) as [_ H0].
  pose proof (main_waitsAsFlagsSay azure _ (snd (init_ flags env)) ExitSuccess Hg H0) as H.
  unfold waitsAsFlagsSay in H. rewrite Hrun, Hp, Hd in H. cbn [fst snd] in H.
  destruct H as [H|(Hcode & Hops & [H|(Hpause & Hpos & H)])].
  - left. exact H.
  - right. split; [exact Hcode |]. split; [exact Hops |]. left. exact H.
  - right. split; [exact Hcode |]. split; [exact Hops |]. right.
    split; [exact Hpause |]. split; [exact Hpos |]. split; [exact H |].
    apply sleep_seconds.
Qed.

(** With the help flag the process prints the usage and nothing else, sends
    no request and exits with the success code, whatever the environment. *)
Theorem help_run_only_prints_usage flags env :
  flag_help flags = true ->
  fst (run_ flags env) = ExitSuccess
  /\ exchanges (snd (run_ flags env)) = []
  /\ console (snd (run_ flags env)) = [Usage].
Proof.
  intros Hhelp. rewrite run_main_of_init.
  destruct (init_ready guid_Parse guid_StringfD adal_NewOAuthConfig
                       adal_NewServicePrincipalToken flags env) as [Hh _].
  rewrite Hhelp in Hh. rewrite (main_with_help azure _ _ _ Hh). cbn [fst snd exchanges console].
  repeat split. unfold init. cbn [help]. now rewrite Hhelp.
Qed.

(** Without the help flag and without well-formed credentials (a value
    missing or malformed, or refused by [adal]) the process sends no request
    and exits with the authentication-failure code; the last thing it
    writes is the fatal-error line, after what [init] wrote. *)
Theorem unauthenticated_run_sends_nothing flags env :
  flag_help flags = false ->
  ~ wellFormedCredentials guid_Parse guid_StringfD adal_NewOAuthConfig
                          adal_NewServicePrincipalToken env ->
  fst (run_ flags env) = ExitAuthenticationFailure
  /\ exchanges (snd (run_ flags env)) = []
  /\ console (snd (run_ flags env)) = (snd (init_ flags env) ++ [fatalAuthentication])%list.
Proof.
  intros Hhelp Hcred. rewrite run_main_of_init.
  destruct (init_ready guid_Parse guid_StringfD adal_NewOAuthConfig
                       adal_NewServicePrincipalToken flags env) as [Hh _].
  rewrite Hhelp in Hh.
  assert (Ht : token (fst (init_ flags env)) = None).
  { destruct (token (fst (init_ flags env))) eqn:E; [| reflexivity].
    exfalso. apply Hcred.
    apply (init_token_wellFormed guid_Parse guid_StringfD adal_NewOAuthConfig
                          adal_NewServicePrincipalToken flags env).
    rewrite E. discriminate. }
  rewrite (main_unauthenticated azure _ _ _ Hh Ht). repeat split.
Qed.

End MoreRuns.

(** ** Failures that only the status shows *)

(** A failure that the service signals by the status alone is reported and
    then dropped: when the creation of the virtual network, or the deletion
    of the resource group, is answered without an error and with a status
    other than 200, the helper writes FAILED and returns no error. *)
Theorem status_failure_is_reported_not_returned {Token} azure (g : Globals Token)
    rg (w : World) r val nm :
  output g = StdoutWriter ->
  StatusCode r <> http_StatusOK ->
  (azure (exchanges w) (VirtualNetworksCreateOrUpdate rg "sampleVirtualNetwork")
     = mk_Reply (Some r) None val nm ->
   fst (createVirtualNetwork azure g rg w) = Next ("sampleVirtualNetwork", None)
   /\ In (Stdout ("FAILED" ++ nl)) (console (snd (createVirtualNetwork azure g rg w))))
  /\ (azure (exchanges w) (GroupsDelete rg) = mk_Reply (Some r) None val nm ->
      fst (deleteResourceGroup azure g rg w) = Next None
      /\ In (Stdout ("FAILED" ++ nl)) (console (snd (deleteResourceGroup azure g rg w)))).
Proof.
  intros Hout Hstatus.
  assert (Hnil : output g <> NilWriter) by (rewrite Hout; discriminate).
  assert (Hneq : (http_StatusOK =? StatusCode r) = false)
    by (apply Z.eqb_neq; congruence).
  split; intros Hreply.
  - unfold createVirtualNetwork, bind.
    rewrite (executeWithStatus_run g _ _ w Hnil).
    unfold await, bind, remote, ret. cbn [exchanges said]. rewrite Hreply.
    cbn [Response Err absent andb fst snd narrated console].
    split; [reflexivity |].
    unfold narration, failureReport. cbn [absent andb statusOK]. rewrite Hneq, Hout.
    apply in_or_app. right. left. reflexivity.
  - unfold deleteResourceGroup, bind.
    rewrite (executeWithStatus_run g _ _ w Hnil).
    unfold await, bind, remote, ret. cbn [exchanges said]. rewrite Hreply.
    cbn [Response Err absent andb fst snd narrated console].
    split; [reflexivity |].
    unfold narration, failureReport. cbn [absent andb statusOK]. rewrite Hneq, Hout.
    apply in_or_app. right. left. reflexivity.
Qed.

Section InitReports.

Context {GUID OAuthConfig Token : Type}.
Variable guid_Parse : string -> option GUID.
Variable guid_StringfD : GUID -> string.
Variable adal_NewOAuthConfig : string -> OAuthConfig + Error.
Variable adal_NewServicePrincipalToken : OAuthConfig -> string -> string -> Token + Error.

Local Abbreviation init_ := (init guid_Parse guid_StringfD adal_NewOAuthConfig
                                  adal_NewServicePrincipalToken).

(** Without the help flag, when [validateParameters] rejects a value of the
    environment, [init] writes one line to standard error for each rejected
    value and nothing else, and asks [adal] for no token. *)
Theorem init_reports_each_invalid_value flags env :
  flag_help flags = false ->
  (0 < invalidCredentials guid_Parse (fromEnv (Token := Token) env))%nat ->
  length (snd (init_ flags env)) = invalidCredentials guid_Parse (fromEnv (Token := Token) env)
  /\ Forall invalidArgument (snd (init_ flags env))
  /\ token (fst (init_ flags env)) = None.
Proof.
  intros Hhelp Hpos. unfold init. cbn [help]. rewrite Hhelp.
  match goal with
  | |- context [validateParameters ?p ?s ?g0] =>
      pose proof (validateParameters_counts p s g0) as Hlen;
      pose proof (validateParameters_frame p s g0) as (Ht & _);
      change (invalidCredentials p g0)
        with (invalidCredentials p (fromEnv (Token := Token) env)) in Hlen;
      destruct (validateParameters p s g0) as [errs g1]
  end.
  cbn [fst snd token] in Hlen, Ht. rewrite <- Hlen in *.
  apply Nat.ltb_lt in Hpos. rewrite Hpos. cbn [fst snd].
  split; [apply length_map |].
  split; [| exact Ht].
  apply Forall_map, Forall_forall. intros err _. now exists err.
Qed.

End InitReports.

(** ** The earlier revision *)

Lemma V1_collectGroups_run groups : forall any seen (w : V1.World),
  V1.collectGroups groups any seen w
  = (match collectNames groups any seen with
     | Some r => Next r
     | None => Panic
     end, w).
Proof.
  induction groups as [|rg rest IH]; intros any seen w; cbn.
  - reflexivity.
  - unfold V1.bind, V1.deref. destruct (Group_Name rg) as [name|]; cbn; [|reflexivity].
    destruct (HasPrefix name resourceGroupNamePrefix); apply IH.
Qed.

Lemma V1_getResourceGroupName_run azure (w : V1.World) :
  V1.getResourceGroupName azure w
  = (allocated (azure (V1.exchanges w) V1.GroupsList),
     V1.mk_World (V1.exchanges w
                  ++ [V1.mk_Exchange V1.GroupsList (azure (V1.exchanges w) V1.GroupsList)])
                 (V1.console w) (V1.deferred w)).
Proof.
  unfold V1.getResourceGroupName, V1.bind, V1.remote, V1.statusCode, V1.bind, V1.deref,
    V1.ret, allocated.
  destruct (azure (V1.exchanges w) V1.GroupsList) as [resp err val nm].
  cbn [Err Response Value].
  destruct err as [e|]; [reflexivity |].
  destruct resp as [r|]; [| reflexivity].
  destruct (http_StatusOK =? StatusCode r); [| reflexivity].
  destruct val as [groups|]; [| reflexivity].
  rewrite V1_collectGroups_run.
  destruct (collectNames groups false []) as [[any seen]|]; reflexivity.
Qed.

Lemma getUniqueResourceGroupName_allocated azure (w : World) :
  fst (getUniqueResourceGroupName azure w) = allocated (azure (exchanges w) GroupsList).
Proof.
  unfold getUniqueResourceGroupName, bind, remote, statusCode, bind, deref, ret, allocated.
  destruct (azure (exchanges w) GroupsList) as [resp err val nm].
  cbn [Err Response Value].
  destruct err as [e|]; [reflexivity |].
  destruct resp as [r|]; [| reflexivity].
  destruct (http_StatusOK =? StatusCode r); [| reflexivity].
  destruct val as [groups|]; [| reflexivity].
  rewrite collectGroups_run.
  destruct (collectNames groups false []) as [[any seen]|]; reflexivity.
Qed.

(** The allocator is the same in both revisions: given the same reply to
    the listing, [getResourceGroupName] of the earlier revision and
    [getUniqueResourceGroupName] of the later one return the same name and
    error, or both panic. *)
Theorem V1_getResourceGroupName_is_getUniqueResourceGroupName
    azure1 (w1 : V1.World) azure (w : World) :
  azure1 (V1.exchanges w1) V1.GroupsList = azure (exchanges w) GroupsList ->
  fst (V1.getResourceGroupName azure1 w1) = fst (getUniqueResourceGroupName azure w).
Proof.
  intros H.
  now rewrite V1_getResourceGroupName_run, getUniqueResourceGroupName_allocated, H.
Qed.

Lemma firstFit_hasSamplePrefix any seen : hasSamplePrefix (firstFit any seen) = true.
Proof.
  unfold firstFit.
  destruct (any && _); [| reflexivity].
  destruct (find _ _); apply candidate_hasSamplePrefix.
Qed.

Lemma allocated_hasSamplePrefix r name :
  allocated r = Next (name, None) -> hasSamplePrefix name = true.
Proof.
  unfold allocated.
  destruct (Err r); [discriminate |].
  destruct (Response r) as [resp|]; [| discriminate].
  destruct (http_StatusOK =? StatusCode resp); [| discriminate].
  destruct (Value r) as [groups|]; [| discriminate].
  destruct (collectNames groups false []) as [[any seen]|]; [| discriminate].
  intros H. injection H as <-. apply firstFit_hasSamplePrefix.
Qed.

Lemma V1_reportOutcome_run (r : Reply) finished because (w : V1.World) :
  V1.reportOutcome r finished because w
  = match Response r with
    | None => (Panic, w)
    | Some response =>
        (Next tt,
         V1.mk_World (V1.exchanges w)
           (V1.console w
            ++ [if absent (Err r) && (http_StatusOK =? StatusCode response)
                then Stdout finished
                else Stderr ("Response Code: " ++ itoa (StatusCode response) ++ nl
                               ++ because ++ V1.errorText (Err r) ++ nl)])
           (V1.deferred w))
    end.
Proof.
  unfold V1.reportOutcome, V1.succeeded, V1.bind, V1.statusCode, V1.bind, V1.deref,
    V1.ret, V1.panic, V1.emit.
  destruct (Err r) as [e|], (Response r) as [response|]; cbn [absent andb];
    try reflexivity.
  destruct (http_StatusOK =? StatusCode response); reflexivity.
Qed.

Lemma V1_deleteResourceGroup_run azure name (w : V1.World) :
  V1.deleteResourceGroup azure name w
  = let r := azure (V1.exchanges w) (V1.GroupsDelete name) in
    let sent := (V1.exchanges w ++ [V1.mk_Exchange (V1.GroupsDelete name) r])%list in
    let said := (V1.console w
                 ++ [Stdout ("Deleting Resource Group '" ++ name ++ "'...")])%list in
    if absent (Err r) && absent (Response r)
    then (Panic, V1.mk_World sent said (V1.deferred w))
    else (Next (Err r),
          V1.mk_World sent
            (said ++ [Stdout ((if absent (Err r) && statusOK (Response r)
                               then "SUCCESS" else "FAILED") ++ nl)])
            (V1.deferred w)).
Proof.
  unfold V1.deleteResourceGroup, V1.succeeded, V1.bind, V1.remote, V1.statusCode, V1.bind,
    V1.deref, V1.ret, V1.panic, V1.emit.
  cbn [V1.exchanges V1.console V1.deferred].
  destruct (azure (V1.exchanges w) (V1.GroupsDelete name)) as [resp err val nm].
  cbn [Err Response].
  destruct err as [e|], resp as [r|]; cbn [absent andb statusOK]; try reflexivity.
  destruct (http_StatusOK =? StatusCode r); reflexivity.
Qed.

Lemma V1_createResourceGroup_unauthorized {Token} azure (g : V1.Globals Token)
    (w : V1.World) :
  V1.token g = None -> V1.createResourceGroup azure g w = (Panic, w).
Proof.
  intros Ht. unfold V1.createResourceGroup, V1.bind at 1. now rewrite Ht.
Qed.

Lemma V1_createResourceGroup_run {Token} azure (g : V1.Globals Token) (w : V1.World) t :
  V1.token g = Some t ->
  V1.createResourceGroup azure g w
  = let listing := azure (V1.exchanges w) V1.GroupsList in
    let listed := (V1.exchanges w ++ [V1.mk_Exchange V1.GroupsList listing])%list in
    match allocated listing with
    | Next (name, Some e) =>
        (Next (name, Some e),
         V1.mk_World listed (V1.console w ++ [Stderr e]) (V1.deferred w))
    | Next (name, None) =>
        let created := azure listed (V1.GroupsCreateOrUpdate name sampleLocation) in
        (Next (name, Err created),
         V1.mk_World
           (listed ++ [V1.mk_Exchange (V1.GroupsCreateOrUpdate name sampleLocation) created])
           (V1.console w
            ++ Stdout ("Creating Resource Group '" ++ name ++ "'...")
               :: match Err created with
                  | None => [Stdout ("SUCCESS" ++ nl)]
                  | Some e => [Stdout ("FAILED" ++ nl); Stderr ("Error: " ++ e)]
                  end)
           (V1.deferred w))
    | Returned => (Returned, V1.mk_World listed (V1.console w) (V1.deferred w))
    | Panic => (Panic, V1.mk_World listed (V1.console w) (V1.deferred w))
    end.
Proof.
  intros Ht. unfold V1.createResourceGroup, V1.bind at 1. rewrite Ht.
  cbn [V1.deref V1.ret]. unfold V1.bind at 1.
  rewrite V1_getResourceGroupName_run.
  destruct (allocated _) as [[name [e|]]| |]; try reflexivity.
  unfold V1.bind, V1.emit, V1.remote, V1.ret.
  cbn [V1.exchanges V1.console V1.deferred].
  destruct (Err (azure _ _)); cbn [V1.exchanges V1.console V1.deferred];
    rewrite <- ?app_assoc; reflexivity.
Qed.

(** A run of [main], case by case: the replies are named in the order of
    the requests, with what the run read of each. *)
Ltac v1_reduce :=
  cbn [V1.exchanges V1.console V1.deferred V1.runDeferred panicked fst snd orb app].

Ltac v1_step :=
  match goal with
  | |- context [V1.reportOutcome _ _ _ _] => rewrite V1_reportOutcome_run
  | |- context [V1.deleteResourceGroup _ _ _] =>
      rewrite V1_deleteResourceGroup_run; cbv zeta
  | |- context [match Response (?az ?h ?c) with _ => _ end] =>
      lazymatch h with context [az _ _] => fail | _ => idtac end;
      let answer := fresh "answer" in
      let Hanswer := fresh "Hanswer" in
      let response := fresh "response" in
      remember (az h c) as answer eqn:Hanswer;
      destruct (Response answer) as [response|] eqn:?
  | |- context [absent (Err (?az ?h ?c)) && absent (Response (?az ?h ?c))] =>
      lazymatch h with context [az _ _] => fail | _ => idtac end;
      let answer := fresh "answer" in
      let Hanswer := fresh "Hanswer" in
      remember (az h c) as answer eqn:Hanswer;
      destruct (absent (Err answer) && absent (Response answer)) eqn:?
  end;
  v1_reduce.

Ltac v1_main Ht :=
  unfold V1.main, V1.main_body, V1.bind at 1;
  rewrite (V1_createResourceGroup_run _ _ _ _ Ht);
  v1_reduce;
  let listing := fresh "listing" in
  let Hlisting := fresh "Hlisting" in
  let name := fresh "name" in
  let e := fresh "e" in
  match goal with
  | |- context [allocated ?r] =>
      remember r as listing eqn:Hlisting;
      destruct (allocated listing) as [[name [e|]]| |] eqn:?
  end;
  cbv zeta;
  [ | match goal with
      | |- context [Err (?az ?h ?c)] =>
          let created := fresh "created" in
          let Hcreated := fresh "Hcreated" in
          remember (az h c) as created eqn:Hcreated;
          destruct (Err created) as [e|] eqn:?
      end | | ];
  unfold V1.bind, V1.return_, V1.defer, V1.remote, V1.ret;
  v1_reduce;
  repeat v1_step.

Lemma V1_main_unauthorized {Token} azure (g : V1.Globals Token) written :
  V1.token g = None ->
  V1.main azure g (V1.mk_World [] written []) = (2, V1.mk_World [] written []).
Proof.
  intros Ht. unfold V1.main, V1.main_body, V1.bind at 1.
  now rewrite (V1_createResourceGroup_unauthorized _ _ _ Ht).
Qed.

(** ** Runs of the earlier revision *)

Lemma V1_main_followsPlan {Token} azure (g : V1.Globals Token) written t :
  V1.token g = Some t ->
  V1_followsPlan (V1.main azure g (V1.mk_World [] written [])).
Proof.
  intros Ht. v1_main Ht.
  all: match goal with
       | H : allocated _ = Next (?name, None) |- _ =>
           exists name; pose proof (allocated_hasSamplePrefix _ _ H)
       | _ => exists resourceGroupNamePrefix;
              assert (hasSamplePrefix resourceGroupNamePrefix = true) by reflexivity
       end.
  all: first
         [ exists 1%nat; split; [assumption |]; split; [lia |]; left; reflexivity
         | exists 2%nat; split; [assumption |]; split; [lia |]; left; reflexivity
         | exists 3%nat; split; [assumption |]; split; [lia |]; right; reflexivity
         | exists 4%nat; split; [assumption |]; split; [lia |]; right; reflexivity ].
Qed.

Lemma V1_main_cleanupOnce {Token} azure (g : V1.Globals Token) written :
  V1_cleanupOnce (V1.main azure g (V1.mk_World [] written [])).
Proof.
  destruct (V1.token g) as [t|] eqn:Ht.
  2:{ rewrite (V1_main_unauthorized _ _ _ Ht). split; [reflexivity | intros name []]. }
  v1_main Ht.
  all: unfold V1_cleanupOnce; cbn [snd V1.exchanges];
    unfold V1.createdGroups, V1.deletedGroups;
    cbn [flat_map V1.request V1.reply app];
    repeat match goal with H : Err _ = _ |- _ => rewrite H end;
    cbn [absent app].
  all: split; [try (intros H; discriminate H); reflexivity |].
  all: intros rg Hin; try contradiction.
  all: destruct Hin as [<-|[]].
  all: match goal with
       | |- exists before x, ?l = _ /\ _ =>
           exists (removelast l), (last l (V1.mk_Exchange V1.GroupsList listing))
       end; cbn; repeat split.
Qed.

Lemma V1_main_unansweredStops {Token} azure (g : V1.Globals Token) written :
  V1_unansweredStops (V1.main azure g (V1.mk_World [] written [])).
Proof.
  destruct (V1.token g) as [t|] eqn:Ht.
  2:{ rewrite (V1_main_unauthorized _ _ _ Ht). intros x []. }
  v1_main Ht.
  all: unfold V1_unansweredStops; cbn [fst snd V1.exchanges]; intros x Hin Hcall Hnone.
  all: repeat (destruct Hin as [<-|Hin]; [try discriminate Hcall |]); try contradiction.
  all: cbn [V1.reply] in Hnone; try congruence.
  all: split; [reflexivity |].
  all: match goal with
       | |- exists before rg y, ?a :: ?b :: ?c :: ?d :: [?e] = _ /\ _ =>
           exists [a; b; c]
       | |- exists before rg y, ?a :: ?b :: ?c :: [?d] = _ /\ _ =>
           exists [a; b]
       end; do 2 eexists; split; reflexivity.
Qed.

Lemma V1_allocated_answers azure :
  V1.answers azure -> forall h, allocated (azure h V1.GroupsList) <> Panic.
Proof.
  intros Hanswers h. destruct (Hanswers h V1.GroupsList) as [Hresponse Hvalue].
  destruct (Hvalue eq_refl) as [names Hnames].
  unfold allocated. rewrite Hnames.
  destruct (Err _); [discriminate |].
  destruct (Response _) as [response|]; [| contradiction].
  destruct (http_StatusOK =? StatusCode response); [| discriminate].
  rewrite collectNames_named. now destruct (fold_left _ _ _).
Qed.

Lemma V1_main_exit_code {Token} azure (g : V1.Globals Token) written t :
  V1.token g = Some t ->
  V1.answers azure -> fst (V1.main azure g (V1.mk_World [] written [])) = 0.
Proof.
  intros Ht Hanswers. v1_main Ht; try reflexivity; exfalso.
  all: repeat match goal with
         | H : ?a = ?az ?h ?c |- _ =>
             is_var a; constr_eq az azure;
             pose proof (proj1 (Hanswers h c)); pose proof (V1_allocated_answers azure Hanswers h);
             subst a
         end.
  all: try congruence.
  all: match goal with
       | H : absent ?e && absent ?r = true |- _ =>
           apply andb_prop in H; destruct H as [_ H]; destruct r; [discriminate H | congruence]
       end.
Qed.

Section EarlierRun.

Context {GUID OAuthConfig Token : Type}.
Variable guid_Parse : string -> GUID + Error.
Variable guid_StringfD : GUID -> string.
Variable azure_OAuthConfigForTenant : string -> OAuthConfig + Error.
Variable azure_NewServicePrincipalToken : OAuthConfig -> string -> string -> Token + Error.
Variable azure : list V1.Exchange -> V1.Call -> Reply.

Local Abbreviation init1 := (V1.init guid_Parse guid_StringfD azure_OAuthConfigForTenant
                                     azure_NewServicePrincipalToken).
Local Abbreviation run1 := (V1.run guid_Parse guid_StringfD azure_OAuthConfigForTenant
                                   azure_NewServicePrincipalToken azure).

Lemma V1_run_main_of_init env :
  run1 env = V1.main azure (fst (init1 env)) (V1.mk_World [] (snd (init1 env)) []).
Proof.
  unfold V1.run. now destruct (V1.init _ _ _ _ _).
Qed.

(** [main] of the earlier revision runs whatever [init] found (it does not
    test [successfulInit]).  When [init] left no token, the run sends no
    request and ends with status 2, the panic of the first request of a
    client without a token.  When [init] left a token, the run sends the
    listing request and goes on along the plan of [main] for one resource
    group, whose name starts with the sample prefix; the deletion of that
    group, if any, is the last request.  So the virtual network is only
    ever deleted from the group VMsampleResourceGroup, which is not the
    group of the run. *)
Theorem V1_every_run_follows_the_plan env code w :
  run1 env = (code, w) ->
  (V1.token (fst (init1 env)) = None /\ code = 2 /\ V1.exchanges w = [])
  \/ (V1.token (fst (init1 env)) <> None
      /\ exists rg n,
           hasSamplePrefix rg = true /\ (1 <= n)%nat
           /\ (map V1.request (V1.exchanges w) = firstn n (V1.plan rg)
               \/ map V1.request (V1.exchanges w)
                  = (firstn n (V1.plan rg) ++ [V1.GroupsDelete rg])%list)).
Proof.
  intros Hrun. rewrite V1_run_main_of_init in Hrun.
  destruct (V1.token (fst (init1 env))) as [t|] eqn:Ht.
  - right. split; [discriminate |].
    pose proof (V1_main_followsPlan azure _ (snd (init1 env)) t Ht) as H.
    rewrite Hrun in H. exact H.
  - left. rewrite (V1_main_unauthorized _ _ _ Ht) in Hrun. injection Hrun as <- <-.
    repeat split.
Qed.

(** In the earlier revision too a resource group is deleted only when its
    creation returned no error, and then exactly once, by the last request
    of the run, also when [main] panicked. *)
Theorem V1_resource_group_is_deleted_exactly_once env code w :
  run1 env = (code, w) ->
  (V1.createdGroups (V1.exchanges w) = [] -> V1.deletedGroups (V1.exchanges w) = [])
  /\ (forall name, In name (V1.createdGroups (V1.exchanges w)) ->
        exists before x,
          V1.exchanges w = (before ++ [x])%list /\ V1.request x = V1.GroupsDelete name
          /\ V1.deletedGroups before = []).
Proof.
  intros Hrun. rewrite V1_run_main_of_init in Hrun.
  pose proof (V1_main_cleanupOnce azure (fst (init1 env)) (snd (init1 env))) as H.
  rewrite Hrun in H. exact H.
Qed.

(** The exit code of the earlier revision tells nothing of the failures of
    the service: when [init] left a token and the replies of the service
    all carry a response, the process ends with 0 whatever errors and
    statuses the replies carry. *)
Theorem V1_exit_code_hides_failures env :
  V1.token (fst (init1 env)) <> None ->
  V1.answers azure ->
  fst (run1 env) = 0.
Proof.
  intros Ht Hanswers. rewrite V1_run_main_of_init.
  destruct (V1.token (fst (init1 env))) as [t|] eqn:E; [| now destruct Ht].
  now apply (V1_main_exit_code azure _ _ t).
Qed.

(** A request for a virtual network that returns no response (with or
    without an error) makes [main] panic where it reads the status code for
    its report: the process ends with status 2 and the only request after
    it is the deferred deletion of the resource group. *)
Theorem V1_unanswered_network_request_panics env code w x :
  run1 env = (code, w) ->
  In x (V1.exchanges w) ->
  V1.isVirtualNetworkCall (V1.request x) = true ->
  Response (V1.reply x) = None ->
  code = 2
  /\ exists before rg y,
       V1.exchanges w = (before ++ [x; y])%list /\ V1.request y = V1.GroupsDelete rg.
Proof.
  intros Hrun. rewrite V1_run_main_of_init in Hrun.
  pose proof (V1_main_unansweredStops azure (fst (init1 env)) (snd (init1 env))) as H.
  rewrite Hrun in H. exact (H x).
Qed.

End EarlierRun.

(** ** The further theorems at sample inputs *)

Lemma azure_ok_listsGroups names w : listsGroups (azure_ok names) w names.
Proof. do 2 eexists. split; reflexivity. Qed.

Lemma getUniqueResourceGroupName_one_digit_suffixes_witness :
  Permutation (filter hasSamplePrefix mixed_listing)
              (resourceGroupNamePrefix :: map candidate [0; 1]%nat)
  /\ fst (getUniqueResourceGroupName (azure_ok mixed_listing) empty_world)
     = Next (candidate (firstMissing 0 [0; 1]%nat), None)
  /\ ~ In (candidate (firstMissing 0 [0; 1]%nat)) mixed_listing.
Proof.
  assert (Hp : Permutation (filter hasSamplePrefix mixed_listing)
                           (resourceGroupNamePrefix :: map candidate [0; 1]%nat)).
  { change (filter hasSamplePrefix mixed_listing)
      with [candidate 1; resourceGroupNamePrefix; candidate 0].
    cbn [map]. rewrite perm_swap. apply perm_skip. apply perm_swap. }
  split; [exact Hp |].
  apply (getUniqueResourceGroupName_one_digit_suffixes
           (azure_ok mixed_listing) empty_world mixed_listing [0; 1]%nat
           (mk_http_Response 200 "200 OK") None eq_refl eq_refl Hp).
  - repeat constructor.
  - repeat constructor; lia.
Defined.

Lemma getUniqueResourceGroupName_bare_prefix_iff_witness :
  listsGroups (azure_ok ["unrelated"; candidate 0]) empty_world ["unrelated"; candidate 0]
  /\ (fst (getUniqueResourceGroupName (azure_ok ["unrelated"; candidate 0]) empty_world)
        = Next (resourceGroupNamePrefix, None)
      <-> ~ In resourceGroupNamePrefix ["unrelated"; candidate 0]).
Proof.
  split; [apply azure_ok_listsGroups |].
  apply (getUniqueResourceGroupName_bare_prefix_iff
           (azure_ok ["unrelated"; candidate 0]) empty_world ["unrelated"; candidate 0]).
  apply azure_ok_listsGroups.
Defined.

Lemma getUniqueResourceGroupName_suffix_bound_witness :
  listsGroups (azure_ok twelve_groups) empty_world twelve_groups
  /\ In resourceGroupNamePrefix twelve_groups
  /\ exists i,
       fst (getUniqueResourceGroupName (azure_ok twelve_groups) empty_world)
         = Next (candidate i, None)
       /\ (i < length (filter hasSamplePrefix twelve_groups))%nat
       /\ forall j, (j < i)%nat -> In (candidate j) twelve_groups.
Proof.
  split; [apply azure_ok_listsGroups |].
  split; [now left |].
  apply (getUniqueResourceGroupName_suffix_bound (azure_ok twelve_groups) empty_world
                                                 twelve_groups).
  - apply azure_ok_listsGroups.
  - now left.
Defined.

Lemma getUniqueResourceGroupName_order_independent_witness :
  listsGroups (azure_ok mixed_listing) empty_world mixed_listing
  /\ listsGroups (azure_ok other_listing) empty_world other_listing
  /\ Permutation (filter hasSamplePrefix mixed_listing) (filter hasSamplePrefix other_listing)
  /\ fst (getUniqueResourceGroupName (azure_ok mixed_listing) empty_world)
     = fst (getUniqueResourceGroupName (azure_ok other_listing) empty_world).
Proof.
  assert (Hp : Permutation (filter hasSamplePrefix mixed_listing)
                           (filter hasSamplePrefix other_listing)).
  { change (filter hasSamplePrefix mixed_listing)
      with [candidate 1; resourceGroupNamePrefix; candidate 0].
    change (filter hasSamplePrefix other_listing)
      with [candidate 0; resourceGroupNamePrefix; candidate 1].
    apply (Permutation_rev [candidate 1; resourceGroupNamePrefix; candidate 0]). }
  split; [apply azure_ok_listsGroups |].
  split; [apply azure_ok_listsGroups |].
  split; [exact Hp |].
  exact (getUniqueResourceGroupName_order_independent
           (azure_ok mixed_listing) (azure_ok other_listing) empty_world empty_world
           mixed_listing other_listing
           (azure_ok_listsGroups _ _) (azure_ok_listsGroups _ _) Hp).
Defined.

Lemma getUniqueResourceGroupName_error_iff_witness :
  fst (getUniqueResourceGroupName azure_list_error empty_world)
    = Next (EmptyString, Some "timeout")
  /\ fst (getUniqueResourceGroupName azure_list_503 empty_world)
     = Next (EmptyString, Some ("Bad response: " ++ itoa 503)).
Proof.
  split.
  - apply (proj2 (getUniqueResourceGroupName_error_iff azure_list_error empty_world
                    EmptyString "timeout")).
    split; [reflexivity |]. left. reflexivity.
  - apply (proj2 (getUniqueResourceGroupName_error_iff azure_list_503 empty_world
                    EmptyString ("Bad response: " ++ itoa 503))).
    split; [reflexivity |]. right. split; [reflexivity |].
    exists (mk_http_Response 503 "503 Service Unavailable").
    split; [reflexivity |]. split; [discriminate | reflexivity].
Defined.

Lemma getUniqueResourceGroupName_panics_iff_witness :
  fst (getUniqueResourceGroupName azure_silent empty_world) = Panic.
Proof.
  apply (proj2 (getUniqueResourceGroupName_panics_iff azure_silent empty_world)).
  split; [reflexivity |]. left. reflexivity.
Defined.

Lemma getFailureStatus_unknown_iff_witness :
  getFailureStatus None None = unknownError.
Proof.
  apply (proj2 (proj2 (getFailureStatus_unknown_iff None None))).
  split; reflexivity.
Defined.

Lemma getFailureStatus_parts_witness :
  (exists rest,
     getFailureStatus (Some "reset") (Some (mk_http_Response 502 "502 Bad Gateway"))
     = tab ++ "Status Code: " ++ itoa 502 ++ nl
           ++ tab ++ "Status: " ++ "502 Bad Gateway" ++ nl ++ rest)
  /\ exists before,
       getFailureStatus (Some "reset") (Some (mk_http_Response 502 "502 Bad Gateway"))
       = before ++ tab ++ "Error: " ++ "reset" ++ nl.
Proof.
  destruct (getFailureStatus_parts (Some "reset")
                                   (Some (mk_http_Response 502 "502 Bad Gateway")))
    as [Hstatus Herror].
  split.
  - exact (Hstatus (mk_http_Response 502 "502 Bad Gateway") eq_refl).
  - exact (Herror "reset" eq_refl).
Defined.

Lemma executeWithStatus_returns_outcome_witness :
  executeWithStatus sample_globals (await azure_vnet_status_500
                                          (VirtualNetworksCreateOrUpdate "rg" "vnet"))
                    "Creating" empty_world
  = (Next (Some (mk_http_Response 500 "500 Internal Server Error"), None),
     narrated StdoutWriter (Some (mk_http_Response 500 "500 Internal Server Error")) None
              (mk_World [mk_Exchange (VirtualNetworksCreateOrUpdate "rg" "vnet")
                                     (azure_vnet_status_500
                                        [] (VirtualNetworksCreateOrUpdate "rg" "vnet"))]
                        [Stdout "Creating..."] 0 [])).
Proof.
  apply (executeWithStatus_returns_outcome
           sample_globals
           (await azure_vnet_status_500 (VirtualNetworksCreateOrUpdate "rg" "vnet"))
           "Creating" empty_world).
  - discriminate.
  - reflexivity.
  - reflexivity.
Defined.

Lemma executeWithStatus_only_writes_witness :
  let run := executeWithStatus sample_globals
               (await azure_vnet_fails (VirtualNetworksCreateOrUpdate "rg" "vnet"))
               "Creating" empty_world in
  let sent := [mk_Exchange (VirtualNetworksCreateOrUpdate "rg" "vnet")
                           (mk_Reply None (Some "quota exceeded") None None)] in
  exchanges (snd run) = sent
  /\ exitStatus (snd run) = 0
  /\ deferred (snd run) = []
  /\ exists report, console (snd run) = ([Stdout "Creating..."] ++ report)%list.
Proof.
  intros run sent.
  apply (executeWithStatus_only_writes
           sample_globals
           (await azure_vnet_fails (VirtualNetworksCreateOrUpdate "rg" "vnet"))
           "Creating" empty_world (mk_World sent [Stdout "Creating..."] 0 [])
           (Next (None, Some "quota exceeded"))).
  - discriminate.
  - reflexivity.
Defined.

Lemma executeWithStatus_never_reports_unknown_error_witness :
  exists report,
    console (snd (executeWithStatus sample_globals
                    (await azure_silent (GroupsDelete "rg")) "Deleting" empty_world))
    = ([Stdout "Deleting..."] ++ report)%list
    /\ ~ In (Stderr unknownError) report.
Proof.
  apply (executeWithStatus_never_reports_unknown_error
           sample_globals (await azure_silent (GroupsDelete "rg")) "Deleting" empty_world
           (mk_World [mk_Exchange (GroupsDelete "rg") (mk_Reply None None None None)]
                     [Stdout "Deleting..."] 0 [])
           (Next (None, None))).
  - discriminate.
  - reflexivity.
Defined.

Lemma createNetworkSecurityGroup_returns_retrieval_witness :
  fst (createNetworkSecurityGroup azure_nsg_creation_fails sample_globals "rg" "frontend"
                                  empty_world)
    = Next (mk_SecurityGroup (Some "frontend"), None)
  /\ map request
         (exchanges (snd (createNetworkSecurityGroup azure_nsg_creation_fails sample_globals
                                                     "rg" "frontend" empty_world)))
     = [SecurityGroupsCreateOrUpdate "rg" "frontend"; SecurityGroupsGet "rg" "frontend"].
Proof.
  destruct (createNetworkSecurityGroup_returns_retrieval
              azure_nsg_creation_fails sample_globals "rg" "frontend" empty_world)
    as [Hfst Hsnd].
  - discriminate.
  - reflexivity.
  - split; [exact Hfst |]. rewrite Hsnd. reflexivity.
Defined.

Lemma createResourceGroup_outcomes_witness :
  exitStatus (snd (createResourceGroup azure_list_503 sample_globals empty_world)) = 0
  /\ deferred (snd (createResourceGroup azure_list_503 sample_globals empty_world)) = []
  /\ exists added,
       exchanges (snd (createResourceGroup azure_list_503 sample_globals empty_world))
         = ([] ++ added)%list
       /\ match fst (createResourceGroup azure_list_503 sample_globals empty_world) with
          | Next (name, None) =>
              fst (getUniqueResourceGroupName azure_list_503 empty_world) = Next (name, None)
              /\ map request added = [GroupsList; GroupsCreateOrUpdate name sampleLocation]
              /\ createdGroups added = [name]
          | Next (name, Some _) =>
              name = EmptyString
              /\ createdGroups added = []
              /\ (operations added = [OpList]
                  \/ operations added = [OpList; OpCreate ResourceGroup])
          | Panic => operations added = [OpList]
          | Returned => False
          end.
Proof.
  apply (createResourceGroup_outcomes azure_list_503 sample_globals empty_world).
  discriminate.
Defined.

Lemma validateParameters_one_error_per_invalid_value_witness :
  length (fst (validateParameters sample_guid_Parse (fun s => s) two_invalid_globals)) = 2%nat
  /\ fst (validateParameters sample_guid_Parse (fun s => s) two_invalid_globals) <> [].
Proof.
  destruct (validateParameters_one_error_per_invalid_value
              sample_guid_Parse (fun s => s) two_invalid_globals) as [Hlen Hnil].
  split; [exact Hlen |].
  intros H. apply Hnil in H. discriminate H.
Defined.

Lemma init_token_iff_witness :
  token (fst (init sample_guid_Parse (fun s => s) sample_NewOAuthConfig
                   sample_NewServicePrincipalToken sample_flags sample_env)) <> None
  /\ token (fst (init sample_guid_Parse (fun s => s) sample_NewOAuthConfig
                      sample_NewServicePrincipalToken help_flags sample_env)) = None.
Proof.
  split.
  - apply (proj2 (init_token_iff sample_guid_Parse (fun s => s) sample_NewOAuthConfig
                                 sample_NewServicePrincipalToken sample_flags sample_env)).
    split; [reflexivity | exact sample_env_wellFormed].
  - destruct (token (fst (init sample_guid_Parse (fun s => s) sample_NewOAuthConfig
                               sample_NewServicePrincipalToken help_flags sample_env)))
      eqn:E; [| reflexivity].
    assert (H : flag_help help_flags = false).
    { apply (proj1 (init_token_iff sample_guid_Parse (fun s => s) sample_NewOAuthConfig
                                   sample_NewServicePrincipalToken help_flags sample_env)).
      rewrite E. discriminate. }
    discriminate H.
Defined.

Lemma every_run_follows_the_plan_witness :
  exists rg frontend backend n,
    map request (exchanges (snd (sample_run azure_first_rule_fails sample_flags sample_env)))
      = firstn n (plan rg frontend backend)
    \/ map request (exchanges (snd (sample_run azure_first_rule_fails sample_flags sample_env)))
       = (firstn n (plan rg frontend backend) ++ [GroupsDelete rg])%list.
Proof.
  exact (every_run_follows_the_plan
           sample_guid_Parse (fun s => s) sample_NewOAuthConfig
           sample_NewServicePrincipalToken azure_first_rule_fails sample_flags sample_env
           _ _ (sample_run_pair azure_first_rule_fails sample_flags sample_env)).
Defined.

Lemma quiet_run_writes_no_status_witness :
  flag_quiet quiet_pause_flags = true
  /\ (flat_map stdoutText
               (console (snd (sample_run (azure_ok []) quiet_pause_flags sample_env))) = []
      \/ (flag_pause quiet_pause_flags = true
          /\ flat_map stdoutText
                      (console (snd (sample_run (azure_ok []) quiet_pause_flags sample_env)))
             = [pausePrompt])).
Proof.
  split; [reflexivity |].
  exact (quiet_run_writes_no_status
           sample_guid_Parse (fun s => s) sample_NewOAuthConfig
           sample_NewServicePrincipalToken (azure_ok []) quiet_pause_flags sample_env
           _ _ eq_refl (sample_run_pair (azure_ok []) quiet_pause_flags sample_env)).
Defined.

Lemma run_waits_as_flags_say_witness :
  filter isWait (console (snd (sample_run (azure_ok []) delay_flags sample_env)))
    = [Sleep 3000000000].
Proof.
  destruct (run_waits_as_flags_say
              sample_guid_Parse (fun s => s) sample_NewOAuthConfig
              sample_NewServicePrincipalToken (azure_ok []) delay_flags sample_env
              _ _ (sample_run_pair (azure_ok []) delay_flags sample_env))
    as [H|(_ & _ & [[H _]|(_ & _ & H & _)])].
  - vm_compute in H. discriminate H.
  - discriminate H.
  - exact H.
Defined.

Lemma help_run_only_prints_usage_witness :
  flag_help help_flags = true
  /\ fst (sample_run (azure_ok []) help_flags env_without_tenant) = ExitSuccess
  /\ exchanges (snd (sample_run (azure_ok []) help_flags env_without_tenant)) = []
  /\ console (snd (sample_run (azure_ok []) help_flags env_without_tenant)) = [Usage].
Proof.
  split; [reflexivity |].
  exact (help_run_only_prints_usage
           sample_guid_Parse (fun s => s) sample_NewOAuthConfig
           sample_NewServicePrincipalToken (azure_ok []) help_flags env_without_tenant
           eq_refl).
Defined.

Lemma env_without_tenant_not_wellFormed :
  ~ wellFormedCredentials sample_guid_Parse (fun s => s) sample_NewOAuthConfig
                          sample_NewServicePrincipalToken env_without_tenant.
Proof.
  intros (tenant & subscription & client & config & t & H & _). now apply H.
Qed.

Lemma unauthenticated_run_sends_nothing_witness :
  flag_help sample_flags = false
  /\ fst (sample_run (azure_ok []) sample_flags env_without_tenant)
     = ExitAuthenticationFailure
  /\ exchanges (snd (sample_run (azure_ok []) sample_flags env_without_tenant)) = []
  /\ console (snd (sample_run (azure_ok []) sample_flags env_without_tenant))
     = (snd (init sample_guid_Parse (fun s => s) sample_NewOAuthConfig
                  sample_NewServicePrincipalToken sample_flags env_without_tenant)
        ++ [fatalAuthentication])%list.
Proof.
  split; [reflexivity |].
  exact (unauthenticated_run_sends_nothing
           sample_guid_Parse (fun s => s) sample_NewOAuthConfig
           sample_NewServicePrincipalToken (azure_ok []) sample_flags env_without_tenant
           eq_refl env_without_tenant_not_wellFormed).
Defined.

Lemma status_failure_is_reported_not_returned_witness :
  (fst (createVirtualNetwork azure_status_500 sample_globals "rg" empty_world)
     = Next ("sampleVirtualNetwork", None)
   /\ In (Stdout ("FAILED" ++ nl))
         (console (snd (createVirtualNetwork azure_status_500 sample_globals "rg"
                                             empty_world))))
  /\ fst (deleteResourceGroup azure_status_500 sample_globals "rg" empty_world) = Next None
  /\ In (Stdout ("FAILED" ++ nl))
        (console (snd (deleteResourceGroup azure_status_500 sample_globals "rg" empty_world))).
Proof.
  assert (Hstatus : StatusCode (mk_http_Response 500 "500 Internal Server Error")
                    <> http_StatusOK) by discriminate.
  destruct (status_failure_is_reported_not_returned
              azure_status_500 sample_globals "rg" empty_world
              (mk_http_Response 500 "500 Internal Server Error") None None
              eq_refl Hstatus) as [Hcreate Hdelete].
  split; [exact (Hcreate eq_refl) | exact (Hdelete eq_refl)].
Defined.

Lemma init_reports_each_invalid_value_witness :
  flag_help sample_flags = false
  /\ (0 < invalidCredentials sample_guid_Parse (fromEnv (Token := string) env_without_tenant))%nat
  /\ length (snd (init sample_guid_Parse (fun s => s) sample_NewOAuthConfig
                       sample_NewServicePrincipalToken sample_flags env_without_tenant))
     = invalidCredentials sample_guid_Parse (fromEnv (Token := string) env_without_tenant)
  /\ Forall invalidArgument
            (snd (init sample_guid_Parse (fun s => s) sample_NewOAuthConfig
                       sample_NewServicePrincipalToken sample_flags env_without_tenant))
  /\ token (fst (init sample_guid_Parse (fun s => s) sample_NewOAuthConfig
                      sample_NewServicePrincipalToken sample_flags env_without_tenant))
     = None.
Proof.
  assert (Hpos : (0 < invalidCredentials sample_guid_Parse
                                         (fromEnv (Token := string) env_without_tenant))%nat)
    by (vm_compute; lia).
  split; [reflexivity |]. split; [exact Hpos |].
  exact (init_reports_each_invalid_value
           sample_guid_Parse (fun s => s) sample_NewOAuthConfig
           sample_NewServicePrincipalToken sample_flags env_without_tenant eq_refl Hpos).
Defined.

Section EarlierInit.

Context {GUID OAuthConfig Token : Type}.
Variable guid_Parse : string -> GUID + Error.
Variable guid_StringfD : GUID -> string.
Variable azure_OAuthConfigForTenant : string -> OAuthConfig + Error.
Variable azure_NewServicePrincipalToken : OAuthConfig -> string -> string -> Token + Error.

Local Abbreviation init1 := (V1.init guid_Parse guid_StringfD azure_OAuthConfigForTenant
                                     azure_NewServicePrincipalToken).

Lemma V1_init_invalid env :
  V1_invalid guid_Parse guid_StringfD env <> [] ->
  snd (init1 env)
  = map (fun i => Stderr ("Invalid parameter. Details:" ++ nl ++ itoa (Z.of_nat i) ++ nl))
        (seq 0 (length (V1_invalid guid_Parse guid_StringfD env)))
  /\ V1.successfulInit (fst (init1 env)) = false
  /\ V1.token (fst (init1 env)) = None.
Proof.
  unfold V1_invalid, V1.init, V1.validateParameters.
  cbn [V1.tenantID V1.subscriptionID V1.clientID V1.clientSecret V1.token
       V1.successfulInit].
  destruct (String.eqb EmptyString (AZURE_TENANT_ID env));
    [| destruct (guid_Parse (AZURE_TENANT_ID env))];
    (destruct (String.eqb EmptyString (AZURE_SUBSCRIPTION_ID env));
     [| destruct (guid_Parse (AZURE_SUBSCRIPTION_ID env))]);
    (destruct (String.eqb EmptyString (AZURE_CLIENT_ID env));
     [| destruct (guid_Parse (AZURE_CLIENT_ID env))]);
    destruct (String.eqb EmptyString (AZURE_CLIENT_SECRET env));
    cbn [fst snd app length Nat.ltb Nat.leb];
    intros H; try (now contradiction H); repeat split.
Qed.

(** When [validateParameters] rejects a value, [init] of the earlier
    revision writes, for each error, its index in the list and not its
    text: two environments with as many rejected values give the same
    report, whichever values they are.  [init] then leaves
    [successfulInit] false and has no token. *)
Theorem V1_init_reports_only_the_number_of_errors env env' :
  V1_invalid guid_Parse guid_StringfD env <> [] ->
  length (V1_invalid guid_Parse guid_StringfD env)
    = length (V1_invalid guid_Parse guid_StringfD env') ->
  snd (init1 env) = snd (init1 env')
  /\ V1.successfulInit (fst (init1 env)) = false
  /\ V1.token (fst (init1 env)) = None.
Proof.
  intros Hne Hlen.
  assert (Hne' : V1_invalid guid_Parse guid_StringfD env' <> []).
  { intros H. rewrite H in Hlen. destruct (V1_invalid guid_Parse guid_StringfD env);
      [now apply Hne | discriminate Hlen]. }
  destruct (V1_init_invalid env Hne) as (-> & Hs & Ht).
  destruct (V1_init_invalid env' Hne') as (-> & _ & _).
  now rewrite Hlen.
Qed.

End EarlierInit.

(** ** The earlier revision at sample runs *)

Lemma V1_sample_run_pair azure env :
  V1.run V1.sample_guid_Parse (fun s => s) sample_NewOAuthConfig
         sample_NewServicePrincipalToken azure env
  = (fst (V1.sample_run azure env), snd (V1.sample_run azure env)).
Proof.
  unfold V1.sample_run. now destruct (V1.run _ _ _ _ _ _).
Qed.

Lemma V1_azure_refuses_answers : V1.answers V1.azure_refuses.
Proof.
  intros h c. split.
  - destruct c; discriminate.
  - intros ->. now exists [].
Qed.

Lemma V1_getResourceGroupName_is_getUniqueResourceGroupName_witness :
  fst (V1.getResourceGroupName V1.azure_ok (V1.mk_World [] [] []))
  = fst (getUniqueResourceGroupName (azure_ok []) empty_world).
Proof.
  apply (V1_getResourceGroupName_is_getUniqueResourceGroupName
           V1.azure_ok (V1.mk_World [] [] []) (azure_ok []) empty_world).
  reflexivity.
Defined.

Lemma V1_sample_env_token :
  V1.token (fst (V1.init V1.sample_guid_Parse (fun s => s) sample_NewOAuthConfig
                         sample_NewServicePrincipalToken sample_env)) <> None.
Proof. vm_compute. discriminate. Qed.

Lemma V1_every_run_follows_the_plan_witness :
  (fst (V1.sample_run V1.azure_ok env_without_tenant) = 2
   /\ V1.exchanges (snd (V1.sample_run V1.azure_ok env_without_tenant)) = [])
  /\ exists rg n,
       hasSamplePrefix rg = true /\ (1 <= n)%nat
       /\ (map V1.request (V1.exchanges (snd (V1.sample_run V1.azure_ok sample_env)))
             = firstn n (V1.plan rg)
           \/ map V1.request (V1.exchanges (snd (V1.sample_run V1.azure_ok sample_env)))
              = (firstn n (V1.plan rg) ++ [V1.GroupsDelete rg])%list).
Proof.
  split.
  - destruct (V1_every_run_follows_the_plan
                V1.sample_guid_Parse (fun s => s) sample_NewOAuthConfig
                sample_NewServicePrincipalToken V1.azure_ok env_without_tenant _ _
                (V1_sample_run_pair V1.azure_ok env_without_tenant))
      as [(_ & Hcode & Hnone)|(Ht & _)].
    + split; [exact Hcode | exact Hnone].
    + exfalso. apply Ht. vm_compute. reflexivity.
  - destruct (V1_every_run_follows_the_plan
                V1.sample_guid_Parse (fun s => s) sample_NewOAuthConfig
                sample_NewServicePrincipalToken V1.azure_ok sample_env _ _
                (V1_sample_run_pair V1.azure_ok sample_env))
      as [(Ht & _)|(_ & H)].
    + exfalso. vm_compute in Ht. discriminate Ht.
    + exact H.
Defined.

Lemma V1_resource_group_is_deleted_exactly_once_witness :
  In resourceGroupNamePrefix
     (V1.createdGroups (V1.exchanges (snd (V1.sample_run V1.azure_unreachable_network
                                                         sample_env))))
  /\ exists before x,
       V1.exchanges (snd (V1.sample_run V1.azure_unreachable_network sample_env))
         = (before ++ [x])%list
       /\ V1.request x = V1.GroupsDelete resourceGroupNamePrefix
       /\ V1.deletedGroups before = [].
Proof.
  assert (Hin : In resourceGroupNamePrefix
                   (V1.createdGroups
                      (V1.exchanges (snd (V1.sample_run V1.azure_unreachable_network
                                                        sample_env)))))
    by (vm_compute; left; reflexivity).
  split; [exact Hin |].
  exact (proj2 (V1_resource_group_is_deleted_exactly_once
                  V1.sample_guid_Parse (fun s => s) sample_NewOAuthConfig
                  sample_NewServicePrincipalToken V1.azure_unreachable_network sample_env
                  _ _ (V1_sample_run_pair V1.azure_unreachable_network sample_env))
               resourceGroupNamePrefix Hin).
Defined.

Lemma V1_exit_code_hides_failures_witness :
  V1.token (fst (V1.init V1.sample_guid_Parse (fun s => s) sample_NewOAuthConfig
                         sample_NewServicePrincipalToken sample_env)) <> None
  /\ V1.answers V1.azure_refuses
  /\ fst (V1.sample_run V1.azure_refuses sample_env) = 0.
Proof.
  split; [exact V1_sample_env_token |].
  split; [exact V1_azure_refuses_answers |].
  exact (V1_exit_code_hides_failures
           V1.sample_guid_Parse (fun s => s) sample_NewOAuthConfig
           sample_NewServicePrincipalToken V1.azure_refuses sample_env
           V1_sample_env_token V1_azure_refuses_answers).
Defined.

Lemma V1_unanswered_network_request_panics_witness :
  exists x,
    In x (V1.exchanges (snd (V1.sample_run V1.azure_unreachable_network sample_env)))
    /\ V1.isVirtualNetworkCall (V1.request x) = true
    /\ Response (V1.reply x) = None
    /\ fst (V1.sample_run V1.azure_unreachable_network sample_env) = 2
    /\ exists before rg y,
         V1.exchanges (snd (V1.sample_run V1.azure_unreachable_network sample_env))
           = (before ++ [x; y])%list
         /\ V1.request y = V1.GroupsDelete rg.
Proof.
  assert (H : exists x,
             In x (V1.exchanges (snd (V1.sample_run V1.azure_unreachable_network
                                                    sample_env)))
             /\ V1.isVirtualNetworkCall (V1.request x) = true
             /\ Response (V1.reply x) = None).
  { vm_compute. eexists. split; [do 2 right; left; reflexivity |]. split; reflexivity. }
  destruct H as (x & Hin & Hcall & Hnone).
  exists x. split; [exact Hin |]. split; [exact Hcall |]. split; [exact Hnone |].
  exact (V1_unanswered_network_request_panics
           V1.sample_guid_Parse (fun s => s) sample_NewOAuthConfig
           sample_NewServicePrincipalToken V1.azure_unreachable_network sample_env
           _ _ x (V1_sample_run_pair V1.azure_unreachable_network sample_env)
           Hin Hcall Hnone).
Defined.

Lemma V1_init_reports_only_the_number_of_errors_witness :
  V1_invalid V1.sample_guid_Parse (fun s => s) env_without_tenant <> []
  /\ length (V1_invalid V1.sample_guid_Parse (fun s => s) env_without_tenant)
     = length (V1_invalid V1.sample_guid_Parse (fun s => s) env_without_secret)
  /\ snd (V1.init V1.sample_guid_Parse (fun s => s) sample_NewOAuthConfig
                  sample_NewServicePrincipalToken env_without_tenant)
     = snd (V1.init V1.sample_guid_Parse (fun s => s) sample_NewOAuthConfig
                    sample_NewServicePrincipalToken env_without_secret)
  /\ V1.successfulInit (fst (V1.init V1.sample_guid_Parse (fun s => s) sample_NewOAuthConfig
                                     sample_NewServicePrincipalToken env_without_tenant))
     = false
  /\ V1.token (fst (V1.init V1.sample_guid_Parse (fun s => s) sample_NewOAuthConfig
                            sample_NewServicePrincipalToken env_without_tenant))
     = None.
Proof.
  assert (Hne : V1_invalid V1.sample_guid_Parse (fun s => s) env_without_tenant <> [])
    by (vm_compute; discriminate).
  assert (Hlen : length (V1_invalid V1.sample_guid_Parse (fun s => s) env_without_tenant)
                 = length (V1_invalid V1.sample_guid_Parse (fun s => s) env_without_secret))
    by (vm_compute; reflexivity).
  split; [exact Hne |]. split; [exact Hlen |].
  exact (V1_init_reports_only_the_number_of_errors
           V1.sample_guid_Parse (fun s => s) sample_NewOAuthConfig
           sample_NewServicePrincipalToken env_without_tenant env_without_secret Hne Hlen).
Defined.
